(** * The DOS mouse driver interface (INT 33h) of DOSBox Staging

    A shallow embedding of [src/hardware/mouse/mouseif_dos_driver.cpp]:
    the driver state block, the "hardware" variables next to it, the
    pending-input accumulator, the cursor renderer and the function
    dispatcher [int33_handler], followed by the properties of the
    natural-language specification that were checked against them.

    Conventions.
    - Fixed-width integers are [Z] with the conversion of every
      [static_cast] written out ([Int.u16], [Int.s16], ...).
    - [float] is IEEE-754 binary32, computed with the Standard Library's
      [SpecFloat] operations at precision 24 and maximal exponent 128.
    - The emulator subsystems the driver calls into (video BIOS, guest
      memory, I/O ports, PIC, the mouse pacing layer, logging) are not part
      of this file.  Every call into them is appended to a trace of
      [Event]s, and every value read from them is given by a record of
      [Collaborators] whose answers may depend on the whole trace so far.
      The theorems hold for every such record. *)

From Stdlib Require Import ZArith List Bool Lia SpecFloat String.
From stdpp Require Import base list.
Import ListNotations.
Local Open Scope Z_scope.

(** ** Fixed-width integers *)

Module Int.

(** [static_cast<uint8_t>], [static_cast<uint16_t>]. *)
Definition u8 (z : Z) : Z := z mod 256.
Definition u16 (z : Z) : Z := z mod 65536.

(** [static_cast<int8_t>], [static_cast<int16_t>] (two's complement). *)
Definition s8 (z : Z) : Z := (z + 128) mod 256 - 128.
Definition s16 (z : Z) : Z := (z + 32768) mod 65536 - 32768.

Definition INT8_MIN : Z := -128.
Definition INT8_MAX : Z := 127.
Definition INT16_MIN : Z := -32768.
Definition INT16_MAX : Z := 32767.
Definition UINT16_MAX : Z := 65535.
Definition UINT8_MAX : Z := 255.

Definition is_u8 (z : Z) : Prop := 0 <= z <= 255.
Definition is_u16 (z : Z) : Prop := 0 <= z <= 65535.
Definition is_s8 (z : Z) : Prop := -128 <= z <= 127.
Definition is_s16 (z : Z) : Prop := -32768 <= z <= 32767.

(** [std::min], [std::max] and [std::clamp] on integers. *)
Definition clamp (v lo hi : Z) : Z :=
  if v <? lo then lo else if hi <? v then hi else v.

(** [read_low_byte], [read_high_byte] of a 16-bit word, and the
    8-bit halves of a 16-bit register. *)
Definition low_byte (w : Z) : Z := w mod 256.
Definition high_byte (w : Z) : Z := (w / 256) mod 256.
Definition with_low_byte (w b : Z) : Z := high_byte w * 256 + b mod 256.
Definition with_high_byte (w b : Z) : Z := (b mod 256) * 256 + low_byte w.

End Int.

(** Modelled from the spec: [clamp_to_int8] of [math_utils.h], which is
    not among the sources.  The specification describes the wheel counter
    as "an 8-bit clamped counter" and the pending wheel delta as "clamped
    to 8-bit signed range": the value is clamped into [INT8_MIN, INT8_MAX]. *)
Definition clamp_to_int8 (val : Z) : Z :=
  Int.clamp val Int.INT8_MIN Int.INT8_MAX.

(** ** Binary32 floating point *)

Module F32.

Definition prec : Z := 24.
Definition emax : Z := 128.

Definition t : Type := spec_float.

(** Conversion of an integer ([static_cast<float>], or the implicit
    conversion of an integer operand), rounding to nearest even. *)
Definition of_Z (z : Z) : t := binary_normalize prec emax z 0 false.

(** The binary32 nearest to [m * 2^e]. *)
Definition of_scaled (m e : Z) : t := binary_normalize prec emax m e false.

Definition zero : t := S754_zero false.

Definition add : t -> t -> t := SFadd prec emax.
Definition sub : t -> t -> t := SFsub prec emax.
Definition mul : t -> t -> t := SFmul prec emax.
Definition div : t -> t -> t := SFdiv prec emax.
Definition sqrt : t -> t := SFsqrt prec emax.
Definition ltb : t -> t -> bool := SFltb.
Definition eqb : t -> t -> bool := SFeqb.

Definition is_nan (x : t) : bool :=
  match x with S754_nan => true | _ => false end.

(** [std::clamp(v, lo, hi)]: [(v < lo) ? lo : (hi < v) ? hi : v]. *)
Definition clamp (v lo hi : t) : t :=
  if ltb v lo then lo else if ltb hi v then hi else v.

(** The integer nearest to [m * 2^e] for a positive mantissa, halfway
    cases away from zero. *)
Definition round_away (m : positive) (e : Z) : Z :=
  match e with
  | Z0 => Zpos m
  | Zpos _ => Zpos m * 2 ^ e
  | Zneg p =>
      let d := 2 ^ Zpos p in
      let q := Zpos m / d in
      if 2 * (Zpos m mod d) <? d then q else q + 1
  end.

Definition LONG_MIN : Z := - 2 ^ 63.
Definition LONG_MAX : Z := 2 ^ 63 - 1.

(** [std::lround] with a 64-bit [long].  The C standard leaves the
    result unspecified when the rounded value is not representable
    (infinities, NaN, magnitudes of 2^63 and more); the x86-64 conversion
    instruction then gives [LONG_MIN], which is what is modelled.  Every
    use in the driver narrows the result to 16 bits. *)
Definition lround (x : t) : Z :=
  match x with
  | S754_zero _ => 0
  | S754_finite s m e =>
      let r := if s then - round_away m e else round_away m e in
      if (LONG_MIN <=? r) && (r <=? LONG_MAX) then r else LONG_MIN
  | S754_infinity _ | S754_nan => LONG_MIN
  end.

End F32.

(** ** Register conversions (common helper routines) *)

Definition signed_to_reg8 (x : Z) : Z :=
  if 0 <=? x then Int.u8 x
  else (* -1 for 0xff, -2 for 0xfe, etc. *) Int.u8 (256 + x).

Definition signed_to_reg16 (x : Z) : Z :=
  if 0 <=? x then Int.u16 x
  else (* -1 for 0xffff, -2 for 0xfffe, etc. *) Int.u16 (65536 + x).

(** [bit::is(x, b15)] tests the highest bit of the 16-bit register. *)
Definition reg_to_signed16 (x : Z) : Z :=
  if Z.testbit x 15 then (* 0xffff for -1, 0xfffe for -2, etc. *)
    Int.s16 (x - 65536)
  else Int.s16 x.


(** ** Data model *)

Definition cursor_size_x : Z := 16.
Definition cursor_size_y : Z := 16.
Definition cursor_size_xy : Z := cursor_size_x * cursor_size_y.

Definition num_buttons : Z := 3.

Inductive MouseCursor : Type := Software | Hardware | Text.

(** [enum class MouseEventId]: the values are compatible with the mask of
    driver function 0x0c. *)
Module MouseEventId.
Definition NotDosEvent : Z := 0.
Definition MouseHasMoved : Z := 1.
Definition PressedLeft : Z := 2.
Definition ReleasedLeft : Z := 4.
Definition PressedRight : Z := 8.
Definition ReleasedRight : Z := 16.
Definition PressedMiddle : Z := 32.
Definition ReleasedMiddle : Z := 64.
Definition WheelHasMoved : Z := 1.
End MouseEventId.

(** Arrays are lists; [aget] reads an element and [aset] stores one
    (every index the driver uses is in range). *)
Definition aget (l : list Z) (i : Z) : Z := nth (Z.to_nat i) l 0.
Definition aset (l : list Z) (i : Z) (v : Z) : list Z := <[Z.to_nat i := v]> l.

(** [set_field e p v] builds the record [e] (given as the constructor
    applied to the projections of a record) with [v] in place of the
    projection [p]. *)
Ltac set_field e p v :=
  let e' := eval hnf in e in
  match eval pattern p in e' with
  | ?f _ => let r := eval cbv beta in (f v) in exact r
  end.

Module Background.

(** [state.background]: the saved cursor background. *)
Record t : Type := mk {
  enabled : bool;
  pos_x : Z; (* uint16_t *)
  pos_y : Z; (* uint16_t *)
  data : list Z (* uint8_t[cursor_size_xy] *)
}.

Definition eta (s : t) : t :=
  mk (enabled s) (pos_x s) (pos_y s) (data s).

Definition set_enabled (v : bool) (s : t) : t :=
  ltac:(set_field (eta s) (enabled s) v).
Definition set_pos_x (v : Z) (s : t) : t :=
  ltac:(set_field (eta s) (pos_x s) v).
Definition set_pos_y (v : Z) (s : t) : t :=
  ltac:(set_field (eta s) (pos_y s) v).
Definition set_data (v : list Z) (s : t) : t :=
  ltac:(set_field (eta s) (data s) v).

End Background.

Module Pending.

(** Data from mouse events which were already received, but not
      necessarily visible to the application. *)
Record t : Type := mk {
  x_rel : F32.t;
  y_rel : F32.t;
  x_abs : Z; (* uint16_t *)
  y_abs : Z; (* uint16_t *)
  w_rel : Z (* int16_t *)
}.

Definition eta (s : t) : t :=
  mk (x_rel s) (y_rel s) (x_abs s) (y_abs s) (w_rel s).

Definition set_x_rel (v : F32.t) (s : t) : t :=
  ltac:(set_field (eta s) (x_rel s) v).
Definition set_y_rel (v : F32.t) (s : t) : t :=
  ltac:(set_field (eta s) (y_rel s) v).
Definition set_x_abs (v : Z) (s : t) : t :=
  ltac:(set_field (eta s) (x_abs s) v).
Definition set_y_abs (v : Z) (s : t) : t :=
  ltac:(set_field (eta s) (y_abs s) v).
Definition set_w_rel (v : Z) (s : t) : t :=
  ltac:(set_field (eta s) (w_rel s) v).

Definition Reset (s : t) : t :=
  set_w_rel 0 (set_y_rel F32.zero (set_x_rel F32.zero s)).

End Pending.

Module State.

(** The DOS driver state: the data saved and restored during task
      switching, which the guest can read or write as a whole through
      functions 0x15 / 0x16 / 0x17. *)
Record t : Type := mk {
  enabled : bool;
  wheel_api : bool; (* CuteMouse compatible wheel extension *)
  times_pressed : list Z; (* uint16_t[num_buttons] *)
  times_released : list Z;
  last_released_x : list Z;
  last_released_y : list Z;
  last_pressed_x : list Z;
  last_pressed_y : list Z;
  last_wheel_moved_x : Z; (* uint16_t *)
  last_wheel_moved_y : Z;
  mickey_counter_x : Z; (* int16_t *)
  mickey_counter_y : Z;
  mickey_delta_x : F32.t;
  mickey_delta_y : F32.t;
  mickeys_per_pixel_x : F32.t;
  mickeys_per_pixel_y : F32.t;
  double_speed_threshold : Z; (* uint16_t, in mickeys/s *)
  granularity_x : Z; (* uint16_t mask *)
  granularity_y : Z;
  update_region_x : Z * Z; (* int16_t[2] *)
  update_region_y : Z * Z; (* int16_t[2] *)
  language : Z; (* uint16_t, unused *)
  mode : Z; (* uint8_t *)
  sensitivity_x : Z; (* uint8_t *)
  sensitivity_y : Z; (* uint8_t *)
  unknown_01 : Z; (* uint8_t *)
  sensitivity_coeff_x : F32.t;
  sensitivity_coeff_y : F32.t;
  minpos_x : Z; (* int16_t *)
  maxpos_x : Z;
  minpos_y : Z;
  maxpos_y : Z;
  page : Z; (* uint8_t, cursor display page number *)
  inhibit_draw : bool;
  hidden : Z; (* uint16_t *)
  oldhidden : Z; (* uint16_t *)
  clipx : Z; (* int16_t *)
  clipy : Z; (* int16_t *)
  hot_x : Z; (* int16_t, cursor hot spot *)
  hot_y : Z;
  background : Background.t;
  cursor_type : MouseCursor;
  text_and_mask : Z; (* uint16_t *)
  text_xor_mask : Z; (* uint16_t *)
  user_screen_mask : bool;
  user_cursor_mask : bool;
  user_def_screen_mask : list Z; (* uint16_t[cursor_size_x] *)
  user_def_cursor_mask : list Z; (* uint16_t[cursor_size_y] *)
  user_callback_mask : Z; (* uint16_t *)
  user_callback_segment : Z; (* uint16_t *)
  user_callback_offset : Z (* uint16_t *)
}.

Definition eta (s : t) : t :=
  mk (enabled s) (wheel_api s) (times_pressed s) (times_released s)
    (last_released_x s) (last_released_y s) (last_pressed_x s)
    (last_pressed_y s) (last_wheel_moved_x s) (last_wheel_moved_y s)
    (mickey_counter_x s) (mickey_counter_y s) (mickey_delta_x s)
    (mickey_delta_y s) (mickeys_per_pixel_x s) (mickeys_per_pixel_y s)
    (double_speed_threshold s) (granularity_x s) (granularity_y s)
    (update_region_x s) (update_region_y s) (language s) (mode s)
    (sensitivity_x s) (sensitivity_y s) (unknown_01 s) (sensitivity_coeff_x
    s) (sensitivity_coeff_y s) (minpos_x s) (maxpos_x s) (minpos_y s)
    (maxpos_y s) (page s) (inhibit_draw s) (hidden s) (oldhidden s) (clipx
    s) (clipy s) (hot_x s) (hot_y s) (background s) (cursor_type s)
    (text_and_mask s) (text_xor_mask s) (user_screen_mask s)
    (user_cursor_mask s) (user_def_screen_mask s) (user_def_cursor_mask s)
    (user_callback_mask s) (user_callback_segment s) (user_callback_offset
    s).

Definition set_enabled (v : bool) (s : t) : t :=
  ltac:(set_field (eta s) (enabled s) v).
Definition set_wheel_api (v : bool) (s : t) : t :=
  ltac:(set_field (eta s) (wheel_api s) v).
Definition set_times_pressed (v : list Z) (s : t) : t :=
  ltac:(set_field (eta s) (times_pressed s) v).
Definition set_times_released (v : list Z) (s : t) : t :=
  ltac:(set_field (eta s) (times_released s) v).
Definition set_last_released_x (v : list Z) (s : t) : t :=
  ltac:(set_field (eta s) (last_released_x s) v).
Definition set_last_released_y (v : list Z) (s : t) : t :=
  ltac:(set_field (eta s) (last_released_y s) v).
Definition set_last_pressed_x (v : list Z) (s : t) : t :=
  ltac:(set_field (eta s) (last_pressed_x s) v).
Definition set_last_pressed_y (v : list Z) (s : t) : t :=
  ltac:(set_field (eta s) (last_pressed_y s) v).
Definition set_last_wheel_moved_x (v : Z) (s : t) : t :=
  ltac:(set_field (eta s) (last_wheel_moved_x s) v).
Definition set_last_wheel_moved_y (v : Z) (s : t) : t :=
  ltac:(set_field (eta s) (last_wheel_moved_y s) v).
Definition set_mickey_counter_x (v : Z) (s : t) : t :=
  ltac:(set_field (eta s) (mickey_counter_x s) v).
Definition set_mickey_counter_y (v : Z) (s : t) : t :=
  ltac:(set_field (eta s) (mickey_counter_y s) v).
Definition set_mickey_delta_x (v : F32.t) (s : t) : t :=
  ltac:(set_field (eta s) (mickey_delta_x s) v).
Definition set_mickey_delta_y (v : F32.t) (s : t) : t :=
  ltac:(set_field (eta s) (mickey_delta_y s) v).
Definition set_mickeys_per_pixel_x (v : F32.t) (s : t) : t :=
  ltac:(set_field (eta s) (mickeys_per_pixel_x s) v).
Definition set_mickeys_per_pixel_y (v : F32.t) (s : t) : t :=
  ltac:(set_field (eta s) (mickeys_per_pixel_y s) v).
Definition set_double_speed_threshold (v : Z) (s : t) : t :=
  ltac:(set_field (eta s) (double_speed_threshold s) v).
Definition set_granularity_x (v : Z) (s : t) : t :=
  ltac:(set_field (eta s) (granularity_x s) v).
Definition set_granularity_y (v : Z) (s : t) : t :=
  ltac:(set_field (eta s) (granularity_y s) v).
Definition set_update_region_x (v : Z * Z) (s : t) : t :=
  ltac:(set_field (eta s) (update_region_x s) v).
Definition set_update_region_y (v : Z * Z) (s : t) : t :=
  ltac:(set_field (eta s) (update_region_y s) v).
Definition set_language (v : Z) (s : t) : t :=
  ltac:(set_field (eta s) (language s) v).
Definition set_mode (v : Z) (s : t) : t :=
  ltac:(set_field (eta s) (mode s) v).
Definition set_sensitivity_x (v : Z) (s : t) : t :=
  ltac:(set_field (eta s) (sensitivity_x s) v).
Definition set_sensitivity_y (v : Z) (s : t) : t :=
  ltac:(set_field (eta s) (sensitivity_y s) v).
Definition set_unknown_01 (v : Z) (s : t) : t :=
  ltac:(set_field (eta s) (unknown_01 s) v).
Definition set_sensitivity_coeff_x (v : F32.t) (s : t) : t :=
  ltac:(set_field (eta s) (sensitivity_coeff_x s) v).
Definition set_sensitivity_coeff_y (v : F32.t) (s : t) : t :=
  ltac:(set_field (eta s) (sensitivity_coeff_y s) v).
Definition set_minpos_x (v : Z) (s : t) : t :=
  ltac:(set_field (eta s) (minpos_x s) v).
Definition set_maxpos_x (v : Z) (s : t) : t :=
  ltac:(set_field (eta s) (maxpos_x s) v).
Definition set_minpos_y (v : Z) (s : t) : t :=
  ltac:(set_field (eta s) (minpos_y s) v).
Definition set_maxpos_y (v : Z) (s : t) : t :=
  ltac:(set_field (eta s) (maxpos_y s) v).
Definition set_page (v : Z) (s : t) : t :=
  ltac:(set_field (eta s) (page s) v).
Definition set_inhibit_draw (v : bool) (s : t) : t :=
  ltac:(set_field (eta s) (inhibit_draw s) v).
Definition set_hidden (v : Z) (s : t) : t :=
  ltac:(set_field (eta s) (hidden s) v).
Definition set_oldhidden (v : Z) (s : t) : t :=
  ltac:(set_field (eta s) (oldhidden s) v).
Definition set_clipx (v : Z) (s : t) : t :=
  ltac:(set_field (eta s) (clipx s) v).
Definition set_clipy (v : Z) (s : t) : t :=
  ltac:(set_field (eta s) (clipy s) v).
Definition set_hot_x (v : Z) (s : t) : t :=
  ltac:(set_field (eta s) (hot_x s) v).
Definition set_hot_y (v : Z) (s : t) : t :=
  ltac:(set_field (eta s) (hot_y s) v).
Definition set_background (v : Background.t) (s : t) : t :=
  ltac:(set_field (eta s) (background s) v).
Definition set_cursor_type (v : MouseCursor) (s : t) : t :=
  ltac:(set_field (eta s) (cursor_type s) v).
Definition set_text_and_mask (v : Z) (s : t) : t :=
  ltac:(set_field (eta s) (text_and_mask s) v).
Definition set_text_xor_mask (v : Z) (s : t) : t :=
  ltac:(set_field (eta s) (text_xor_mask s) v).
Definition set_user_screen_mask (v : bool) (s : t) : t :=
  ltac:(set_field (eta s) (user_screen_mask s) v).
Definition set_user_cursor_mask (v : bool) (s : t) : t :=
  ltac:(set_field (eta s) (user_cursor_mask s) v).
Definition set_user_def_screen_mask (v : list Z) (s : t) : t :=
  ltac:(set_field (eta s) (user_def_screen_mask s) v).
Definition set_user_def_cursor_mask (v : list Z) (s : t) : t :=
  ltac:(set_field (eta s) (user_def_cursor_mask s) v).
Definition set_user_callback_mask (v : Z) (s : t) : t :=
  ltac:(set_field (eta s) (user_callback_mask s) v).
Definition set_user_callback_segment (v : Z) (s : t) : t :=
  ltac:(set_field (eta s) (user_callback_segment s) v).
Definition set_user_callback_offset (v : Z) (s : t) : t :=
  ltac:(set_field (eta s) (user_callback_offset s) v).

End State.

Module VgaRegs.

(** [vga_regs]: VGA registers saved around a graphic-mode draw. *)
Record t : Type := mk {
  sequ_address : Z; (* uint8_t *)
  sequ_data : Z; (* uint8_t *)
  grdc_address : list Z (* uint8_t[9] *)
}.

Definition eta (s : t) : t :=
  mk (sequ_address s) (sequ_data s) (grdc_address s).

Definition set_sequ_address (v : Z) (s : t) : t :=
  ltac:(set_field (eta s) (sequ_address s) v).
Definition set_sequ_data (v : Z) (s : t) : t :=
  ltac:(set_field (eta s) (sequ_data s) v).
Definition set_grdc_address (v : list Z) (s : t) : t :=
  ltac:(set_field (eta s) (grdc_address s) v).

End VgaRegs.

Module Regs.

(** The 16-bit CPU registers the handler reads and writes, and the
      [es] segment register (its value and its physical base). *)
Record t : Type := mk {
  ax : Z;
  bx : Z;
  cx : Z;
  dx : Z;
  si : Z;
  di : Z;
  es_val : Z; (* SegValue(es) *)
  es_phys : Z (* SegPhys(es) *)
}.

Definition eta (s : t) : t :=
  mk (ax s) (bx s) (cx s) (dx s) (si s) (di s) (es_val s) (es_phys s).

Definition set_ax (v : Z) (s : t) : t :=
  ltac:(set_field (eta s) (ax s) v).
Definition set_bx (v : Z) (s : t) : t :=
  ltac:(set_field (eta s) (bx s) v).
Definition set_cx (v : Z) (s : t) : t :=
  ltac:(set_field (eta s) (cx s) v).
Definition set_dx (v : Z) (s : t) : t :=
  ltac:(set_field (eta s) (dx s) v).
Definition set_si (v : Z) (s : t) : t :=
  ltac:(set_field (eta s) (si s) v).
Definition set_di (v : Z) (s : t) : t :=
  ltac:(set_field (eta s) (di s) v).
Definition set_es_val (v : Z) (s : t) : t :=
  ltac:(set_field (eta s) (es_val s) v).
Definition set_es_phys (v : Z) (s : t) : t :=
  ltac:(set_field (eta s) (es_phys s) v).

(** The 8-bit halves: [reg_al], [reg_bl], [reg_bh], [reg_cl], [reg_ch],
    [reg_dl]. *)
Definition al (r : t) : Z := Int.low_byte (ax r).
Definition bl (r : t) : Z := Int.low_byte (bx r).
Definition bh (r : t) : Z := Int.high_byte (bx r).
Definition cl (r : t) : Z := Int.low_byte (cx r).
Definition dl (r : t) : Z := Int.low_byte (dx r).
Definition set_al (v : Z) (r : t) : t := set_ax (Int.with_low_byte (ax r) v) r.
Definition set_bl (v : Z) (r : t) : t := set_bx (Int.with_low_byte (bx r) v) r.
Definition set_bh (v : Z) (r : t) : t := set_bx (Int.with_high_byte (bx r) v) r.
Definition set_cl (v : Z) (r : t) : t := set_cx (Int.with_low_byte (cx r) v) r.
Definition set_ch (v : Z) (r : t) : t := set_cx (Int.with_high_byte (cx r) v) r.

(** [SegSet16(es, val)]: the value and the real-mode base [val << 4]. *)
Definition SegSet16_es (val : Z) (r : t) : t :=
  set_es_phys (Z.shiftl val 4) (set_es_val val r).

End Regs.

(** ** The collaborators *)

Inductive VideoModeType : Type := M_TEXT | M_GRAPHICS.

(** The fields of [CurMode] the driver reads. *)
Record VideoModeBlock : Type := {
  mode_type : VideoModeType;
  swidth : Z;
  sheight : Z
}.

Inductive LogSeverity : Type := LOG_NORMAL | LOG_WARN | LOG_ERROR.

(** One call from the driver into another subsystem of the emulator. *)
Inductive Event : Type :=
  | EvWriteChar (col row page chr attr : Z) (useattr : bool)
  | EvReadCharAttr (col row page : Z)
  | EvPutPixel (x y page color : Z)
  | EvGetPixel (x y page : Z)
  | EvIOWrite (port val : Z)
  | EvIORead (port : Z)
  | EvSetCurMode
  | EvSetCursorShape (first last : Z)
  | EvPICSetIRQMask (irq : Z) (masked : bool)
  | EvNotifyInterfaceRate (value_hz : Z)
  | EvNotifyStateChanged
  | EvNotifyResetDOS
  | EvMemBlockWrite (addr : Z) (bytes : list Z) (size : Z)
  | EvMemBlockRead (addr size : Z)
  | EvSpeedUpdate (delta : F32.t)
  | EvLog (severity : LogSeverity).

(** What the driver reads from the rest of the emulator.  A value that
    another subsystem may change is a function of the trace so far (given
    newest call first); constants of headers that are not among the sources
    are plain fields. *)
Record Collaborators : Type := {
  (* machine type and configuration *)
  IS_VGA_ARCH : bool;
  IS_EGAVGA_ARCH : bool;
  machine_is_MCH_EGA : bool;
  dos_immediate : bool;                     (* mouse_config.dos_immediate *)
  mouse_is_captured : list Event -> bool;
  mouse_video_res_x : list Event -> Z;
  mouse_video_res_y : list Event -> Z;
  mouse_video_clip_x : list Event -> Z;
  mouse_video_clip_y : list Event -> Z;
  (* video BIOS *)
  CurMode : list Event -> VideoModeBlock;
  BIOSMEM_CURRENT_PAGE : list Event -> Z;   (* real_readb(BIOSMEM_SEG, ...) *)
  BIOSMEM_PAGE_SIZE : list Event -> Z;      (* real_readw(BIOSMEM_SEG, ...) *)
  BIOSMEM_NB_COLS : list Event -> Z;
  BIOSMEM_NB_ROWS : list Event -> Z;
  BIOSMEM_CRTC_ADDRESS : list Event -> Z;
  BIOS_VIDEO_MODE : list Event -> Z;        (* mem_readb(BIOS_VIDEO_MODE) *)
  ReadCharAttr : list Event -> Z -> Z -> Z -> Z;
  INT10_GetPixel : list Event -> Z -> Z -> Z -> Z;
  (* I/O ports *)
  VGAREG_GRDC_ADDRESS : Z;
  VGAREG_GRDC_DATA : Z;
  VGAREG_SEQU_ADDRESS : Z;
  VGAREG_SEQU_DATA : Z;
  IO_Read : list Event -> Z -> Z;
  (* guest memory: the bytes read at an address *)
  MEM_BlockRead : list Event -> Z -> Z -> list Z;
  (* the object representation of the driver state on the host *)
  sizeof_state : Z;
  state_bytes : State.t -> list Z;
  state_of_bytes : list Z -> State.t;
  (* mouse_common: ballistics, clamping and the speed calculator *)
  MOUSE_GetBallisticsCoeff : F32.t -> F32.t;
  MOUSE_ClampRelativeMovement : F32.t -> F32.t;
  speed_mickeys_Get : list Event -> F32.t
}.

Module World.

(** Everything the driver reads or writes: the registers, the driver
      state, the 'hardware' variables, the pending input, the two flags of
      [mouse_shared] this file maintains, and the trace. *)
Record t : Type := mk {
  regs : Regs.t; (* CPU registers *)
  state : State.t; (* DOS driver state *)
  buttons : Z; (* MouseButtons12S, the [data] byte *)
  pos_x : F32.t;
  pos_y : F32.t;
  counter_w : Z; (* int8_t, wheel counter *)
  is_mapped : bool; (* a physical mouse is mapped to this interface *)
  raw_input : bool; (* no host mouse acceleration pre-applied *)
  rate_is_set : bool; (* rate was set by the DOS application *)
  rate_hz : Z; (* uint16_t *)
  min_rate_hz : Z; (* uint16_t *)
  pending : Pending.t;
  vga_regs : VgaRegs.t;
  active_dos : bool; (* mouse_shared.active_dos *)
  dos_cb_running : bool; (* mouse_shared.dos_cb_running *)
  trace : list Event (* calls into the collaborators, oldest first *)
}.

Definition eta (s : t) : t :=
  mk (regs s) (state s) (buttons s) (pos_x s) (pos_y s) (counter_w s)
    (is_mapped s) (raw_input s) (rate_is_set s) (rate_hz s) (min_rate_hz s)
    (pending s) (vga_regs s) (active_dos s) (dos_cb_running s) (trace s).

Definition set_regs (v : Regs.t) (s : t) : t :=
  ltac:(set_field (eta s) (regs s) v).
Definition set_state (v : State.t) (s : t) : t :=
  ltac:(set_field (eta s) (state s) v).
Definition set_buttons (v : Z) (s : t) : t :=
  ltac:(set_field (eta s) (buttons s) v).
Definition set_pos_x (v : F32.t) (s : t) : t :=
  ltac:(set_field (eta s) (pos_x s) v).
Definition set_pos_y (v : F32.t) (s : t) : t :=
  ltac:(set_field (eta s) (pos_y s) v).
Definition set_counter_w (v : Z) (s : t) : t :=
  ltac:(set_field (eta s) (counter_w s) v).
Definition set_is_mapped (v : bool) (s : t) : t :=
  ltac:(set_field (eta s) (is_mapped s) v).
Definition set_raw_input (v : bool) (s : t) : t :=
  ltac:(set_field (eta s) (raw_input s) v).
Definition set_rate_is_set (v : bool) (s : t) : t :=
  ltac:(set_field (eta s) (rate_is_set s) v).
Definition set_rate_hz (v : Z) (s : t) : t :=
  ltac:(set_field (eta s) (rate_hz s) v).
Definition set_min_rate_hz (v : Z) (s : t) : t :=
  ltac:(set_field (eta s) (min_rate_hz s) v).
Definition set_pending (v : Pending.t) (s : t) : t :=
  ltac:(set_field (eta s) (pending s) v).
Definition set_vga_regs (v : VgaRegs.t) (s : t) : t :=
  ltac:(set_field (eta s) (vga_regs s) v).
Definition set_active_dos (v : bool) (s : t) : t :=
  ltac:(set_field (eta s) (active_dos s) v).
Definition set_dos_cb_running (v : bool) (s : t) : t :=
  ltac:(set_field (eta s) (dos_cb_running s) v).
Definition set_trace (v : list Event) (s : t) : t :=
  ltac:(set_field (eta s) (trace s) v).

(** A call into a collaborator. *)
Definition emit (ev : Event) (w : t) : t := set_trace (ev :: trace w) w.

Definition on_state (f : State.t -> State.t) (w : t) : t :=
  set_state (f (state w)) w.

Definition on_background (f : Background.t -> Background.t) (w : t) : t :=
  on_state (fun s => State.set_background (f (State.background s)) s) w.

Definition on_regs (f : Regs.t -> Regs.t) (w : t) : t :=
  set_regs (f (regs w)) w.

Definition on_pending (f : Pending.t -> Pending.t) (w : t) : t :=
  set_pending (f (pending w)) w.

End World.

Abbreviation World := World.t.
Abbreviation state := World.state.
Abbreviation regs := World.regs.
Abbreviation emit := World.emit.
Abbreviation on_state := World.on_state.
Abbreviation on_background := World.on_background.
Abbreviation on_regs := World.on_regs.

(** [for (i = lo; i <= hi; i++) body]: the body is run for each index in
    turn.  The loops of the driver run over [int16_t] or [uint8_t] indices
    far from the ends of their ranges. *)
Definition for_range {A : Type} (lo hi : Z) (body : Z -> A -> A) (a : A) : A :=
  fold_left (fun acc i => body i acc) (seqZ lo (hi - lo + 1)) a.

(** ** The driver *)

Section Driver.

Context (C : Collaborators).

Definition get_pos_x (w : World) : Z :=
  Z.land (Int.u16 (F32.lround (World.pos_x w))) (State.granularity_x (state w)).

Definition get_pos_y (w : World) : Z :=
  Z.land (Int.u16 (F32.lround (World.pos_y w))) (State.granularity_y (state w)).

(** *** Data - default cursor/mask *)

Definition default_text_and_mask : Z := 0x77FF.
Definition default_text_xor_mask : Z := 0x7700.

Definition default_screen_mask : list Z :=
  [ 0x3FFF; 0x1FFF; 0x0FFF; 0x07FF; 0x03FF; 0x01FF; 0x00FF; 0x007F;
    0x003F; 0x001F; 0x01FF; 0x00FF; 0x30FF; 0xF87F; 0xF87F; 0xFCFF ].

Definition default_cursor_mask : list Z :=
  [ 0x0000; 0x4000; 0x6000; 0x7000; 0x7800; 0x7C00; 0x7E00; 0x7F00;
    0x7F80; 0x7C00; 0x6C00; 0x4600; 0x0600; 0x0300; 0x0300; 0x0000 ].

(** *** Text mode cursor *)

Definition WriteChar (col row page chr attr : Z) (useattr : bool)
    (w : World) : World :=
  emit (EvWriteChar col row page chr attr useattr) w.

Definition IO_Write (port val : Z) (w : World) : World :=
  emit (EvIOWrite port val) w.

Definition restore_cursor_background_text (w : World) : World :=
  let s := state w in
  if negb (State.hidden s =? 0) || State.inhibit_draw s then w
  else if Background.enabled (State.background s) then
    let bg := State.background s in
    let w := WriteChar (Background.pos_x bg) (Background.pos_y bg)
               (BIOSMEM_CURRENT_PAGE C (World.trace w))
               (aget (Background.data bg) 0) (aget (Background.data bg) 1)
               true w in
    on_background (Background.set_enabled false) w
  else w.

(** The test of [draw_cursor_text]: the cursor lies in the update region.
    [x] and [y] are [uint16_t], the bounds [int16_t]; both sides are
    compared as [int]. *)
Definition in_update_region (s : State.t) (x y : Z) : bool :=
  (y <=? snd (State.update_region_y s)) && (fst (State.update_region_y s) <=? y)
  && (x <=? snd (State.update_region_x s)) && (fst (State.update_region_x s) <=? x).

Definition draw_cursor_text (w : World) : World :=
  (* Restore Background *)
  let w := restore_cursor_background_text w in
  (* Check if cursor in update region *)
  let x := get_pos_x w in
  let y := get_pos_y w in
  if in_update_region (state w) x y then w
  else
    (* Save Background *)
    let bx := Int.u16 (x / 8) in
    let by_ := Int.u16 (y / 8) in
    let bx := if State.mode (state w) <? 2 then bx / 2 else bx in
    let w := on_background
               (fun b => Background.set_pos_y by_ (Background.set_pos_x bx b)) w in
    (* use current page (CV program) *)
    let page := BIOSMEM_CURRENT_PAGE C (World.trace w) in
    match State.cursor_type (state w) with
    | Software =>
        let result := ReadCharAttr C (World.trace w) bx by_ page in
        let w := emit (EvReadCharAttr bx by_ page) w in
        let w := on_background
                   (fun b =>
                      Background.set_enabled true
                        (Background.set_data
                           (aset (aset (Background.data b) 0 (Int.low_byte result))
                              1 (Int.high_byte result)) b)) w in
        (* Write Cursor *)
        let result := Z.land result (State.text_and_mask (state w)) in
        let result := Z.lxor result (State.text_xor_mask (state w)) in
        WriteChar bx by_ page (Int.low_byte result) (Int.high_byte result) true w
    | _ =>
        let address := Int.u16 (page * BIOSMEM_PAGE_SIZE C (World.trace w)) in
        let address :=
          Int.u16 (address + (by_ * BIOSMEM_NB_COLS C (World.trace w) + bx) * 2) in
        let address := address / 2 in
        let cr := BIOSMEM_CRTC_ADDRESS C (World.trace w) in
        let w := IO_Write cr 0xe w in
        let w := IO_Write (Int.u16 (cr + 1)) (Int.u8 (Z.land (Z.shiftr address 8) 0xff)) w in
        let w := IO_Write cr 0xf w in
        IO_Write (Int.u16 (cr + 1)) (Int.u8 (Z.land address 0xff)) w
    end.

(** *** Graphic mode cursor *)

Definition IO_Read_into (port : Z) (k : Z -> World -> World) (w : World) : World :=
  let v := IO_Read C (World.trace w) port in
  k v (emit (EvIORead port) w).

Definition on_vga_regs (f : VgaRegs.t -> VgaRegs.t) (w : World) : World :=
  World.set_vga_regs (f (World.vga_regs w)) w.

Definition save_vga_registers (w : World) : World :=
  if IS_VGA_ARCH C then
    let w :=
      for_range 0 8
        (fun i w =>
           let w := IO_Write (VGAREG_GRDC_ADDRESS C) i w in
           IO_Read_into (VGAREG_GRDC_DATA C)
             (fun v => on_vga_regs
                (fun r => VgaRegs.set_grdc_address (aset (VgaRegs.grdc_address r) i v) r))
             w) w in
    (* Setup some default values in GFX regs that should work *)
    let w := IO_Write (VGAREG_GRDC_ADDRESS C) 3 w in
    let w := IO_Write (VGAREG_GRDC_DATA C) 0 w in (* disable rotate and operation *)
    let w := IO_Write (VGAREG_GRDC_ADDRESS C) 5 w in
    let w := IO_Write (VGAREG_GRDC_DATA C)
               (Z.land (aget (VgaRegs.grdc_address (World.vga_regs w)) 5) 0xf0) w in
    (* Set Map to all planes. Celtic Tales *)
    let w := IO_Read_into (VGAREG_SEQU_ADDRESS C)
               (fun v => on_vga_regs (VgaRegs.set_sequ_address v)) w in
    let w := IO_Write (VGAREG_SEQU_ADDRESS C) 2 w in
    let w := IO_Read_into (VGAREG_SEQU_DATA C)
               (fun v => on_vga_regs (VgaRegs.set_sequ_data v)) w in
    IO_Write (VGAREG_SEQU_DATA C) 0xF w
  else if machine_is_MCH_EGA C then
    (* Set Map to all planes. *)
    let w := IO_Write (VGAREG_SEQU_ADDRESS C) 2 w in
    IO_Write (VGAREG_SEQU_DATA C) 0xF w
  else w.

Definition restore_vga_registers (w : World) : World :=
  if IS_VGA_ARCH C then
    let w :=
      for_range 0 8
        (fun i w =>
           let w := IO_Write (VGAREG_GRDC_ADDRESS C) i w in
           IO_Write (VGAREG_GRDC_DATA C)
             (aget (VgaRegs.grdc_address (World.vga_regs w)) i) w) w in
    let w := IO_Write (VGAREG_SEQU_ADDRESS C) 2 w in
    let w := IO_Write (VGAREG_SEQU_DATA C) (VgaRegs.sequ_data (World.vga_regs w)) w in
    IO_Write (VGAREG_SEQU_ADDRESS C) (VgaRegs.sequ_address (World.vga_regs w)) w
  else w.

(** The clipped rectangle and the margins [addx1], [addx2], [addy]. *)
Record ClippedArea : Type := {
  x1 : Z; x2 : Z; y1 : Z; y2 : Z;
  addx1 : Z; addx2 : Z; addy : Z
}.

Definition clip_cursor_area (s : State.t) (x1 x2 y1 y2 : Z) : ClippedArea :=
  (* Clip up *)
  let '(addy, y1) := if y1 <? 0 then (Int.u16 (0 - y1), 0) else (0, y1) in
  (* Clip down *)
  let y2 := if State.clipy s <? y2 then State.clipy s else y2 in
  (* Clip left *)
  let '(addx1, x1) := if x1 <? 0 then (Int.u16 (0 - x1), 0) else (0, x1) in
  (* Clip right *)
  let '(addx2, x2) :=
    if State.clipx s <? x2 then (Int.u16 (x2 - State.clipx s), State.clipx s)
    else (0, x2) in
  {| x1 := x1; x2 := x2; y1 := y1; y2 := y2;
     addx1 := addx1; addx2 := addx2; addy := addy |}.

Definition INT10_PutPixel (x y page color : Z) (w : World) : World :=
  emit (EvPutPixel x y page color) w.

Definition restore_cursor_background (w : World) : World :=
  let s := state w in
  if negb (State.hidden s =? 0) || State.inhibit_draw s
     || negb (Background.enabled (State.background s)) then w
  else
    let w := save_vga_registers w in
    (* Restore background *)
    let bx1 := Int.s16 (Background.pos_x (State.background s)) in
    let by1 := Int.s16 (Background.pos_y (State.background s)) in
    let bx2 := Int.s16 (bx1 + cursor_size_x - 1) in
    let by2 := Int.s16 (by1 + cursor_size_y - 1) in
    let a := clip_cursor_area s bx1 bx2 by1 by2 in
    let data_pos := Int.u16 (addy a * cursor_size_x) in
    let '(_, w) :=
      for_range (y1 a) (y2 a)
        (fun y '(data_pos, w) =>
           let data_pos := Int.u16 (data_pos + addx1 a) in
           let '(data_pos, w) :=
             for_range (x1 a) (x2 a)
               (fun x '(data_pos, w) =>
                  (Int.u16 (data_pos + 1),
                   INT10_PutPixel (Int.u16 x) (Int.u16 y) (State.page (state w))
                     (aget (Background.data (State.background (state w))) data_pos) w))
               (data_pos, w) in
           (Int.u16 (data_pos + addx2 a), w))
        (data_pos, w) in
    let w := on_background (Background.set_enabled false) w in
    restore_vga_registers w.

Definition INT10_SetCurMode (w : World) : World := emit EvSetCurMode w.

(** The two loops of the graphic-mode draw after the background was
    restored: the pixels under the cursor are saved, then the cursor is
    composed from the screen mask and the cursor mask. *)
Definition save_background_pixels (a : ClippedArea) (w : World) : World :=
  let data_pos := Int.u16 (addy a * cursor_size_x) in
  let '(_, w) :=
    for_range (y1 a) (y2 a)
      (fun y '(data_pos, w) =>
         let data_pos := Int.u16 (data_pos + addx1 a) in
         let '(data_pos, w) :=
           for_range (x1 a) (x2 a)
             (fun x '(data_pos, w) =>
                let page := State.page (state w) in
                let color :=
                  INT10_GetPixel C (World.trace w) (Int.u16 x) (Int.u16 y) page in
                let w := emit (EvGetPixel (Int.u16 x) (Int.u16 y) page) w in
                (Int.u16 (data_pos + 1),
                 on_background
                   (fun b => Background.set_data
                               (aset (Background.data b) data_pos color) b) w))
             (data_pos, w) in
         (Int.u16 (data_pos + addx2 a), w))
      (data_pos, w) in
  w.

Definition draw_mouse_cursor (a : ClippedArea) (w : World) : World :=
  let data_pos := Int.u16 (addy a * cursor_size_x) in
  let screen_mask :=
    if State.user_screen_mask (state w)
    then State.user_def_screen_mask (state w) else default_screen_mask in
  let cursor_mask :=
    if State.user_cursor_mask (state w)
    then State.user_def_cursor_mask (state w) else default_cursor_mask in
  let highest_bit := Z.shiftl 1 (cursor_size_x - 1) in
  let '(_, w) :=
    for_range (y1 a) (y2 a)
      (fun y '(data_pos, w) =>
         let sc_mask := aget screen_mask (addy a + y - y1 a) in
         let cu_mask := aget cursor_mask (addy a + y - y1 a) in
         let '(sc_mask, cu_mask, data_pos) :=
           if 0 <? addx1 a then
             (Int.u16 (Z.shiftl sc_mask (addx1 a)),
              Int.u16 (Z.shiftl cu_mask (addx1 a)),
              Int.u16 (data_pos + addx1 a))
           else (sc_mask, cu_mask, data_pos) in
         let '(_, _, data_pos, w) :=
           for_range (x1 a) (x2 a)
             (fun x '(sc_mask, cu_mask, data_pos, w) =>
                let pixel := 0 in
                (* ScreenMask *)
                let pixel :=
                  if negb (Z.land sc_mask highest_bit =? 0)
                  then aget (Background.data (State.background (state w))) data_pos
                  else pixel in
                (* CursorMask *)
                let pixel :=
                  if negb (Z.land cu_mask highest_bit =? 0)
                  then Z.lxor pixel 0x0f else pixel in
                let sc_mask := Int.u16 (Z.shiftl sc_mask 1) in
                let cu_mask := Int.u16 (Z.shiftl cu_mask 1) in
                (* Set Pixel *)
                let w := INT10_PutPixel (Int.u16 x) (Int.u16 y)
                           (State.page (state w)) pixel w in
                (sc_mask, cu_mask, Int.u16 (data_pos + 1), w))
             (sc_mask, cu_mask, data_pos, w) in
         (Int.u16 (addx2 a + data_pos), w))
      (data_pos, w) in
  w.

Definition MOUSEDOS_DrawCursor (w : World) : World :=
  if negb (State.hidden (state w) =? 0) || State.inhibit_draw (state w) then w
  else
    let w := INT10_SetCurMode w in
    let mode := CurMode C (World.trace w) in
    (* In Textmode ? *)
    match mode_type mode with
    | M_TEXT => draw_cursor_text w
    | M_GRAPHICS =>
        (* Get Clipping ranges *)
        let w := on_state
                   (fun s => State.set_clipy (Int.s16 (sheight mode - 1))
                               (State.set_clipx (Int.s16 (swidth mode - 1)) s)) w in
        (* might be vidmode == 0x13?2:1 *)
        let xratio := 640 in
        let xratio :=
          if 0 <? swidth mode then Int.s16 (xratio / swidth mode) else xratio in
        let xratio := if xratio =? 0 then 1 else xratio in
        let w := restore_cursor_background w in
        let w := save_vga_registers w in
        (* Save Background *)
        let cx1 := Int.s16 (get_pos_x w / xratio - State.hot_x (state w)) in
        let cy1 := Int.s16 (get_pos_y w - State.hot_y (state w)) in
        let cx2 := Int.s16 (cx1 + cursor_size_x - 1) in
        let cy2 := Int.s16 (cy1 + cursor_size_y - 1) in
        let a := clip_cursor_area (state w) cx1 cx2 cy1 cy2 in
        let w := save_background_pixels a w in
        let w :=
          on_background
            (fun b =>
               Background.set_pos_y (Int.u16 (get_pos_y w - State.hot_y (state w)))
                 (Background.set_pos_x
                    (Int.u16 (get_pos_x w / xratio - State.hot_x (state w)))
                    (Background.set_enabled true b))) w in
        (* Draw Mousecursor *)
        let w := draw_mouse_cursor a w in
        restore_vga_registers w
    end.

(** *** DOS driver interface implementation *)

Definition MOUSE_NotifyStateChanged (w : World) : World :=
  emit EvNotifyStateChanged w.

Definition MOUSE_NotifyResetDOS (w : World) : World :=
  emit EvNotifyResetDOS w.

Definition update_driver_active (w : World) : World :=
  let w := World.set_active_dos
             (negb (State.user_callback_mask (state w) =? 0)) w in
  MOUSE_NotifyStateChanged w.

(** The functions reading the wheel counter return the register value
    together with the new world. *)
Definition get_reset_wheel_8bit (w : World) : Z * World :=
  if negb (State.wheel_api (state w)) then (0, w)
  else
    let tmp := World.counter_w w in
    let w := World.set_counter_w 0 w in (* reading always clears the counter *)
    (* 0xff for -1, 0xfe for -2, etc. *)
    (signed_to_reg8 tmp, w).

Definition get_reset_wheel_16bit (w : World) : Z * World :=
  if negb (State.wheel_api (state w)) then (0, w)
  else
    let tmp := World.counter_w w in
    let w := World.set_counter_w 0 w in (* reading always clears the counter *)
    (signed_to_reg16 tmp, w).

Definition set_mickey_pixel_rate (ratio_x ratio_y : Z) (w : World) : World :=
  if (0 <? ratio_x) && (0 <? ratio_y) then
    (* ratio = number of mickeys per 8 pixels *)
    let pixels := F32.of_Z 8 in
    on_state
      (fun s => State.set_mickeys_per_pixel_y (F32.div (F32.of_Z ratio_y) pixels)
                  (State.set_mickeys_per_pixel_x (F32.div (F32.of_Z ratio_x) pixels) s))
      w
  else w.

Definition set_double_speed_threshold (threshold : Z) (w : World) : World :=
  if negb (threshold =? 0)
  then on_state (State.set_double_speed_threshold threshold) w
  else on_state (State.set_double_speed_threshold 64) w. (* default value *)

Definition set_sensitivity (sensitivity_x sensitivity_y unknown : Z)
    (w : World) : World :=
  let tmp_x := Z.min 100 sensitivity_x in
  let tmp_y := Z.min 100 sensitivity_y in
  let tmp_u := Z.min 100 unknown in
  let w := on_state
             (fun s => State.set_unknown_01 (Int.u8 tmp_u)
                         (State.set_sensitivity_y (Int.u8 tmp_y)
                            (State.set_sensitivity_x (Int.u8 tmp_x) s))) w in
  on_state
    (fun s =>
       State.set_sensitivity_coeff_y
         (F32.div (F32.of_Z (State.sensitivity_y s)) (F32.of_Z 50))
         (State.set_sensitivity_coeff_x
            (F32.div (F32.of_Z (State.sensitivity_x s)) (F32.of_Z 50)) s)) w.

Definition NotifyInterfaceRate (value_hz : Z) (w : World) : World :=
  emit (EvNotifyInterfaceRate value_hz) w.

Definition notify_interface_rate (w : World) : World :=
  let rate_default_hz := 200 in
  if World.rate_is_set w then
    (* Rate was set by guest application - use this value. *)
    NotifyInterfaceRate (World.rate_hz w) w
  else if negb (World.min_rate_hz w =? 0) then
    (* If user set the minimum mouse rate - follow it *)
    NotifyInterfaceRate (World.min_rate_hz w) w
  else
    (* No user setting in effect - use default value *)
    NotifyInterfaceRate rate_default_hz w.

Definition set_interrupt_rate (rate_id : Z) (w : World) : World :=
  let val_hz :=
    match rate_id with
    | 0 => 0 (* no events *)
    | 1 => 30
    | 2 => 50
    | 3 => 100
    | _ => 200 (* above 4 is not suported, set max *)
    end in
  if negb (val_hz =? 0) then
    let w := World.set_rate_is_set true w in
    let w := World.set_rate_hz val_hz w in
    notify_interface_rate w
  else w.

Definition PIC_SetIRQMask (irq : Z) (masked : bool) (w : World) : World :=
  emit (EvPICSetIRQMask irq masked) w.

Definition reset_hardware (w : World) : World :=
  (* Resetting the wheel API status in reset() might seem to be a more
     logical approach, but this is clearly not what CuteMouse does;
     if this is done in reset(), the DN2 is unable to use mouse wheel *)
  let w := on_state (State.set_wheel_api false) w in
  let w := World.set_counter_w 0 w in
  let w := PIC_SetIRQMask 12 false w in (* lower IRQ line *)
  (* Reset mouse refresh rate *)
  let w := World.set_rate_is_set false w in
  notify_interface_rate w.

Definition MOUSEDOS_NotifyMinRate (value_hz : Z) (w : World) : World :=
  let w := World.set_min_rate_hz value_hz w in
  (* If rate was set by a DOS application, don't change it *)
  if World.rate_is_set w then w else notify_interface_rate w.

Definition LOG (severity : LogSeverity) (w : World) : World :=
  emit (EvLog severity) w.

Definition MOUSEDOS_BeforeNewVideoMode (w : World) : World :=
  let w :=
    match mode_type (CurMode C (World.trace w)) with
    | M_TEXT => restore_cursor_background_text w
    | M_GRAPHICS => restore_cursor_background w
    end in
  let w := on_state (fun s => State.set_oldhidden 1 (State.set_hidden 1 s)) w in
  on_background (Background.set_enabled false) w.

(** The video modes [MOUSEDOS_AfterNewVideoMode] knows, with the maximal
    vertical position and the horizontal and vertical granularity each one
    gives; [None] for an unhandled mode. *)
Definition video_mode_geometry (mode rows : Z) : option (Z * Z * Z) :=
  if (mode =? 0x00) || (mode =? 0x01) || (mode =? 0x02) || (mode =? 0x03)
     || (mode =? 0x07) then
    let rows := if (rows =? 0) || (250 <? rows) then 24 else rows in
    Some (Int.s16 (8 * (rows + 1) - 1),
          if mode <? 2 then 0xfff0 else 0xfff8, 0xfff8)
  else if (mode =? 0x04) || (mode =? 0x05) || (mode =? 0x06) || (mode =? 0x08)
          || (mode =? 0x09) || (mode =? 0x0a) || (mode =? 0x0d) || (mode =? 0x0e)
          || (mode =? 0x13) then
    Some (199, if (mode =? 0x0d) || (mode =? 0x13) then 0xfffe else 0xffff, 0xffff)
  else if (mode =? 0x0f) || (mode =? 0x10) then Some (349, 0xffff, 0xffff)
  else if (mode =? 0x11) || (mode =? 0x12) then Some (479, 0xffff, 0xffff)
  else None.

Definition MOUSEDOS_AfterNewVideoMode (setmode : bool) (w : World) : World :=
  let w := on_state (State.set_inhibit_draw false) w in
  (* Get the correct resolution from the current video mode *)
  let mode := BIOS_VIDEO_MODE C (World.trace w) in
  let w := if setmode && (mode =? State.mode (state w))
           then LOG LOG_NORMAL w else w in
  let w := on_state
             (fun s => State.set_granularity_y 0xffff
                         (State.set_granularity_x 0xffff s)) w in
  let rows := if IS_EGAVGA_ARCH C then BIOSMEM_NB_ROWS C (World.trace w) else 24 in
  match video_mode_geometry mode rows with
  | None =>
      let w := LOG LOG_ERROR w in
      on_state (State.set_inhibit_draw true) w
  | Some (maxpos_y, granularity_x, granularity_y) =>
      let w :=
        on_state
          (fun s =>
             State.set_maxpos_y maxpos_y
               (State.set_granularity_y granularity_y
                  (State.set_granularity_x granularity_x s))) w in
      let w :=
        on_state
          (fun s =>
             let s := State.set_mode mode s in
             let s := State.set_maxpos_x 639 s in
             let s := State.set_minpos_x 0 s in
             let s := State.set_minpos_y 0 s in
             let s := State.set_hot_x 0 s in
             let s := State.set_hot_y 0 s in
             let s := State.set_user_screen_mask false s in
             let s := State.set_user_cursor_mask false s in
             let s := State.set_text_and_mask default_text_and_mask s in
             let s := State.set_text_xor_mask default_text_xor_mask s in
             let s := State.set_page 0 s in
             let s := State.set_update_region_y
                        (fst (State.update_region_y s), -1) s in (* offscreen *)
             let s := State.set_cursor_type Software s in
             State.set_enabled true s) w in
      MOUSE_NotifyResetDOS w
  end.

Definition reset (w : World) : World :=
  (* Although these do not belong to the driver state,
     reset them too to avoid any possible problems *)
  let w := World.set_counter_w 0 w in
  let w := World.on_pending Pending.Reset w in
  let w := MOUSEDOS_BeforeNewVideoMode w in
  let w := MOUSEDOS_AfterNewVideoMode false w in
  let w := set_mickey_pixel_rate 8 16 w in
  let w := set_double_speed_threshold 0 w in (* set default value *)
  let w := on_state (State.set_enabled true) w in
  let w := World.set_pos_x
             (F32.of_Z (Z.quot (State.maxpos_x (state w) + 1) 2)) w in
  let w := World.set_pos_y
             (F32.of_Z (Z.quot (State.maxpos_y (state w) + 1) 2)) w in
  let w :=
    on_state
      (fun s =>
         let s := State.set_mickey_counter_x 0 s in
         let s := State.set_mickey_counter_y 0 s in
         let s := State.set_mickey_delta_x F32.zero s in
         let s := State.set_mickey_delta_y F32.zero s in
         let s := State.set_last_wheel_moved_x 0 s in
         State.set_last_wheel_moved_y 0 s) w in
  let w :=
    for_range 0 (num_buttons - 1)
      (fun idx w =>
         on_state
           (fun s =>
              let s := State.set_times_pressed (aset (State.times_pressed s) idx 0) s in
              let s := State.set_times_released (aset (State.times_released s) idx 0) s in
              let s := State.set_last_pressed_x (aset (State.last_pressed_x s) idx 0) s in
              let s := State.set_last_pressed_y (aset (State.last_pressed_y s) idx 0) s in
              let s := State.set_last_released_x (aset (State.last_released_x s) idx 0) s in
              State.set_last_released_y (aset (State.last_released_y s) idx 0) s) w)
      w in
  let w := on_state (State.set_user_callback_mask 0) w in
  let w := World.set_dos_cb_running false w in
  let w := update_driver_active w in
  MOUSE_NotifyResetDOS w.

Definition limit (pos : F32.t) (minpos maxpos : Z) : F32.t :=
  let min := F32.of_Z minpos in
  let max := F32.of_Z maxpos in
  F32.clamp pos min max.

Definition limit_coordinates (w : World) : World :=
  let w := World.set_pos_x
             (limit (World.pos_x w) (State.minpos_x (state w))
                (State.maxpos_x (state w))) w in
  World.set_pos_y
    (limit (World.pos_y w) (State.minpos_y (state w)) (State.maxpos_y (state w))) w.

(** The [update] lambda of [update_mickeys_on_move], on one counter and
    its fractional remainder. *)
Definition update (counter : Z) (delta rel : F32.t) : Z * F32.t :=
  let delta := F32.add delta rel in
  (* Check if movement is significant enough *)
  let d := Int.s16 (F32.lround delta) in
  if d =? 0 then (counter, delta)
  else
    (* Consume part of delta to increase/decrease the counter *)
    let delta := F32.sub delta (F32.of_Z d) in
    let counter_big := counter + d in
    (* Handle counter wrap around int16_t limits *)
    let counter_big :=
      if Int.INT16_MAX <? counter_big then counter_big - (Int.UINT16_MAX + 1)
      else if counter_big <? Int.INT16_MIN then counter_big + (Int.UINT16_MAX + 1)
      else counter_big in
    (Int.s16 counter_big, delta).

Definition update_mickeys_on_move (x_rel y_rel : F32.t) (w : World) : World :=
  let x_mov := F32.mul x_rel (State.mickeys_per_pixel_x (state w)) in
  let y_mov := F32.mul y_rel (State.mickeys_per_pixel_y (state w)) in
  (* Update mickey counters and mickey speed measurement *)
  let w :=
    on_state
      (fun s =>
         let '(c, d) := update (State.mickey_counter_x s) (State.mickey_delta_x s) x_mov in
         State.set_mickey_delta_x d (State.set_mickey_counter_x c s)) w in
  let w :=
    on_state
      (fun s =>
         let '(c, d) := update (State.mickey_counter_y s) (State.mickey_delta_y s) y_mov in
         State.set_mickey_delta_y d (State.set_mickey_counter_y c s)) w in
  emit (EvSpeedUpdate
          (F32.sqrt (F32.add (F32.mul x_mov x_mov) (F32.mul y_mov y_mov)))) w.

Definition move_cursor_captured (x_rel y_rel : F32.t) (w : World) : World :=
  (* Update mickey counters *)
  let w := update_mickeys_on_move x_rel y_rel w in
  (* Apply mouse movement according to our acceleration model *)
  let w := World.set_pos_x (F32.add (World.pos_x w) x_rel) w in
  World.set_pos_y (F32.add (World.pos_y w) y_rel) w.

Definition calculate (absolute res clip : Z) : F32.t :=
  F32.div (F32.sub (F32.of_Z absolute) (F32.of_Z clip)) (F32.of_Z (res - 1)).

Definition move_cursor_seamless (x_rel y_rel : F32.t) (x_abs y_abs : Z)
    (w : World) : World :=
  (* Update mickey counters *)
  let w := update_mickeys_on_move x_rel y_rel w in
  let tr := World.trace w in
  (* Apply mouse movement to mimic host OS *)
  let x := calculate x_abs (mouse_video_res_x C tr) (mouse_video_clip_x C tr) in
  let y := calculate y_abs (mouse_video_res_y C tr) (mouse_video_clip_y C tr) in
  let s := state w in
  let relative (w : World) :=
    let w := World.set_pos_x (F32.add (World.pos_x w) x_rel) w in
    World.set_pos_y (F32.add (World.pos_y w) y_rel) w in
  match mode_type (CurMode C tr) with
  | M_TEXT =>
      let px := F32.mul (F32.mul x (F32.of_Z 8)) (F32.of_Z (BIOSMEM_NB_COLS C tr)) in
      let py := F32.mul (F32.mul y (F32.of_Z 8))
                  (if IS_EGAVGA_ARCH C
                   then F32.of_Z (BIOSMEM_NB_ROWS C tr + 1) else F32.of_Z 25) in
      World.set_pos_y py (World.set_pos_x px w)
  | M_GRAPHICS =>
      if (State.maxpos_x s <? 2048) || (State.maxpos_y s <? 2048)
         || negb (State.maxpos_x s =? State.maxpos_y s) then
        if (0 <? State.maxpos_x s) && (0 <? State.maxpos_y s) then
          World.set_pos_y (F32.mul y (F32.of_Z (State.maxpos_y s)))
            (World.set_pos_x (F32.mul x (F32.of_Z (State.maxpos_x s))) w)
        else relative w
      else
        (* Fake relative movement through absolute coordinates *)
        relative w
  end.

Definition is_captured (w : World) : bool :=
  mouse_is_captured C (World.trace w) || World.is_mapped w.

Definition move_cursor (w : World) : Z * World :=
  let old_pos_x := get_pos_x w in
  let old_pos_y := get_pos_y w in
  let old_mickey_x := State.mickey_counter_x (state w) in
  let old_mickey_y := State.mickey_counter_y (state w) in
  let p := World.pending w in
  let w :=
    if is_captured w then
      (* For raw mouse input use our built-in pointer acceleration model *)
      let acceleration_coeff :=
        if World.raw_input w then
          F32.mul
            (MOUSE_GetBallisticsCoeff C
               (F32.div (speed_mickeys_Get C (World.trace w))
                  (F32.of_Z (State.double_speed_threshold (state w)))))
            (F32.of_Z 2)
        else F32.of_Z 2 in
      let tmp_x := F32.mul (F32.mul (Pending.x_rel p) acceleration_coeff)
                     (State.sensitivity_coeff_x (state w)) in
      let tmp_y := F32.mul (F32.mul (Pending.y_rel p) acceleration_coeff)
                     (State.sensitivity_coeff_y (state w)) in
      move_cursor_captured (MOUSE_ClampRelativeMovement C tmp_x)
        (MOUSE_ClampRelativeMovement C tmp_y) w
    else
      move_cursor_seamless (Pending.x_rel p) (Pending.y_rel p)
        (Pending.x_abs p) (Pending.y_abs p) w in
  (* Pending relative movement is now consummed *)
  let w := World.on_pending
             (fun p => Pending.set_y_rel F32.zero (Pending.set_x_rel F32.zero p)) w in
  (* Make sure cursor stays in the range defined by application *)
  let w := limit_coordinates w in
  (* Filter out unneeded events *)
  let abs_changed := negb (old_pos_x =? get_pos_x w) || negb (old_pos_y =? get_pos_y w) in
  let rel_changed := negb (old_mickey_x =? State.mickey_counter_x (state w))
                     || negb (old_mickey_y =? State.mickey_counter_y (state w)) in
  if abs_changed || rel_changed then (MouseEventId.MouseHasMoved, w) else (0, w).

Definition MOUSEDOS_UpdateMoved (w : World) : Z * World :=
  if dos_immediate C then (MouseEventId.MouseHasMoved, w) else move_cursor w.

(** Modelled from the spec: the layout of [MouseButtons12S] ([mouse.h] is
    not among the sources).  The specification speaks of a "3-bit button
    bitmask" of left, right and middle: bits 0, 1 and 2 of [data]. *)
Definition button_left (data : Z) : bool := Z.testbit data 0.
Definition button_right (data : Z) : bool := Z.testbit data 1.
Definition button_middle (data : Z) : bool := Z.testbit data 2.

Definition mark_pressed (idx : Z) (w : World) : World :=
  on_state
    (fun s =>
       let s := State.set_last_pressed_x (aset (State.last_pressed_x s) idx (get_pos_x w)) s in
       let s := State.set_last_pressed_y (aset (State.last_pressed_y s) idx (get_pos_y w)) s in
       State.set_times_pressed
         (aset (State.times_pressed s) idx
            (Int.u16 (aget (State.times_pressed s) idx + 1))) s) w.

Definition mark_released (idx : Z) (w : World) : World :=
  on_state
    (fun s =>
       let s := State.set_last_released_x (aset (State.last_released_x s) idx (get_pos_x w)) s in
       let s := State.set_last_released_y (aset (State.last_released_y s) idx (get_pos_y w)) s in
       State.set_times_released
         (aset (State.times_released s) idx
            (Int.u16 (aget (State.times_released s) idx + 1))) s) w.

Definition update_button (idx pressed_id released_id : Z) (new old : bool)
    (mw : Z * World) : Z * World :=
  let '(mask, w) := mw in
  if new && negb old then (Z.lor mask pressed_id, mark_pressed idx w)
  else if negb new && old then (Z.lor mask released_id, mark_released idx w)
  else (mask, w).

Definition MOUSEDOS_UpdateButtons (new_buttons_12S : Z) (w : World) : Z * World :=
  let old := World.buttons w in
  if old =? new_buttons_12S then (0, w)
  else
    let mw := (0, w) in
    let mw := update_button 0 MouseEventId.PressedLeft MouseEventId.ReleasedLeft
                (button_left new_buttons_12S) (button_left old) mw in
    let mw := update_button 1 MouseEventId.PressedRight MouseEventId.ReleasedRight
                (button_right new_buttons_12S) (button_right old) mw in
    let mw := update_button 2 MouseEventId.PressedMiddle MouseEventId.ReleasedMiddle
                (button_middle new_buttons_12S) (button_middle old) mw in
    (fst mw, World.set_buttons new_buttons_12S (snd mw)).

Definition move_wheel (w : World) : Z * World :=
  let w := World.set_counter_w
             (clamp_to_int8 (World.counter_w w + Pending.w_rel (World.pending w))) w in
  (* Pending wheel scroll is now consummed *)
  let w := World.on_pending (Pending.set_w_rel 0) w in
  let w := on_state
             (fun s => State.set_last_wheel_moved_y (get_pos_y w)
                         (State.set_last_wheel_moved_x (get_pos_x w) s)) w in
  if negb (World.counter_w w =? 0) then (MouseEventId.WheelHasMoved, w) else (0, w).

Definition MOUSEDOS_UpdateWheel (w : World) : Z * World :=
  if dos_immediate C then (MouseEventId.WheelHasMoved, w) else move_wheel w.

Definition MOUSEDOS_NotifyMoved (x_rel y_rel : F32.t) (x_abs y_abs : Z)
    (w : World) : bool * World :=
  (* Check if an event is needed *)
  let p := World.pending w in
  let event_needed :=
    if is_captured w then true
    else negb (Pending.x_abs p =? x_abs) || negb (Pending.y_abs p =? y_abs) in
  (* Update values to be consummed when the event arrives *)
  let w :=
    World.on_pending
      (fun p =>
         let p := Pending.set_x_rel
                    (MOUSE_ClampRelativeMovement C (F32.add (Pending.x_rel p) x_rel)) p in
         let p := Pending.set_y_rel
                    (MOUSE_ClampRelativeMovement C (F32.add (Pending.y_rel p) y_rel)) p in
         Pending.set_y_abs y_abs (Pending.set_x_abs x_abs p)) w in
  if negb event_needed then (false, w)
  else if dos_immediate C then
    let '(m, w) := move_cursor w in (negb (m =? 0), w)
  else (true, w).

Definition MOUSEDOS_NotifyWheel (w_rel : Z) (w : World) : bool * World :=
  if negb (State.wheel_api (state w)) then (false, w)
  else
    (* limit the wheel counter to 8 bits *)
    let w := World.on_pending
               (fun p => Pending.set_w_rel (clamp_to_int8 (Pending.w_rel p + w_rel)) p) w in
    if Pending.w_rel (World.pending w) =? 0 then (false, w)
    else if dos_immediate C then
      let '(m, w) := move_wheel w in (negb (m =? 0), w)
    else (true, w).

(** *** The function dispatcher *)

Definition set_reg_ax (v : Z) : World -> World := on_regs (Regs.set_ax v).
Definition set_reg_bx (v : Z) : World -> World := on_regs (Regs.set_bx v).
Definition set_reg_cx (v : Z) : World -> World := on_regs (Regs.set_cx v).
Definition set_reg_dx (v : Z) : World -> World := on_regs (Regs.set_dx v).

(** The 16-bit words of a block of bytes read into a [uint16_t] array, in
    the byte order of a little-endian host. *)
Fixpoint words_of_bytes (bytes : list Z) : list Z :=
  match bytes with
  | lo :: hi :: rest => Z.lor (Z.land lo 255) (Z.shiftl (Z.land hi 255) 8) :: words_of_bytes rest
  | _ => []
  end.

Definition clamp_hot (reg cursor_size : Z) : Z :=
  Int.clamp (reg_to_signed16 reg) (Int.s16 (- cursor_size)) (Int.s16 cursor_size).

(** Functions 0x05 and 0x06: button press / release data, or the wheel
    data for the 'magic' index.  [times] and [last_x], [last_y] select the
    press or the release arrays, [clear] stores the zeroed counter. *)
Definition get_button_data (times last_x last_y : State.t -> list Z)
    (clear : Z -> State.t -> State.t) (w : World) : World :=
  let idx := Regs.bx (regs w) in (* button index *)
  if (idx =? 0xffff) && State.wheel_api (state w) then
    (* 'magic' index for checking wheel instead of button *)
    let '(v, w) := get_reset_wheel_16bit w in
    let w := set_reg_bx v w in
    let w := set_reg_cx (State.last_wheel_moved_x (state w)) w in
    set_reg_dx (State.last_wheel_moved_y (state w)) w
  else if idx <? num_buttons then
    let w := set_reg_ax (World.buttons w) w in
    let w := set_reg_bx (aget (times (state w)) idx) w in
    let w := set_reg_cx (aget (last_x (state w)) idx) w in
    let w := set_reg_dx (aget (last_y (state w)) idx) w in
    on_state (clear idx) w
  else
    (* unsupported - try to do something same *)
    let w := set_reg_ax (World.buttons w) w in
    let w := set_reg_bx 0 w in
    let w := set_reg_cx 0 w in
    set_reg_dx 0 w.

(** The body shared by function 0x00 (after [reset_hardware]) and
    function 0x21. *)
Definition software_reset (w : World) : World :=
  let w := set_reg_ax 0xffff w in (* mouse driver installed *)
  let w := set_reg_bx 3 w in      (* for 2 buttons return 0xffff *)
  reset w.

(** The body shared by function 0x27 (after it stored the masks) and
    function 0x0b. *)
Definition read_motion_data (w : World) : World :=
  let w := set_reg_cx (signed_to_reg16 (State.mickey_counter_x (state w))) w in
  let w := set_reg_dx (signed_to_reg16 (State.mickey_counter_y (state w))) w in
  on_state (fun s => State.set_mickey_counter_y 0 (State.set_mickey_counter_x 0 s)) w.

Definition define_user_callback (w : World) : World :=
  let r := regs w in
  let w := on_state
             (fun s => State.set_user_callback_offset (Regs.dx r)
                         (State.set_user_callback_segment (Regs.es_val r)
                            (State.set_user_callback_mask (Regs.cx r) s))) w in
  update_driver_active w.

Definition int33_handler (w : World) : World :=
  let r := regs w in
  let s := state w in
  match Regs.ax r with
  | 0x00 => (* MS MOUSE - reset driver and read status *)
      software_reset (reset_hardware w)
  | 0x21 => (* MS MOUSE v6.0+ - software reset *)
      software_reset w
  | 0x01 => (* MS MOUSE v1.0+ - show mouse cursor *)
      let w := if negb (State.hidden s =? 0)
               then on_state (State.set_hidden (Int.u16 (State.hidden s - 1))) w
               else w in
      let w := on_state
                 (fun s => State.set_update_region_y
                             (fst (State.update_region_y s), -1) s) w in (* offscreen *)
      MOUSEDOS_DrawCursor w
  | 0x02 => (* MS MOUSE v1.0+ - hide mouse cursor *)
      let w := match mode_type (CurMode C (World.trace w)) with
               | M_TEXT => restore_cursor_background_text w
               | M_GRAPHICS => restore_cursor_background w
               end in
      on_state (fun s => State.set_hidden (Int.u16 (State.hidden s + 1)) s) w
  | 0x03 => (* MS MOUSE v1.0+ / WheelAPI v1.0+ - get position and button status *)
      let w := on_regs (Regs.set_bl (World.buttons w)) w in
      let '(v, w) := get_reset_wheel_8bit w in
      let w := on_regs (Regs.set_bh v) w in (* CuteMouse clears wheel counter too *)
      let w := set_reg_cx (get_pos_x w) w in
      set_reg_dx (get_pos_y w) w
  | 0x04 => (* MS MOUSE v1.0+ - position mouse cursor *)
      (* If position isn't different from current position, don't
         change it. (position is rounded so numbers get lost when the
         rounded number is set) (arena/simulation Wolf) *)
      let w := if negb (reg_to_signed16 (Regs.cx r) =? get_pos_x w)
               then World.set_pos_x (F32.of_Z (Regs.cx r)) w else w in
      let w := if negb (reg_to_signed16 (Regs.dx r) =? get_pos_y w)
               then World.set_pos_y (F32.of_Z (Regs.dx r)) w else w in
      let w := limit_coordinates w in
      MOUSEDOS_DrawCursor w
  | 0x05 => (* get button press / wheel data *)
      get_button_data State.times_pressed State.last_pressed_x State.last_pressed_y
        (fun idx s => State.set_times_pressed (aset (State.times_pressed s) idx 0) s) w
  | 0x06 => (* get button release data / mouse wheel data *)
      get_button_data State.times_released State.last_released_x State.last_released_y
        (fun idx s => State.set_times_released (aset (State.times_released s) idx 0) s) w
  | 0x07 => (* MS MOUSE v1.0+ - define horizontal cursor range *)
      let w := on_state
                 (State.set_minpos_x
                    (Z.min (reg_to_signed16 (Regs.cx r)) (reg_to_signed16 (Regs.dx r)))) w in
      let w := on_state
                 (State.set_maxpos_x
                    (Z.max (reg_to_signed16 (Regs.cx r)) (reg_to_signed16 (Regs.dx r)))) w in
      (* Battle Chess wants this *)
      let w := World.set_pos_x
                 (F32.clamp (World.pos_x w) (F32.of_Z (State.minpos_x (state w)))
                    (F32.of_Z (State.maxpos_x (state w)))) w in
      LOG LOG_NORMAL w
  | 0x08 => (* MS MOUSE v1.0+ - define vertical cursor range *)
      let w := on_state
                 (State.set_minpos_y
                    (Z.min (reg_to_signed16 (Regs.cx r)) (reg_to_signed16 (Regs.dx r)))) w in
      let w := on_state
                 (State.set_maxpos_y
                    (Z.max (reg_to_signed16 (Regs.cx r)) (reg_to_signed16 (Regs.dx r)))) w in
      (* Battle Chess wants this *)
      let w := World.set_pos_y
                 (F32.clamp (World.pos_y w) (F32.of_Z (State.minpos_y (state w)))
                    (F32.of_Z (State.maxpos_y (state w)))) w in
      LOG LOG_NORMAL w
  | 0x09 => (* MS MOUSE v3.0+ - define GFX cursor *)
      let src := (Regs.es_phys r + Regs.dx r) mod 2 ^ 32 in
      let screen := words_of_bytes (MEM_BlockRead C (World.trace w) src (cursor_size_y * 2)) in
      let w := emit (EvMemBlockRead src (cursor_size_y * 2)) w in
      let w := on_state (State.set_user_def_screen_mask screen) w in
      let src := (src + cursor_size_y * 2) mod 2 ^ 32 in
      let cursor := words_of_bytes (MEM_BlockRead C (World.trace w) src (cursor_size_y * 2)) in
      let w := emit (EvMemBlockRead src (cursor_size_y * 2)) w in
      let w := on_state (State.set_user_def_cursor_mask cursor) w in
      let w := on_state
                 (fun s =>
                    let s := State.set_user_screen_mask true s in
                    let s := State.set_user_cursor_mask true s in
                    let s := State.set_hot_x (clamp_hot (Regs.bx r) cursor_size_x) s in
                    let s := State.set_hot_y (clamp_hot (Regs.cx r) cursor_size_y) s in
                    State.set_cursor_type Text s) w in
      MOUSEDOS_DrawCursor w
  | 0x0a => (* MS MOUSE v3.0+ - define text cursor *)
      let w := on_state
                 (fun s =>
                    let s := State.set_cursor_type
                               (if negb (Regs.bx r =? 0) then Hardware else Software) s in
                    let s := State.set_text_and_mask (Regs.cx r) s in
                    State.set_text_xor_mask (Regs.dx r) s) w in
      let w := if negb (Regs.bx r =? 0)
               then LOG LOG_NORMAL (emit (EvSetCursorShape (Regs.cl r) (Regs.dl r)) w)
               else w in
      MOUSEDOS_DrawCursor w
  | 0x27 => (* MS MOUSE v7.01+ - get screen/cursor masks and mickey counts *)
      let w := set_reg_ax (State.text_and_mask s) w in
      let w := set_reg_bx (State.text_xor_mask s) w in
      read_motion_data w
  | 0x0b => (* MS MOUSE v1.0+ - read motion data *)
      read_motion_data w
  | 0x0c => (* MS MOUSE v1.0+ - define user callback parameters *)
      define_user_callback w
  | 0x0f => (* MS MOUSE v1.0+ - define mickey/pixel rate *)
      set_mickey_pixel_rate (reg_to_signed16 (Regs.cx r)) (reg_to_signed16 (Regs.dx r)) w
  | 0x10 => (* MS MOUSE v1.0+ - define screen region for updating *)
      let w := on_state
                 (fun s =>
                    State.set_update_region_y
                      (reg_to_signed16 (Regs.dx r), reg_to_signed16 (Regs.di r))
                      (State.set_update_region_x
                         (reg_to_signed16 (Regs.cx r), reg_to_signed16 (Regs.si r)) s)) w in
      MOUSEDOS_DrawCursor w
  | 0x11 => (* WheelAPI v1.0+ - get mouse capabilities *)
      let w := set_reg_ax 0x574d w in (* Identifier for detection purposes *)
      let w := set_reg_bx 0 w in      (* Reserved capabilities flags *)
      let w := set_reg_cx 1 w in      (* Wheel is supported *)
      let w := on_state (State.set_wheel_api true) w in (* This call enables WheelAPI extensions *)
      World.set_counter_w 0 w
  | 0x13 => (* MS MOUSE v5.0+ - set double-speed threshold *)
      set_double_speed_threshold (Regs.bx r) w
  | 0x14 => (* MS MOUSE v3.0+ - exchange event-handler *)
      let old_segment := State.user_callback_segment s in
      let old_offset := State.user_callback_offset s in
      let old_mask := State.user_callback_mask s in
      (* Set new values *)
      let w := define_user_callback w in
      (* Return old values *)
      let w := set_reg_cx old_mask w in
      let w := set_reg_dx old_offset w in
      on_regs (Regs.SegSet16_es old_segment) w
  | 0x15 => (* MS MOUSE v6.0+ - get driver storage space requirements *)
      set_reg_bx (Int.u16 (sizeof_state C)) w
  | 0x16 => (* MS MOUSE v6.0+ - save driver state *)
      let w := LOG LOG_WARN w in
      emit (EvMemBlockWrite ((Regs.es_phys r + Regs.dx r) mod 2 ^ 32)
              (state_bytes C (state w)) (sizeof_state C)) w
  | 0x17 => (* MS MOUSE v6.0+ - load driver state *)
      let w := LOG LOG_WARN w in
      let addr := (Regs.es_phys r + Regs.dx r) mod 2 ^ 32 in
      let loaded := state_of_bytes C (MEM_BlockRead C (World.trace w) addr (sizeof_state C)) in
      let w := emit (EvMemBlockRead addr (sizeof_state C)) w in
      let w := World.set_state loaded w in
      let w := World.on_pending Pending.Reset w in
      let w := update_driver_active w in
      set_sensitivity (State.sensitivity_x (state w)) (State.sensitivity_y (state w))
        (State.unknown_01 (state w)) w
  | 0x1a => (* MS MOUSE v6.0+ - set mouse sensitivity *)
      set_sensitivity (Regs.bx r) (Regs.cx r) (Regs.dx r) w
  | 0x1b => (* MS MOUSE v6.0+ - get mouse sensitivity *)
      let w := set_reg_bx (State.sensitivity_x s) w in
      let w := set_reg_cx (State.sensitivity_y s) w in
      set_reg_dx (State.unknown_01 s) w
  | 0x1c => (* MS MOUSE v6.0+ - set interrupt rate *)
      set_interrupt_rate (Regs.bx r) w
  | 0x1d => (* MS MOUSE v6.0+ - set display page number *)
      on_state (State.set_page (Regs.bl r)) w
  | 0x1e => (* MS MOUSE v6.0+ - get display page number *)
      set_reg_bx (State.page s) w
  | 0x1f => (* MS MOUSE v6.0+ - disable mouse driver *)
      let w := set_reg_bx 0 w in
      let w := on_regs (Regs.SegSet16_es 0) w in
      on_state
        (fun s => State.set_hidden 1
                    (State.set_oldhidden (State.hidden s) (State.set_enabled false s))) w
  | 0x20 => (* MS MOUSE v6.0+ - enable mouse driver *)
      on_state (fun s => State.set_hidden (State.oldhidden s) (State.set_enabled true s)) w
  | 0x22 => (* MS MOUSE v6.0+ - set language for messages *)
      on_state (State.set_language (Regs.bx r)) w
  | 0x23 => (* MS MOUSE v6.0+ - get language for messages *)
      set_reg_bx (State.language s) w
  | 0x24 => (* MS MOUSE v6.26+ - get Software version, mouse type, and IRQ number *)
      let w := set_reg_bx 0x805 w in
      let w := on_regs (Regs.set_ch 0x04) w in (* PS/2 type *)
      on_regs (Regs.set_cl 0) w
  | 0x26 => (* MS MOUSE v6.26+ - get maximum virtual coordinates *)
      let w := set_reg_bx (if State.enabled s then 0x0000 else 0xffff) w in
      let w := set_reg_cx (signed_to_reg16 (State.maxpos_x s)) w in
      set_reg_dx (signed_to_reg16 (State.maxpos_y s)) w
  | 0x2a => (* MS MOUSE v7.01+ - get cursor hot spot *)
      let w := on_regs (Regs.set_al (Int.u8 (- State.hidden s))) w in
      let w := set_reg_bx (signed_to_reg16 (State.hot_x s)) w in
      let w := set_reg_cx (signed_to_reg16 (State.hot_y s)) w in
      set_reg_dx 0x04 w (* PS/2 mouse type *)
  | 0x31 => (* MS MOUSE v7.05+ - get current min/max virtual coordinates *)
      let w := set_reg_ax (signed_to_reg16 (State.minpos_x s)) w in
      let w := set_reg_bx (signed_to_reg16 (State.minpos_y s)) w in
      let w := set_reg_cx (signed_to_reg16 (State.maxpos_x s)) w in
      set_reg_dx (signed_to_reg16 (State.maxpos_y s)) w
  | 0x53C1 => (* Logitech CyberMan *)
      LOG LOG_NORMAL w
  | 0x0d | 0x0e | 0x12 | 0x18 | 0x19 | 0x25 | 0x28 | 0x29 | 0x2b | 0x2c | 0x2d
  | 0x2e | 0x33 | 0x2f | 0x30 | 0x32 | 0x34 | 0x35 | 0x4d | 0x6d | 0x70 | 0x72
  | 0x73 => (* not implemented *)
      LOG LOG_ERROR w
  | _ => (* Mouse function not implemented *)
      LOG LOG_ERROR w
  end.

(** *** Callback delivery *)

Definition user_callback_handler (w : World) : World :=
  World.set_dos_cb_running false w.

Definition MOUSEDOS_HasCallback (mask : Z) (w : World) : bool :=
  negb (Z.land (State.user_callback_mask (state w)) mask =? 0).

(** [MOUSEDOS_DoCallback].  [user_callback] is the real-mode address of
    the return trampoline, given as its segment and offset; the four words
    pushed on the guest stack with [CPU_Push16] are returned in the order
    they are pushed. *)
Definition MOUSEDOS_DoCallback (user_callback : Z * Z) (mask buttons_12S : Z)
    (w : World) : list Z * World :=
  let w := World.set_dos_cb_running true w in
  let mouse_moved := negb (Z.land mask MouseEventId.MouseHasMoved =? 0) in
  let wheel_moved := negb (Z.land mask MouseEventId.WheelHasMoved =? 0) in
  let w := on_regs
             (fun r => Regs.set_ax
                         (Int.with_high_byte (Regs.ax r)
                            (if negb (is_captured w) && mouse_moved then 1 else 0)) r) w in
  let w := on_regs (Regs.set_al mask) w in
  let w := on_regs (Regs.set_bl buttons_12S) w in
  let '(v, w) := if wheel_moved then get_reset_wheel_8bit w else (0, w) in
  let w := on_regs (Regs.set_bh v) w in
  let w := set_reg_cx (get_pos_x w) w in
  let w := set_reg_dx (get_pos_y w) w in
  let w := on_regs (Regs.set_si (signed_to_reg16 (State.mickey_counter_x (state w)))) w in
  let w := on_regs (Regs.set_di (signed_to_reg16 (State.mickey_counter_y (state w)))) w in
  ([fst user_callback; snd user_callback;
    State.user_callback_segment (state w); State.user_callback_offset (state w)], w).

Definition MOUSEDOS_NotifyMapped (enabled : bool) (w : World) : World :=
  World.set_is_mapped enabled w.

Definition MOUSEDOS_NotifyRawInput (enabled : bool) (w : World) : World :=
  World.set_raw_input enabled w.

(** [MOUSEDOS_Init], without the allocation of the three callbacks (which
    is the business of the CPU emulation). *)
Definition MOUSEDOS_Init (w : World) : World :=
  let w := on_state
             (fun s =>
                let s := State.set_user_callback_segment 0x6362 s in (* magic value *)
                let s := State.set_hidden 1 s in (* hide cursor on startup *)
                State.set_mode Int.UINT8_MAX s) w in (* non-existing mode *)
  let w := set_sensitivity 50 50 50 w in
  let w := reset_hardware w in
  reset w.

End Driver.

(** ** The initial values of the variables *)

Module Initial.

Definition background : Background.t :=
  {| Background.enabled := false; Background.pos_x := 0; Background.pos_y := 0;
     Background.data := repeat 0 (Z.to_nat cursor_size_xy) |}.

Definition pending : Pending.t :=
  {| Pending.x_rel := F32.zero; Pending.y_rel := F32.zero;
     Pending.x_abs := 0; Pending.y_abs := 0; Pending.w_rel := 0 |}.

Definition buttons3 : list Z := repeat 0 (Z.to_nat num_buttons).

Definition driver_state : State.t :=
  {| State.enabled := false; State.wheel_api := false;
     State.times_pressed := buttons3; State.times_released := buttons3;
     State.last_released_x := buttons3; State.last_released_y := buttons3;
     State.last_pressed_x := buttons3; State.last_pressed_y := buttons3;
     State.last_wheel_moved_x := 0; State.last_wheel_moved_y := 0;
     State.mickey_counter_x := 0; State.mickey_counter_y := 0;
     State.mickey_delta_x := F32.zero; State.mickey_delta_y := F32.zero;
     State.mickeys_per_pixel_x := F32.zero; State.mickeys_per_pixel_y := F32.zero;
     State.double_speed_threshold := 0;
     State.granularity_x := 0; State.granularity_y := 0;
     State.update_region_x := (0, 0); State.update_region_y := (0, 0);
     State.language := 0; State.mode := 0;
     State.sensitivity_x := 0; State.sensitivity_y := 0; State.unknown_01 := 50;
     State.sensitivity_coeff_x := F32.zero; State.sensitivity_coeff_y := F32.zero;
     State.minpos_x := 0; State.maxpos_x := 0; State.minpos_y := 0; State.maxpos_y := 0;
     State.page := 0; State.inhibit_draw := false;
     State.hidden := 0; State.oldhidden := 0;
     State.clipx := 0; State.clipy := 0; State.hot_x := 0; State.hot_y := 0;
     State.background := background;
     State.cursor_type := Software;
     State.text_and_mask := 0; State.text_xor_mask := 0;
     State.user_screen_mask := false; State.user_cursor_mask := false;
     State.user_def_screen_mask := repeat 0 (Z.to_nat cursor_size_x);
     State.user_def_cursor_mask := repeat 0 (Z.to_nat cursor_size_y);
     State.user_callback_mask := 0; State.user_callback_segment := 0;
     State.user_callback_offset := 0 |}.

Definition registers : Regs.t :=
  {| Regs.ax := 0; Regs.bx := 0; Regs.cx := 0; Regs.dx := 0;
     Regs.si := 0; Regs.di := 0; Regs.es_val := 0; Regs.es_phys := 0 |}.

Definition world : World :=
  {| World.regs := registers;
     World.state := driver_state;
     World.buttons := 0;
     World.pos_x := F32.zero; World.pos_y := F32.zero;
     World.counter_w := 0;
     World.is_mapped := false; World.raw_input := true;
     World.rate_is_set := false; World.rate_hz := 0; World.min_rate_hz := 0;
     World.pending := pending;
     World.vga_regs := {| VgaRegs.sequ_address := 0; VgaRegs.sequ_data := 0;
                          VgaRegs.grdc_address := repeat 0 9 |};
     World.active_dos := false; World.dos_cb_running := false;
     World.trace := [] |}.

End Initial.

(** ** A concrete machine to run the driver on

    A VGA machine whose video BIOS reports one fixed mode, whose screen
    and memory read as zero and which keeps the pointer captured.  It
    serves to evaluate the driver on concrete inputs. *)

Module Machine.

Definition with_mode (type : VideoModeType) (bios_mode width height : Z)
    : Collaborators :=
  {| IS_VGA_ARCH := true; IS_EGAVGA_ARCH := true; machine_is_MCH_EGA := false;
     dos_immediate := false;
     mouse_is_captured := fun _ => true;
     mouse_video_res_x := fun _ => 640; mouse_video_res_y := fun _ => 480;
     mouse_video_clip_x := fun _ => 0; mouse_video_clip_y := fun _ => 0;
     CurMode := fun _ => {| mode_type := type; swidth := width; sheight := height |};
     BIOSMEM_CURRENT_PAGE := fun _ => 0;
     BIOSMEM_PAGE_SIZE := fun _ => 4096;
     BIOSMEM_NB_COLS := fun _ => 80;
     BIOSMEM_NB_ROWS := fun _ => 24;
     BIOSMEM_CRTC_ADDRESS := fun _ => 0x3d4;
     BIOS_VIDEO_MODE := fun _ => bios_mode;
     ReadCharAttr := fun _ _ _ _ => 0;
     INT10_GetPixel := fun _ _ _ _ => 0;
     VGAREG_GRDC_ADDRESS := 0x3ce; VGAREG_GRDC_DATA := 0x3cf;
     VGAREG_SEQU_ADDRESS := 0x3c4; VGAREG_SEQU_DATA := 0x3c5;
     IO_Read := fun _ _ => 0;
     MEM_BlockRead := fun _ _ size => repeat 0 (Z.to_nat size);
     sizeof_state := 0;
     state_bytes := fun _ => [];
     state_of_bytes := fun _ => Initial.driver_state;
     MOUSE_GetBallisticsCoeff := fun x => x;
     MOUSE_ClampRelativeMovement := fun x => x;
     speed_mickeys_Get := fun _ => F32.zero |}.

(** Text mode 3 (80x25) and graphic mode 0x12 (640x480). *)
Definition text : Collaborators := with_mode M_TEXT 0x03 640 400.
Definition graphic : Collaborators := with_mode M_GRAPHICS 0x12 640 480.

(** The driver after [MOUSEDOS_Init]. *)
Definition booted (C : Collaborators) : World := MOUSEDOS_Init C Initial.world.

(** A call of INT 33h with the given registers. *)
Definition int33 (C : Collaborators) (ax bx cx dx : Z) (w : World) : World :=
  int33_handler C
    (on_regs (fun r => Regs.set_dx dx (Regs.set_cx cx (Regs.set_bx bx (Regs.set_ax ax r)))) w).

End Machine.

(** ** Serial mouse models ([mouse_config.cpp]) *)

Module MouseConfig.

Inductive MouseModelCOM : Type := Microsoft | Logitech | Wheel | MouseSystems.

Definition list_models_com : list string :=
  [ "2button"; "3button"; "wheel"; "msm"; "2button+msm"; "3button+msm";
    "wheel+msm" ]%string.

(** [list_models_com[i]]. *)
Definition model_name (i : nat) : string := nth i list_models_com ""%string.

(** [MouseConfig::ParseSerialModel]: [Some (model, auto_msm)] when the
    function returns [true] having set both output parameters, [None] when
    it returns [false] having set neither. *)
Definition ParseSerialModel (model_str : string) : option (MouseModelCOM * bool) :=
  if String.eqb model_str (model_name 0) then Some (Microsoft, false)
  else if String.eqb model_str (model_name 1) then Some (Logitech, false)
  else if String.eqb model_str (model_name 2) then Some (Wheel, false)
  else if String.eqb model_str (model_name 3) then Some (MouseSystems, false)
  else if String.eqb model_str (model_name 4) then Some (Microsoft, true)
  else if String.eqb model_str (model_name 5) then Some (Logitech, true)
  else if String.eqb model_str (model_name 6) then Some (Wheel, true)
  else None.

(** The [set_model_com] lambda of [config_read], on the two variables it
    is given by reference. *)
Definition set_model_com (model_str : string) (model_var : MouseModelCOM)
    (model_auto : bool) : MouseModelCOM * bool :=
  let named (i : nat) := String.eqb model_str (model_name i) in
  let model_var := if named 0%nat || named 4%nat then Microsoft else model_var in
  let model_var := if named 1%nat || named 5%nat then Logitech else model_var in
  let model_var := if named 2%nat || named 6%nat then Wheel else model_var in
  let model_var := if named 3%nat then MouseSystems else model_var in
  let model_auto := if named 4%nat || named 5%nat || named 6%nat then true else false in
  (model_var, model_auto).

End MouseConfig.

(** * Properties *)

(** ** Fixed-width conversions *)

Lemma s16_range (z : Z) : Int.is_s16 (Int.s16 z).
Proof. unfold Int.is_s16, Int.s16. pose proof (Z.mod_pos_bound (z + 32768) 65536). lia. Qed.

Lemma s16_id (z : Z) : Int.is_s16 z -> Int.s16 z = z.
Proof. unfold Int.is_s16, Int.s16. intros H. rewrite Z.mod_small; lia. Qed.

Lemma u16_id (z : Z) : Int.is_u16 z -> Int.u16 z = z.
Proof. unfold Int.is_u16, Int.u16. intros H. apply Z.mod_small. lia. Qed.

Lemma u8_id (z : Z) : Int.is_u8 z -> Int.u8 z = z.
Proof. unfold Int.is_u8, Int.u8. intros H. apply Z.mod_small. lia. Qed.

Lemma reg_to_signed16_range (x : Z) : Int.is_s16 (reg_to_signed16 x).
Proof. unfold reg_to_signed16. destruct (Z.testbit x 15); apply s16_range. Qed.

(** ** Loops *)

Lemma for_range_ind {A : Type} (P : A -> Prop) (lo hi : Z)
    (body : Z -> A -> A) (a : A) :
  P a -> (forall i x, P x -> P (body i x)) -> P (for_range lo hi body a).
Proof.
  intros Ha Hbody. unfold for_range.
  generalize (seqZ lo (hi - lo + 1)) as l. intros l. revert a Ha.
  induction l as [|i l IH]; intros a Ha; simpl; auto.
Qed.

(** ** What the renderer may change

    The cursor renderer writes the trace, the saved VGA registers and,
    in the driver state, the saved background and the clipping ranges.
    [erase_render] forgets exactly these, so two worlds with the same
    image differ in nothing else. *)

Definition erase_render (w : World) : World :=
  World.set_trace []
    (World.set_vga_regs (VgaRegs.mk 0 0 [])
       (on_state
          (fun s => State.set_background (Background.mk false 0 0 [])
                      (State.set_clipx 0 (State.set_clipy 0 s))) w)).

Definition render_only (f : World -> World) : Prop :=
  forall w, erase_render (f w) = erase_render w.

Lemma render_only_compose (f g : World -> World) :
  render_only f -> render_only g -> render_only (fun w => g (f w)).
Proof. intros Hf Hg w. rewrite Hg. apply Hf. Qed.

Lemma erase_emit (ev : Event) (w : World) :
  erase_render (emit ev w) = erase_render w.
Proof. reflexivity. Qed.

Lemma erase_on_background (f : Background.t -> Background.t) (w : World) :
  erase_render (on_background f w) = erase_render w.
Proof. reflexivity. Qed.

Lemma erase_clip (cx cy : Z) (w : World) :
  erase_render (on_state (fun s => State.set_clipy cy (State.set_clipx cx s)) w)
  = erase_render w.
Proof. reflexivity. Qed.

Lemma erase_set_vga_regs (v : VgaRegs.t) (w : World) :
  erase_render (World.set_vga_regs v w) = erase_render w.
Proof. reflexivity. Qed.

(** A loop over worlds paired with an accumulator. *)
Lemma render_only_loop {A : Type} (lo hi : Z) (body : Z -> A * World -> A * World)
    (a : A) (w : World) :
  (forall i x, erase_render (snd (body i x)) = erase_render (snd x)) ->
  erase_render (snd (for_range lo hi body (a, w))) = erase_render w.
Proof.
  intros Hbody.
  apply (for_range_ind (fun x => erase_render (snd x) = erase_render w)); [reflexivity|].
  intros i x Hx. rewrite Hbody. exact Hx.
Qed.

Lemma render_only_loop_world (lo hi : Z) (body : Z -> World -> World) :
  (forall i, render_only (body i)) -> render_only (for_range lo hi body).
Proof.
  intros Hbody w.
  apply (for_range_ind (fun x => erase_render x = erase_render w)); [reflexivity|].
  intros i x Hx. rewrite Hbody. exact Hx.
Qed.

Section RenderFrame.

Context (C : Collaborators).

Lemma erase_IO_Write (port val : Z) (w : World) :
  erase_render (IO_Write port val w) = erase_render w.
Proof. apply erase_emit. Qed.

Lemma erase_WriteChar (col row page chr attr : Z) (useattr : bool) (w : World) :
  erase_render (WriteChar col row page chr attr useattr w) = erase_render w.
Proof. apply erase_emit. Qed.

Lemma erase_PutPixel (x y page color : Z) (w : World) :
  erase_render (INT10_PutPixel x y page color w) = erase_render w.
Proof. apply erase_emit. Qed.

Lemma erase_IO_Read_into (port : Z) (k : Z -> World -> World) (w : World) :
  (forall v, render_only (k v)) ->
  erase_render (IO_Read_into C port k w) = erase_render w.
Proof. intros Hk. unfold IO_Read_into. rewrite Hk. apply erase_emit. Qed.

Lemma erase_on_vga_regs (f : VgaRegs.t -> VgaRegs.t) (w : World) :
  erase_render (on_vga_regs f w) = erase_render w.
Proof. apply erase_set_vga_regs. Qed.

Lemma render_only_restore_text : render_only (restore_cursor_background_text C).
Proof.
  intros w. unfold restore_cursor_background_text.
  destruct (_ || _); [reflexivity|].
  destruct (Background.enabled _); [|reflexivity].
  rewrite erase_on_background. apply erase_WriteChar.
Qed.

Lemma render_only_draw_cursor_text : render_only (draw_cursor_text C).
Proof.
  intros w. unfold draw_cursor_text.
  rewrite <- (render_only_restore_text w).
  generalize (restore_cursor_background_text C w) as w1. intros w1.
  destruct (in_update_region _ _ _); [reflexivity|].
  destruct (State.cursor_type _).
  - rewrite erase_WriteChar, erase_on_background, erase_emit.
    apply erase_on_background.
  - rewrite !erase_IO_Write. apply erase_on_background.
  - rewrite !erase_IO_Write. apply erase_on_background.
Qed.

Lemma render_only_save_vga : render_only (save_vga_registers C).
Proof.
  intros w. unfold save_vga_registers.
  destruct (IS_VGA_ARCH C).
  - rewrite erase_IO_Write.
    rewrite erase_IO_Read_into by (intros v w1; apply erase_on_vga_regs).
    rewrite erase_IO_Write.
    rewrite erase_IO_Read_into by (intros v w1; apply erase_on_vga_regs).
    rewrite !erase_IO_Write.
    apply render_only_loop_world. intros i w1.
    rewrite erase_IO_Read_into by (intros v w2; apply erase_on_vga_regs).
    apply erase_IO_Write.
  - destruct (machine_is_MCH_EGA C); [|reflexivity].
    rewrite !erase_IO_Write. reflexivity.
Qed.

Lemma render_only_restore_vga : render_only (restore_vga_registers C).
Proof.
  intros w. unfold restore_vga_registers.
  destruct (IS_VGA_ARCH C); [|reflexivity].
  rewrite !erase_IO_Write.
  apply render_only_loop_world. intros i w1.
  rewrite !erase_IO_Write. reflexivity.
Qed.

Lemma render_only_restore_background : render_only (restore_cursor_background C).
Proof.
  intros w. unfold restore_cursor_background.
  destruct (_ || _); [reflexivity|].
  match goal with
  | |- context [for_range ?lo ?hi ?b (?a, ?w1)] =>
      pose proof (render_only_loop lo hi b a w1) as Hloop;
      destruct (for_range lo hi b (a, w1)) as [p w2]
  end.
  rewrite render_only_restore_vga, erase_on_background.
  simpl snd in Hloop. rewrite Hloop; [apply render_only_save_vga|].
  intros i [p1 w3]. cbv beta iota.
  match goal with
  | |- context [for_range ?lo ?hi ?b (?a, ?w1)] =>
      pose proof (render_only_loop lo hi b a w1) as Hin;
      destruct (for_range lo hi b (a, w1)) as [p2 w4]
  end.
  simpl snd in *. apply Hin. intros j [p3 w5]. simpl snd. apply erase_PutPixel.
Qed.

Lemma render_only_save_background_pixels (a : ClippedArea) :
  render_only (save_background_pixels C a).
Proof.
  intros w. unfold save_background_pixels.
  match goal with
  | |- context [for_range ?lo ?hi ?b (?a, ?w1)] =>
      pose proof (render_only_loop lo hi b a w1) as Hloop;
      destruct (for_range lo hi b (a, w1)) as [p w2]
  end.
  simpl snd in Hloop. apply Hloop.
  intros i [p1 w3]. cbv beta iota.
  match goal with
  | |- context [for_range ?lo ?hi ?b (?a, ?w1)] =>
      pose proof (render_only_loop lo hi b a w1) as Hin;
      destruct (for_range lo hi b (a, w1)) as [p2 w4]
  end.
  simpl snd in *. apply Hin. intros j [p3 w5]. simpl snd.
  rewrite erase_on_background. apply erase_emit.
Qed.

Lemma render_only_draw_mouse_cursor (a : ClippedArea) :
  render_only (draw_mouse_cursor a).
Proof.
  intros w. unfold draw_mouse_cursor.
  match goal with
  | |- context [for_range ?lo ?hi ?b (?a, ?w1)] =>
      pose proof (render_only_loop lo hi b a w1) as Hloop;
      destruct (for_range lo hi b (a, w1)) as [p w2]
  end.
  simpl snd in Hloop. apply Hloop.
  intros i [p1 w3]. cbv beta iota.
  destruct (0 <? addx1 a).
  all: match goal with
  | |- context [for_range ?lo ?hi ?b (?a, ?w1)] =>
      pose proof (render_only_loop lo hi b a w1) as Hin;
      destruct (for_range lo hi b (a, w1)) as [[[p2 p2'] p2''] w4]
  end.
  all: simpl snd in *; apply Hin; intros j [[[q q'] q''] w5]; simpl snd;
    apply erase_PutPixel.
Qed.

Lemma render_only_DrawCursor : render_only (MOUSEDOS_DrawCursor C).
Proof.
  intros w. unfold MOUSEDOS_DrawCursor.
  destruct (_ || _); [reflexivity|].
  destruct (mode_type _).
  - rewrite render_only_draw_cursor_text. apply erase_emit.
  - rewrite render_only_restore_vga, render_only_draw_mouse_cursor.
    rewrite erase_on_background.
    rewrite render_only_save_background_pixels.
    rewrite render_only_save_vga, render_only_restore_background.
    unfold INT10_SetCurMode.
    rewrite (erase_clip _ _ (emit EvSetCurMode w)). apply erase_emit.
Qed.

End RenderFrame.

(** Whatever can be read from the erased world is left alone by a
    function that only renders. *)
Lemma render_only_keeps {A : Type} (p : World -> A) (f : World -> World) :
  (forall w, p (erase_render w) = p w) -> render_only f ->
  forall w, p (f w) = p w.
Proof. intros Hp Hf w. rewrite <- Hp, Hf. apply Hp. Qed.

(** ** Function 0x05 / 0x06 with an unsupported button index *)

(** C10.  A call of function 0x05 or 0x06 with a button index that is
    neither a valid button (below 3) nor the wheel index 0xffff with the
    wheel extension enabled returns AX = the button bitmask and
    BX = CX = DX = 0; nothing but these four registers changes: the driver
    state (press and release counters included) and the wheel counter are
    as before. *)
Theorem unsupported_button_index (C : Collaborators) (w : World) :
  Regs.ax (regs w) = 0x05 \/ Regs.ax (regs w) = 0x06 ->
  num_buttons <= Regs.bx (regs w) ->
  (Regs.bx (regs w) = 0xffff -> State.wheel_api (state w) = false) ->
  let w' := int33_handler C w in
  Regs.ax (regs w') = World.buttons w /\
  Regs.bx (regs w') = 0 /\ Regs.cx (regs w') = 0 /\ Regs.dx (regs w') = 0 /\
  state w' = state w /\
  World.counter_w w' = World.counter_w w /\
  w' = World.set_regs (regs w') w.
Proof.
  intros Hax Hidx Hwheel w'.
  assert (Hw' : w' = set_reg_dx 0 (set_reg_cx 0 (set_reg_bx 0
                       (set_reg_ax (World.buttons w) w)))).
  { subst w'. unfold int33_handler.
    assert (Hbody : forall times lx ly clear,
               get_button_data times lx ly clear w
               = set_reg_dx 0 (set_reg_cx 0 (set_reg_bx 0
                   (set_reg_ax (World.buttons w) w)))).
    { intros. unfold get_button_data.
      assert (((Regs.bx (regs w) =? 0xffff) && State.wheel_api (state w)) = false) as ->.
      { destruct (Z.eqb_spec (Regs.bx (regs w)) 0xffff) as [E|E]; [|reflexivity].
        rewrite (Hwheel E). reflexivity. }
      assert ((Regs.bx (regs w) <? num_buttons) = false) as -> by (apply Z.ltb_ge; lia).
      reflexivity. }
    destruct Hax as [-> | ->]; apply Hbody. }
  rewrite Hw'. destruct w as [r s]. repeat split.
Qed.

(** Function 0x05 called with button index 7 on the freshly initialised
    driver. *)
Definition unsupported_index_call : World :=
  on_regs (fun r => Regs.set_bx 7 (Regs.set_ax 0x05 r)) (Machine.booted Machine.text).

Lemma unsupported_button_index_witness :
  let w' := int33_handler Machine.text unsupported_index_call in
  Regs.ax (regs w') = World.buttons unsupported_index_call /\
  Regs.bx (regs w') = 0 /\ Regs.cx (regs w') = 0 /\ Regs.dx (regs w') = 0 /\
  state w' = state unsupported_index_call /\
  World.counter_w w' = World.counter_w unsupported_index_call /\
  w' = World.set_regs (regs w') unsupported_index_call.
Proof.
  apply (unsupported_button_index Machine.text unsupported_index_call).
  - left. vm_compute. reflexivity.
  - vm_compute. discriminate.
  - intros _. vm_compute. reflexivity.
Defined.
(** ** Hard and soft reset *)

(** *** What a reset leaves alone

    [erase_state] keeps the fields of the driver state that no step of
    [reset] after [MOUSEDOS_BeforeNewVideoMode] writes, and
    [erase_reset] does the same for the whole world; everything else is
    forgotten.  Two worlds with the same image agree on all of the kept
    fields. *)

Definition erase_state (s : State.t) : State.t :=
  {| State.enabled := false;
     State.wheel_api := State.wheel_api s;
     State.times_pressed := [];
     State.times_released := [];
     State.last_released_x := [];
     State.last_released_y := [];
     State.last_pressed_x := [];
     State.last_pressed_y := [];
     State.last_wheel_moved_x := 0;
     State.last_wheel_moved_y := 0;
     State.mickey_counter_x := 0;
     State.mickey_counter_y := 0;
     State.mickey_delta_x := F32.zero;
     State.mickey_delta_y := F32.zero;
     State.mickeys_per_pixel_x := F32.zero;
     State.mickeys_per_pixel_y := F32.zero;
     State.double_speed_threshold := 0;
     State.granularity_x := 0;
     State.granularity_y := 0;
     State.update_region_x := State.update_region_x s;
     State.update_region_y := (fst (State.update_region_y s), 0);
     State.language := State.language s;
     State.mode := 0;
     State.sensitivity_x := State.sensitivity_x s;
     State.sensitivity_y := State.sensitivity_y s;
     State.unknown_01 := State.unknown_01 s;
     State.sensitivity_coeff_x := State.sensitivity_coeff_x s;
     State.sensitivity_coeff_y := State.sensitivity_coeff_y s;
     State.minpos_x := 0;
     State.maxpos_x := 0;
     State.minpos_y := 0;
     State.maxpos_y := 0;
     State.page := 0;
     State.inhibit_draw := false;
     State.hidden := State.hidden s;
     State.oldhidden := State.oldhidden s;
     State.clipx := 0;
     State.clipy := 0;
     State.hot_x := 0;
     State.hot_y := 0;
     State.background := (Background.mk false 0 0 []);
     State.cursor_type := Software;
     State.text_and_mask := 0;
     State.text_xor_mask := 0;
     State.user_screen_mask := false;
     State.user_cursor_mask := false;
     State.user_def_screen_mask := State.user_def_screen_mask s;
     State.user_def_cursor_mask := State.user_def_cursor_mask s;
     State.user_callback_mask := 0;
     State.user_callback_segment := State.user_callback_segment s;
     State.user_callback_offset := State.user_callback_offset s |}.

Definition erase_reset (w : World) : World :=
  {| World.regs := regs w;
     World.state := erase_state (state w);
     World.buttons := World.buttons w;
     World.pos_x := F32.zero;
     World.pos_y := F32.zero;
     World.counter_w := World.counter_w w;
     World.is_mapped := World.is_mapped w;
     World.raw_input := World.raw_input w;
     World.rate_is_set := World.rate_is_set w;
     World.rate_hz := World.rate_hz w;
     World.min_rate_hz := World.min_rate_hz w;
     World.pending := Pending.Reset (World.pending w);
     World.vga_regs := VgaRegs.mk 0 0 [];
     World.active_dos := false;
     World.dos_cb_running := false;
     World.trace := [] |}.

Definition reset_only (f : World -> World) : Prop :=
  forall w, erase_reset (f w) = erase_reset w.

Lemma erase_reset_render (w : World) : erase_reset (erase_render w) = erase_reset w.
Proof. reflexivity. Qed.

Lemma render_only_reset_only (f : World -> World) : render_only f -> reset_only f.
Proof.
  intros Hf w. rewrite <- (erase_reset_render (f w)), Hf. apply erase_reset_render.
Qed.

Lemma erase_reset_emit (ev : Event) (w : World) :
  erase_reset (emit ev w) = erase_reset w.
Proof. reflexivity. Qed.

Lemma erase_reset_on_state (f : State.t -> State.t) (w : World) :
  (forall s, erase_state (f s) = erase_state s) ->
  erase_reset (on_state f w) = erase_reset w.
Proof. intros Hf. unfold erase_reset. simpl. rewrite Hf. reflexivity. Qed.

Lemma erase_reset_set_pos_x (v : F32.t) (w : World) :
  erase_reset (World.set_pos_x v w) = erase_reset w.
Proof. reflexivity. Qed.

Lemma erase_reset_set_pos_y (v : F32.t) (w : World) :
  erase_reset (World.set_pos_y v w) = erase_reset w.
Proof. reflexivity. Qed.

Lemma erase_reset_set_dos_cb_running (v : bool) (w : World) :
  erase_reset (World.set_dos_cb_running v w) = erase_reset w.
Proof. reflexivity. Qed.

Lemma erase_reset_set_active_dos (v : bool) (w : World) :
  erase_reset (World.set_active_dos v w) = erase_reset w.
Proof. reflexivity. Qed.

Lemma erase_reset_pending_Reset (w : World) :
  erase_reset (World.on_pending Pending.Reset w) = erase_reset w.
Proof. reflexivity. Qed.

Lemma reset_only_loop (lo hi : Z) (body : Z -> World -> World) :
  (forall i, reset_only (body i)) -> reset_only (for_range lo hi body).
Proof.
  intros Hbody w.
  apply (for_range_ind (fun x => erase_reset x = erase_reset w)); [reflexivity|].
  intros i x Hx. rewrite Hbody. exact Hx.
Qed.

(** Setting the two hidden counts commutes with the erasure. *)
Definition hide_once (s : State.t) : State.t :=
  State.set_oldhidden 1 (State.set_hidden 1 s).

Lemma erase_reset_hide_once (w : World) :
  erase_reset (on_state hide_once w) = on_state hide_once (erase_reset w).
Proof. reflexivity. Qed.

Section Reset.

Context (C : Collaborators).

Lemma reset_only_update_driver_active : reset_only update_driver_active.
Proof.
  intros w. unfold update_driver_active, MOUSE_NotifyStateChanged.
  rewrite erase_reset_emit. apply erase_reset_set_active_dos.
Qed.

Lemma reset_only_set_mickey_pixel_rate (ratio_x ratio_y : Z) :
  reset_only (set_mickey_pixel_rate ratio_x ratio_y).
Proof.
  intros w. unfold set_mickey_pixel_rate.
  destruct (_ && _); [|reflexivity].
  apply erase_reset_on_state. reflexivity.
Qed.

Lemma reset_only_set_double_speed_threshold (threshold : Z) :
  reset_only (set_double_speed_threshold threshold).
Proof.
  intros w. unfold set_double_speed_threshold.
  destruct (negb _); apply erase_reset_on_state; reflexivity.
Qed.

Lemma reset_only_AfterNewVideoMode (setmode : bool) :
  reset_only (MOUSEDOS_AfterNewVideoMode C setmode).
Proof.
  intros w. unfold MOUSEDOS_AfterNewVideoMode.
  destruct (video_mode_geometry _ _) as [[[my gx] gy]|].
  - unfold MOUSE_NotifyResetDOS. rewrite erase_reset_emit.
    rewrite !erase_reset_on_state by reflexivity.
    destruct (setmode && _); [unfold LOG; rewrite erase_reset_emit|];
      apply erase_reset_on_state; reflexivity.
  - rewrite erase_reset_on_state by reflexivity.
    unfold LOG. rewrite erase_reset_emit.
    rewrite erase_reset_on_state by reflexivity.
    destruct (setmode && _); [rewrite erase_reset_emit|];
      apply erase_reset_on_state; reflexivity.
Qed.

Lemma erase_reset_BeforeNewVideoMode (w : World) :
  erase_reset (MOUSEDOS_BeforeNewVideoMode C w)
  = on_state hide_once (erase_reset w).
Proof.
  unfold MOUSEDOS_BeforeNewVideoMode.
  rewrite (render_only_reset_only _ (fun w => erase_on_background _ w)).
  change (fun s : State.t => State.set_oldhidden 1 (State.set_hidden 1 s))
    with hide_once.
  rewrite erase_reset_hide_once.
  destruct (mode_type _).
  - rewrite (render_only_reset_only _ (render_only_restore_text C)). reflexivity.
  - rewrite (render_only_reset_only _ (render_only_restore_background C)). reflexivity.
Qed.

(** On the kept fields, [reset] does three things: it zeroes the wheel
    counter and sets the hidden count and the remembered hidden count
    to 1. *)
Lemma erase_reset_reset (w : World) :
  erase_reset (reset C w)
  = on_state hide_once (erase_reset (World.set_counter_w 0 w)).
Proof.
  unfold reset.
  unfold MOUSE_NotifyResetDOS at 1. rewrite erase_reset_emit.
  rewrite reset_only_update_driver_active.
  rewrite erase_reset_set_dos_cb_running.
  rewrite erase_reset_on_state by reflexivity.
  rewrite reset_only_loop
    by (intros i w1; apply erase_reset_on_state; reflexivity).
  rewrite erase_reset_on_state by reflexivity.
  rewrite erase_reset_set_pos_y, erase_reset_set_pos_x.
  rewrite erase_reset_on_state by reflexivity.
  rewrite reset_only_set_double_speed_threshold, reset_only_set_mickey_pixel_rate.
  rewrite reset_only_AfterNewVideoMode.
  rewrite erase_reset_BeforeNewVideoMode.
  rewrite erase_reset_pending_Reset. reflexivity.
Qed.

End Reset.

(** What neither reset path of the driver writes once the hardware part
    is done: the registers, the wheel-extension flag, the interrupt-rate
    override and the buttons. *)
Definition kept_by_reset (w : World) : Regs.t * bool * bool * Z * Z * Z :=
  (regs w, State.wheel_api (state w), World.rate_is_set w, World.rate_hz w,
   World.min_rate_hz w, World.buttons w).

Lemma kept_by_reset_erase (w : World) :
  kept_by_reset (erase_reset w) = kept_by_reset w.
Proof. reflexivity. Qed.

Lemma kept_by_reset_reset (C : Collaborators) (w : World) :
  kept_by_reset (reset C w) = kept_by_reset w.
Proof.
  rewrite <- (kept_by_reset_erase (reset C w)), erase_reset_reset.
  reflexivity.
Qed.

Lemma counter_w_erase (w : World) :
  World.counter_w (erase_reset w) = World.counter_w w.
Proof. reflexivity. Qed.

Lemma counter_w_reset (C : Collaborators) (w : World) :
  World.counter_w (reset C w) = 0.
Proof.
  rewrite <- (counter_w_erase (reset C w)), erase_reset_reset.
  reflexivity.
Qed.

Lemma hidden_erase (w : World) :
  State.hidden (state (erase_reset w)) = State.hidden (state w).
Proof. reflexivity. Qed.

Lemma hidden_after_reset (C : Collaborators) (w : World) :
  State.hidden (state (reset C w)) = 1.
Proof.
  rewrite <- (hidden_erase (reset C w)), erase_reset_reset.
  reflexivity.
Qed.

(** The hardware-reset extras. *)
Lemma reset_hardware_extras (C : Collaborators) (w : World) :
  let w' := reset_hardware w in
  State.wheel_api (state w') = false /\
  World.counter_w w' = 0 /\
  World.rate_is_set w' = false /\
  regs w' = regs w.
Proof.
  unfold reset_hardware, notify_interface_rate. simpl.
  destruct (negb _); repeat split.
Qed.

Lemma set_reg_ax_twice (a b : Z) (w : World) :
  set_reg_ax a (set_reg_ax b w) = set_reg_ax a w.
Proof. reflexivity. Qed.

Lemma int33_hard_reset (C : Collaborators) (w : World) :
  int33_handler C (set_reg_ax 0x00 w)
  = software_reset C (reset_hardware (set_reg_ax 0x00 w)).
Proof. reflexivity. Qed.

Lemma int33_soft_reset (C : Collaborators) (w : World) :
  int33_handler C (set_reg_ax 0x21 w) = software_reset C (set_reg_ax 0x21 w).
Proof. reflexivity. Qed.

Lemma software_reset_ax (C : Collaborators) (a : Z) (w : World) :
  software_reset C (set_reg_ax a w) = software_reset C w.
Proof. unfold software_reset. rewrite set_reg_ax_twice. reflexivity. Qed.

(** ** Show and hide *)

Section ShowHide.

Context (C : Collaborators).

Definition show (w : World) : World := int33_handler C (set_reg_ax 0x01 w).
Definition hide (w : World) : World := int33_handler C (set_reg_ax 0x02 w).

(** The world [show] hands to the renderer. *)
Definition shown (w : World) : World :=
  on_state
    (fun s =>
       State.set_update_region_y (fst (State.update_region_y s), -1)
         (State.set_hidden (Z.max 0 (State.hidden s - 1)) s))
    (set_reg_ax 0x01 w).

Lemma show_redraws (w : World) :
  Int.is_u16 (State.hidden (state w)) ->
  show w = MOUSEDOS_DrawCursor C (shown w).
Proof.
  intros Hh. unfold show, shown, int33_handler. simpl.
  f_equal.
  destruct w as [r s b px py cw im ri rs rh mr pe vg ad dc tr]. simpl in *.
  unfold on_state, World.on_state, set_reg_ax, on_regs, World.on_regs. simpl.
  destruct (Z.eqb_spec (State.hidden s) 0) as [E|E]; simpl.
  - replace (Z.max 0 (State.hidden s - 1)) with (State.hidden s) by lia.
    destruct s. reflexivity.
  - rewrite u16_id by (unfold Int.is_u16 in *; lia).
    rewrite Z.max_r by (unfold Int.is_u16 in *; lia). reflexivity.
Qed.

Lemma state_render (f : World -> World) (w : World) :
  render_only f ->
  State.hidden (state (f w)) = State.hidden (state w) /\
  State.update_region_x (state (f w)) = State.update_region_x (state w) /\
  State.update_region_y (state (f w)) = State.update_region_y (state w).
Proof.
  intros Hf. repeat split.
  - apply (render_only_keeps (fun w => State.hidden (state w)) f); [reflexivity|exact Hf].
  - apply (render_only_keeps (fun w => State.update_region_x (state w)) f);
      [reflexivity|exact Hf].
  - apply (render_only_keeps (fun w => State.update_region_y (state w)) f);
      [reflexivity|exact Hf].
Qed.

Lemma hidden_after_show (w : World) :
  Int.is_u16 (State.hidden (state w)) ->
  State.hidden (state (show w)) = Z.max 0 (State.hidden (state w) - 1).
Proof.
  intros Hh. rewrite show_redraws by exact Hh.
  destruct (state_render (MOUSEDOS_DrawCursor C) (shown w)
              (render_only_DrawCursor C)) as (-> & _ & _).
  reflexivity.
Qed.

Lemma hidden_after_hide (w : World) :
  State.hidden (state (hide w)) = Int.u16 (State.hidden (state w) + 1).
Proof.
  unfold hide, int33_handler. simpl.
  destruct (mode_type _).
  - destruct (state_render (restore_cursor_background_text C) (set_reg_ax 0x02 w)
                (render_only_restore_text C)) as (E & _ & _).
    simpl. rewrite E. reflexivity.
  - destruct (state_render (restore_cursor_background C) (set_reg_ax 0x02 w)
                (render_only_restore_background C)) as (E & _ & _).
    simpl. rewrite E. reflexivity.
Qed.

Lemma region_after_show (w : World) :
  Int.is_u16 (State.hidden (state w)) ->
  State.update_region_y (state (show w)) = (fst (State.update_region_y (state w)), -1).
Proof.
  intros Hh. rewrite show_redraws by exact Hh.
  destruct (state_render (MOUSEDOS_DrawCursor C) (shown w)
              (render_only_DrawCursor C)) as (_ & _ & ->).
  reflexivity.
Qed.

End ShowHide.

(** * Further properties of the driver *)

(** ** Register conversions *)

Lemma testbit_15_u16 (r : Z) : Int.is_u16 r -> Z.testbit r 15 = (32768 <=? r).
Proof.
  unfold Int.is_u16. intros Hr.
  pose proof (Z.testbit_spec' r 15 ltac:(lia)) as Hb.
  change (2 ^ 15) with 32768 in Hb.
  destruct (Z.leb_spec 32768 r) as [Hge|Hlt].
  - assert (r / 32768 = 1) as E by (symmetry; apply (Z.div_unique r 32768 1 (r - 32768)); lia).
    rewrite E in Hb. destruct (Z.testbit r 15); [reflexivity|discriminate].
  - rewrite Z.div_small in Hb by lia.
    destruct (Z.testbit r 15); [discriminate|reflexivity].
Qed.

Lemma signed_to_reg16_u16 (x : Z) :
  Int.is_s16 x -> Int.is_u16 (signed_to_reg16 x).
Proof.
  unfold Int.is_s16. intros Hx.
  unfold signed_to_reg16, Int.is_u16, Int.u16.
  destruct (0 <=? x); pose proof (Z.mod_pos_bound x 65536);
    pose proof (Z.mod_pos_bound (65536 + x) 65536); lia.
Qed.

Lemma reg_of_signed16 (x : Z) :
  Int.is_s16 x -> reg_to_signed16 (signed_to_reg16 x) = x.
Proof.
  intros Hx. pose proof (signed_to_reg16_u16 x Hx) as Hs.
  unfold Int.is_s16 in Hx.
  unfold reg_to_signed16. rewrite testbit_15_u16 by exact Hs.
  unfold signed_to_reg16, Int.u16, Int.s16.
  destruct (Z.leb_spec 0 x).
  - rewrite (Z.mod_small x) by lia.
    destruct (Z.leb_spec 32768 x); [lia|]. rewrite Z.mod_small; lia.
  - rewrite (Z.mod_small (65536 + x)) by lia.
    destruct (Z.leb_spec 32768 (65536 + x)); [|lia].
    rewrite Z.mod_small; lia.
Qed.

(** X1.  [signed_to_reg16] and [reg_to_signed16] are inverse to each
    other: a signed 16-bit value survives the passage through a register,
    and a 16-bit register value survives being read as signed and written
    back.  A register with the highest bit set reads as negative. *)
Theorem signed_reg16_round_trip (x r : Z) :
  Int.is_s16 x -> Int.is_u16 r ->
  Int.is_u16 (signed_to_reg16 x) /\
  reg_to_signed16 (signed_to_reg16 x) = x /\
  signed_to_reg16 (reg_to_signed16 r) = r /\
  (reg_to_signed16 r < 0 <-> 32768 <= r).
Proof.
  intros Hx Hr.
  split; [apply signed_to_reg16_u16, Hx|]. split; [apply reg_of_signed16, Hx|].
  unfold Int.is_u16 in Hr. split.
  - unfold reg_to_signed16. rewrite testbit_15_u16 by (unfold Int.is_u16; lia).
    unfold signed_to_reg16, Int.u16, Int.s16.
    destruct (Z.leb_spec 32768 r).
    + rewrite (Z.mod_small (r - 65536 + 32768)) by lia.
      destruct (Z.leb_spec 0 (r - 65536 + 32768 - 32768)); [lia|].
      rewrite Z.mod_small; lia.
    + rewrite (Z.mod_small (r + 32768)) by lia.
      destruct (Z.leb_spec 0 (r + 32768 - 32768)); [|lia].
      rewrite Z.mod_small; lia.
  - unfold reg_to_signed16. rewrite testbit_15_u16 by (unfold Int.is_u16; lia).
    unfold Int.s16.
    destruct (Z.leb_spec 32768 r).
    + rewrite Z.mod_small by lia. lia.
    + rewrite Z.mod_small by lia. lia.
Qed.

Lemma signed_reg16_round_trip_witness :
  Int.is_u16 (signed_to_reg16 (-5)) /\
  reg_to_signed16 (signed_to_reg16 (-5)) = -5 /\
  signed_to_reg16 (reg_to_signed16 0xfffb) = 0xfffb /\
  (reg_to_signed16 0xfffb < 0 <-> 32768 <= 0xfffb).
Proof.
  apply (signed_reg16_round_trip (-5) 0xfffb); unfold Int.is_s16, Int.is_u16; lia.
Defined.

(** ** Clipping of the cursor area *)

(** X2.  [clip_cursor_area] applied to the 16x16 cursor rectangle at
    ([px], [py]): the clipped rectangle starts at non-negative coordinates,
    does not go past the clipping ranges and lies inside the rectangle it
    was given; the margin skipped above is what was cut off at the top;
    and on each row the left margin, the clipped width and the right margin
    add up to the cursor width, which is what keeps the index into the
    16x16 background buffer aligned. *)
Theorem clip_cursor_area_margins (s : State.t) (px py : Z) :
  Int.is_s16 px -> Int.is_s16 py ->
  px + cursor_size_x - 1 <= 32767 -> py + cursor_size_y - 1 <= 32767 ->
  Int.is_s16 (State.clipx s) -> Int.is_s16 (State.clipy s) ->
  let a := clip_cursor_area s px (px + cursor_size_x - 1) py (py + cursor_size_y - 1) in
  0 <= x1 a /\ 0 <= y1 a /\
  x2 a <= State.clipx s /\ y2 a <= State.clipy s /\
  px <= x1 a /\ x2 a <= px + cursor_size_x - 1 /\
  py <= y1 a /\ y2 a <= py + cursor_size_y - 1 /\
  addy a = y1 a - py /\
  addx1 a + (x2 a - x1 a + 1) + addx2 a = cursor_size_x.
Proof.
  unfold Int.is_s16, cursor_size_x, cursor_size_y, clip_cursor_area.
  intros Hx Hy Hx2 Hy2 Hcx Hcy.
  destruct (Z.ltb_spec py 0), (Z.ltb_spec (State.clipy s) (py + 16 - 1)),
    (Z.ltb_spec px 0), (Z.ltb_spec (State.clipx s) (px + 16 - 1));
    cbn [x1 x2 y1 y2 addx1 addx2 addy];
    rewrite ?u16_id by (unfold Int.is_u16; lia); lia.
Qed.

Lemma clip_cursor_area_margins_witness :
  let s := State.set_clipy 199 (State.set_clipx 319 Initial.driver_state) in
  let a := clip_cursor_area s (-4) (-4 + cursor_size_x - 1) 190 (190 + cursor_size_y - 1) in
  0 <= x1 a /\ 0 <= y1 a /\
  x2 a <= State.clipx s /\ y2 a <= State.clipy s /\
  -4 <= x1 a /\ x2 a <= -4 + cursor_size_x - 1 /\
  190 <= y1 a /\ y2 a <= 190 + cursor_size_y - 1 /\
  addy a = y1 a - 190 /\
  addx1 a + (x2 a - x1 a + 1) + addx2 a = cursor_size_x.
Proof.
  intros s.
  apply (clip_cursor_area_margins s (-4) 190); vm_compute; intuition discriminate.
Defined.

(** ** Dispatch of the functions used below *)

Section Dispatch.

Context (C : Collaborators) (w : World).

Lemma int33_0f :
  Regs.ax (regs w) = 0x0f ->
  int33_handler C w
  = set_mickey_pixel_rate (reg_to_signed16 (Regs.cx (regs w)))
      (reg_to_signed16 (Regs.dx (regs w))) w.
Proof. intros H. unfold int33_handler. rewrite H. reflexivity. Qed.

Lemma int33_13 :
  Regs.ax (regs w) = 0x13 ->
  int33_handler C w = set_double_speed_threshold (Regs.bx (regs w)) w.
Proof. intros H. unfold int33_handler. rewrite H. reflexivity. Qed.

Lemma int33_1a :
  Regs.ax (regs w) = 0x1a ->
  int33_handler C w
  = set_sensitivity (Regs.bx (regs w)) (Regs.cx (regs w)) (Regs.dx (regs w)) w.
Proof. intros H. unfold int33_handler. rewrite H. reflexivity. Qed.

Lemma int33_1b :
  Regs.ax (regs w) = 0x1b ->
  int33_handler C w
  = set_reg_dx (State.unknown_01 (state w))
      (set_reg_cx (State.sensitivity_y (state w))
         (set_reg_bx (State.sensitivity_x (state w)) w)).
Proof. intros H. unfold int33_handler. rewrite H. reflexivity. Qed.

Lemma int33_1c :
  Regs.ax (regs w) = 0x1c ->
  int33_handler C w = set_interrupt_rate (Regs.bx (regs w)) w.
Proof. intros H. unfold int33_handler. rewrite H. reflexivity. Qed.

End Dispatch.

Lemma reg_to_signed16_u16 (r : Z) :
  Int.is_u16 r -> reg_to_signed16 r = if 32768 <=? r then r - 65536 else r.
Proof.
  intros Hr. unfold reg_to_signed16. rewrite testbit_15_u16 by exact Hr.
  unfold Int.is_u16 in Hr. unfold Int.s16.
  destruct (Z.leb_spec 32768 r); rewrite Z.mod_small by lia; lia.
Qed.

(** ** Mickey/pixel rate and double-speed threshold *)

(** X3.  Function 0x0f ignores the call unless both ratios are strictly
    positive as signed numbers: with a ratio register that is zero or has
    its highest bit set, nothing at all changes.  With two positive ratios
    the two mickeys-per-pixel fields become the ratios divided by 8, and
    nothing else changes. *)
Theorem mickey_pixel_rate_needs_positive_ratios (C : Collaborators) (w : World) :
  Regs.ax (regs w) = 0x0f ->
  Int.is_u16 (Regs.cx (regs w)) -> Int.is_u16 (Regs.dx (regs w)) ->
  let cx := Regs.cx (regs w) in
  let dx := Regs.dx (regs w) in
  (cx = 0 \/ 32768 <= cx \/ dx = 0 \/ 32768 <= dx -> int33_handler C w = w) /\
  (0 < cx < 32768 /\ 0 < dx < 32768 ->
   int33_handler C w
   = on_state
       (fun s => State.set_mickeys_per_pixel_y (F32.div (F32.of_Z dx) (F32.of_Z 8))
                   (State.set_mickeys_per_pixel_x (F32.div (F32.of_Z cx) (F32.of_Z 8)) s))
       w).
Proof.
  intros Hax Hcx Hdx cx dx. rewrite (int33_0f C w Hax).
  unfold set_mickey_pixel_rate.
  rewrite (reg_to_signed16_u16 _ Hcx), (reg_to_signed16_u16 _ Hdx).
  fold cx dx. unfold Int.is_u16 in *. fold cx dx in Hcx, Hdx.
  split; intros H.
  - destruct (Z.leb_spec 32768 cx), (Z.leb_spec 32768 dx);
      match goal with
      | |- (if (?a <? ?b) && (?c <? ?d) then _ else _) = _ =>
          destruct (Z.ltb_spec a b), (Z.ltb_spec c d); simpl; try reflexivity; lia
      end.
  - destruct H as [H1 H2].
    destruct (Z.leb_spec 32768 cx); [lia|]. destruct (Z.leb_spec 32768 dx); [lia|].
    destruct (Z.ltb_spec 0 cx); [|lia]. destruct (Z.ltb_spec 0 dx); [|lia].
    reflexivity.
Qed.

(** Function 0x0f with CX = 0xffff (that is -1) and DX = 16. *)
Definition negative_ratio_call : World :=
  on_regs (fun r => Regs.set_dx 16 (Regs.set_cx 0xffff (Regs.set_ax 0x0f r)))
    (Machine.booted Machine.text).

Lemma mickey_pixel_rate_needs_positive_ratios_witness :
  let cx := Regs.cx (regs negative_ratio_call) in
  let dx := Regs.dx (regs negative_ratio_call) in
  (cx = 0 \/ 32768 <= cx \/ dx = 0 \/ 32768 <= dx ->
   int33_handler Machine.text negative_ratio_call = negative_ratio_call) /\
  (0 < cx < 32768 /\ 0 < dx < 32768 ->
   int33_handler Machine.text negative_ratio_call
   = on_state
       (fun s => State.set_mickeys_per_pixel_y (F32.div (F32.of_Z dx) (F32.of_Z 8))
                   (State.set_mickeys_per_pixel_x (F32.div (F32.of_Z cx) (F32.of_Z 8)) s))
       negative_ratio_call).
Proof.
  apply (mickey_pixel_rate_needs_positive_ratios Machine.text negative_ratio_call).
  - vm_compute. reflexivity.
  - vm_compute. intuition discriminate.
  - vm_compute. intuition discriminate.
Defined.

(** X4.  After function 0x13 the double-speed threshold is never zero:
    it is the value of BX when that is not zero and the default of 64
    mickeys per second otherwise.  Nothing else changes.  (The acceleration
    model divides the measured speed by this threshold.) *)
Theorem double_speed_threshold_not_zero (C : Collaborators) (w : World) :
  Regs.ax (regs w) = 0x13 ->
  let w' := int33_handler C w in
  let t := State.double_speed_threshold (state w') in
  (Regs.bx (regs w) <> 0 -> t = Regs.bx (regs w)) /\
  (Regs.bx (regs w) = 0 -> t = 64) /\
  t <> 0 /\
  w' = on_state (State.set_double_speed_threshold t) w.
Proof.
  intros Hax w' t. subst t w'. rewrite (int33_13 C w Hax).
  unfold set_double_speed_threshold.
  destruct (Z.eqb_spec (Regs.bx (regs w)) 0) as [E|E]; simpl.
  - repeat split; try reflexivity; try congruence.
  - repeat split; try reflexivity; try congruence.
Qed.

Definition zero_threshold_call : World :=
  on_regs (fun r => Regs.set_bx 0 (Regs.set_ax 0x13 r)) (Machine.booted Machine.text).

Lemma double_speed_threshold_not_zero_witness :
  let w' := int33_handler Machine.text zero_threshold_call in
  let t := State.double_speed_threshold (state w') in
  (Regs.bx (regs zero_threshold_call) <> 0 -> t = Regs.bx (regs zero_threshold_call)) /\
  (Regs.bx (regs zero_threshold_call) = 0 -> t = 64) /\
  t <> 0 /\
  w' = on_state (State.set_double_speed_threshold t) zero_threshold_call.
Proof.
  apply (double_speed_threshold_not_zero Machine.text zero_threshold_call).
  vm_compute. reflexivity.
Defined.

(** ** Sensitivity *)

(** X5.  Setting the sensitivity (function 0x1a) and reading it back
    (function 0x1b): each of the three values comes back clamped to at most
    100, whatever 16-bit value was given, and the two coefficients are the
    stored horizontal and vertical values divided by 50. *)
Theorem sensitivity_set_then_get (C : Collaborators) (w : World) :
  Regs.ax (regs w) = 0x1a ->
  Int.is_u16 (Regs.bx (regs w)) -> Int.is_u16 (Regs.cx (regs w)) ->
  Int.is_u16 (Regs.dx (regs w)) ->
  let w1 := int33_handler C w in
  let w2 := int33_handler C (set_reg_ax 0x1b w1) in
  Regs.bx (regs w2) = Z.min 100 (Regs.bx (regs w)) /\
  Regs.cx (regs w2) = Z.min 100 (Regs.cx (regs w)) /\
  Regs.dx (regs w2) = Z.min 100 (Regs.dx (regs w)) /\
  State.sensitivity_coeff_x (state w2)
  = F32.div (F32.of_Z (Z.min 100 (Regs.bx (regs w)))) (F32.of_Z 50) /\
  State.sensitivity_coeff_y (state w2)
  = F32.div (F32.of_Z (Z.min 100 (Regs.cx (regs w)))) (F32.of_Z 50).
Proof.
  intros Hax Hb Hc Hd w1 w2. subst w2 w1.
  rewrite (int33_1a C w Hax).
  rewrite int33_1b by reflexivity.
  unfold Int.is_u16 in *.
  assert (E : forall v, 0 <= v <= 65535 -> Int.u8 (Z.min 100 v) = Z.min 100 v)
    by (intros v Hv; apply u8_id; unfold Int.is_u8; lia).
  unfold set_sensitivity. cbn.
  rewrite !E by assumption. repeat split.
Qed.

Definition sensitivity_call : World :=
  on_regs (fun r => Regs.set_dx 50 (Regs.set_cx 70 (Regs.set_bx 300 (Regs.set_ax 0x1a r))))
    (Machine.booted Machine.text).

Lemma sensitivity_set_then_get_witness :
  let w1 := int33_handler Machine.text sensitivity_call in
  let w2 := int33_handler Machine.text (set_reg_ax 0x1b w1) in
  Regs.bx (regs w2) = Z.min 100 (Regs.bx (regs sensitivity_call)) /\
  Regs.cx (regs w2) = Z.min 100 (Regs.cx (regs sensitivity_call)) /\
  Regs.dx (regs w2) = Z.min 100 (Regs.dx (regs sensitivity_call)) /\
  State.sensitivity_coeff_x (state w2)
  = F32.div (F32.of_Z (Z.min 100 (Regs.bx (regs sensitivity_call)))) (F32.of_Z 50) /\
  State.sensitivity_coeff_y (state w2)
  = F32.div (F32.of_Z (Z.min 100 (Regs.cx (regs sensitivity_call)))) (F32.of_Z 50).
Proof.
  apply (sensitivity_set_then_get Machine.text sensitivity_call).
  - vm_compute. reflexivity.
  - vm_compute. intuition discriminate.
  - vm_compute. intuition discriminate.
  - vm_compute. intuition discriminate.
Defined.

(** ** Interrupt rate *)

(** The reporting rate of a rate class, as [set_interrupt_rate] maps it. *)
Definition rate_of_class (rate_id : Z) : Z :=
  if rate_id =? 0 then 0
  else if rate_id =? 1 then 30
  else if rate_id =? 2 then 50
  else if rate_id =? 3 then 100
  else 200.

Lemma set_interrupt_rate_table (rate_id : Z) (w : World) :
  set_interrupt_rate rate_id w
  = if rate_of_class rate_id =? 0 then w
    else notify_interface_rate
           (World.set_rate_hz (rate_of_class rate_id) (World.set_rate_is_set true w)).
Proof.
  unfold set_interrupt_rate, rate_of_class.
  destruct rate_id as [|p|p]; [reflexivity| |reflexivity].
  destruct p as [[p|p|]|[p|p|]|]; reflexivity.
Qed.

(** X6.  Function 0x1c (set interrupt rate): rate class 0 changes nothing
    at all - in particular it does not remove an override set before.  Any
    other class makes 30, 50, 100 or 200 Hz (for classes 1, 2, 3 and
    everything else) the rate set by the application and announces exactly
    that rate to the pacing layer; the driver state is not touched. *)
Theorem interrupt_rate_classes (C : Collaborators) (w : World) :
  Regs.ax (regs w) = 0x1c ->
  let w' := int33_handler C w in
  let hz := rate_of_class (Regs.bx (regs w)) in
  (Regs.bx (regs w) = 0 -> w' = w) /\
  (Regs.bx (regs w) <> 0 ->
   (hz = 30 \/ hz = 50 \/ hz = 100 \/ hz = 200) /\
   World.rate_is_set w' = true /\
   World.rate_hz w' = hz /\
   World.trace w' = EvNotifyInterfaceRate hz :: World.trace w /\
   state w' = state w /\
   regs w' = regs w).
Proof.
  intros Hax w' hz. subst w' hz. rewrite (int33_1c C w Hax).
  rewrite set_interrupt_rate_table. generalize (Regs.bx (regs w)) as b. intros b.
  split.
  - intros ->. reflexivity.
  - intros Hb. unfold rate_of_class.
    destruct (Z.eqb_spec b 0); [contradiction|].
    destruct (Z.eqb_spec b 1); [|destruct (Z.eqb_spec b 2); [|destruct (Z.eqb_spec b 3)]];
      simpl; (split; [lia|]); repeat split.
Qed.

Definition interrupt_rate_call : World :=
  on_regs (fun r => Regs.set_bx 2 (Regs.set_ax 0x1c r)) (Machine.booted Machine.text).

Lemma interrupt_rate_classes_witness :
  let w' := int33_handler Machine.text interrupt_rate_call in
  let hz := rate_of_class (Regs.bx (regs interrupt_rate_call)) in
  (Regs.bx (regs interrupt_rate_call) = 0 -> w' = interrupt_rate_call) /\
  (Regs.bx (regs interrupt_rate_call) <> 0 ->
   (hz = 30 \/ hz = 50 \/ hz = 100 \/ hz = 200) /\
   World.rate_is_set w' = true /\
   World.rate_hz w' = hz /\
   World.trace w' = EvNotifyInterfaceRate hz :: World.trace interrupt_rate_call /\
   state w' = state interrupt_rate_call /\
   regs w' = regs interrupt_rate_call).
Proof.
  apply (interrupt_rate_classes Machine.text interrupt_rate_call).
  vm_compute. reflexivity.
Defined.

(** X7.  The rate set by the application has priority over the minimum
    rate of the configuration.  While it is set,
    [MOUSEDOS_NotifyMinRate] only records the new minimum and announces
    nothing.  [reset_hardware] drops the override and announces the
    recorded minimum, or 200 Hz when there is none; from then on a new
    minimum is announced at once. *)
Theorem application_rate_shields_minimum (value_hz : Z) (w : World) :
  World.rate_is_set w = true ->
  let w1 := MOUSEDOS_NotifyMinRate value_hz w in
  let w2 := reset_hardware w1 in
  w1 = World.set_min_rate_hz value_hz w /\
  World.trace w2
  = EvNotifyInterfaceRate (if value_hz =? 0 then 200 else value_hz)
      :: EvPICSetIRQMask 12 false :: World.trace w /\
  forall v, v <> 0 ->
    World.trace (MOUSEDOS_NotifyMinRate v w2)
    = EvNotifyInterfaceRate v :: World.trace w2.
Proof.
  intros Hset w1 w2.
  assert (H1 : w1 = World.set_min_rate_hz value_hz w).
  { subst w1. unfold MOUSEDOS_NotifyMinRate. simpl. rewrite Hset. reflexivity. }
  split; [exact H1|].
  subst w2. rewrite H1. clear H1 w1.
  unfold reset_hardware, MOUSEDOS_NotifyMinRate, notify_interface_rate. simpl.
  split.
  - destruct (Z.eqb_spec value_hz 0); reflexivity.
  - intros v Hv. destruct (Z.eqb_spec v 0); [contradiction|].
    simpl. destruct (negb (value_hz =? 0)); reflexivity.
Qed.

Lemma application_rate_shields_minimum_witness :
  let w := int33_handler Machine.text interrupt_rate_call in
  let w1 := MOUSEDOS_NotifyMinRate 60 w in
  let w2 := reset_hardware w1 in
  w1 = World.set_min_rate_hz 60 w /\
  World.trace w2
  = EvNotifyInterfaceRate (if 60 =? 0 then 200 else 60)
      :: EvPICSetIRQMask 12 false :: World.trace w /\
  forall v, v <> 0 ->
    World.trace (MOUSEDOS_NotifyMinRate v w2)
    = EvNotifyInterfaceRate v :: World.trace w2.
Proof.
  intros w.
  apply (application_rate_shields_minimum 60 w).
  vm_compute. reflexivity.
Defined.

(** ** Enabling and disabling the driver *)

Section DispatchMore.

Context (C : Collaborators) (w : World).

Lemma int33_1f :
  Regs.ax (regs w) = 0x1f ->
  int33_handler C w
  = on_state
      (fun s => State.set_hidden 1
                  (State.set_oldhidden (State.hidden s) (State.set_enabled false s)))
      (on_regs (Regs.SegSet16_es 0) (set_reg_bx 0 w)).
Proof. intros H. unfold int33_handler. rewrite H. reflexivity. Qed.

Lemma int33_20 :
  Regs.ax (regs w) = 0x20 ->
  int33_handler C w
  = on_state (fun s => State.set_hidden (State.oldhidden s) (State.set_enabled true s)) w.
Proof. intros H. unfold int33_handler. rewrite H. reflexivity. Qed.

Lemma int33_26 :
  Regs.ax (regs w) = 0x26 ->
  int33_handler C w
  = set_reg_dx (signed_to_reg16 (State.maxpos_y (state w)))
      (set_reg_cx (signed_to_reg16 (State.maxpos_x (state w)))
         (set_reg_bx (if State.enabled (state w) then 0x0000 else 0xffff) w)).
Proof. intros H. unfold int33_handler. rewrite H. reflexivity. Qed.

Lemma int33_14 :
  Regs.ax (regs w) = 0x14 ->
  int33_handler C w
  = on_regs (Regs.SegSet16_es (State.user_callback_segment (state w)))
      (set_reg_dx (State.user_callback_offset (state w))
         (set_reg_cx (State.user_callback_mask (state w))
            (define_user_callback w))).
Proof. intros H. unfold int33_handler. rewrite H. reflexivity. Qed.

Lemma int33_0c :
  Regs.ax (regs w) = 0x0c -> int33_handler C w = define_user_callback w.
Proof. intros H. unfold int33_handler. rewrite H. reflexivity. Qed.

Lemma int33_0b :
  Regs.ax (regs w) = 0x0b -> int33_handler C w = read_motion_data w.
Proof. intros H. unfold int33_handler. rewrite H. reflexivity. Qed.

Lemma int33_27 :
  Regs.ax (regs w) = 0x27 ->
  int33_handler C w
  = read_motion_data
      (set_reg_bx (State.text_xor_mask (state w))
         (set_reg_ax (State.text_and_mask (state w)) w)).
Proof. intros H. unfold int33_handler. rewrite H. reflexivity. Qed.

Lemma int33_1d :
  Regs.ax (regs w) = 0x1d ->
  int33_handler C w = on_state (State.set_page (Regs.bl (regs w))) w.
Proof. intros H. unfold int33_handler. rewrite H. reflexivity. Qed.

Lemma int33_1e :
  Regs.ax (regs w) = 0x1e -> int33_handler C w = set_reg_bx (State.page (state w)) w.
Proof. intros H. unfold int33_handler. rewrite H. reflexivity. Qed.

Lemma int33_22 :
  Regs.ax (regs w) = 0x22 ->
  int33_handler C w = on_state (State.set_language (Regs.bx (regs w))) w.
Proof. intros H. unfold int33_handler. rewrite H. reflexivity. Qed.

Lemma int33_23 :
  Regs.ax (regs w) = 0x23 -> int33_handler C w = set_reg_bx (State.language (state w)) w.
Proof. intros H. unfold int33_handler. rewrite H. reflexivity. Qed.

End DispatchMore.

(** X8.  Disabling the driver (function 0x1f) returns BX = 0 and ES = 0,
    marks the driver disabled and hides the cursor with a hidden count of
    1; while disabled, function 0x26 reports BX = 0xffff.  Enabling it
    again (function 0x20) marks it enabled and brings back the hidden count
    it had before it was disabled.  A second "disable" before the "enable"
    loses that count: the cursor then comes back with a hidden count of 1. *)
Theorem disable_then_enable (C : Collaborators) (w : World) :
  Regs.ax (regs w) = 0x1f ->
  let disabled := int33_handler C w in
  let enabled := int33_handler C (set_reg_ax 0x20 disabled) in
  let twice := int33_handler C (set_reg_ax 0x20 (int33_handler C disabled)) in
  (Regs.bx (regs disabled) = 0 /\ Regs.es_val (regs disabled) = 0 /\
   State.enabled (state disabled) = false /\ State.hidden (state disabled) = 1) /\
  Regs.bx (regs (int33_handler C (set_reg_ax 0x26 disabled))) = 0xffff /\
  (State.enabled (state enabled) = true /\
   State.hidden (state enabled) = State.hidden (state w)) /\
  State.hidden (state twice) = 1.
Proof.
  intros Hax disabled enabled twice.
  assert (Hd : disabled
               = on_state
                   (fun s => State.set_hidden 1
                               (State.set_oldhidden (State.hidden s)
                                  (State.set_enabled false s)))
                   (on_regs (Regs.SegSet16_es 0) (set_reg_bx 0 w)))
    by (subst disabled; apply int33_1f; exact Hax).
  subst enabled twice. clearbody disabled. subst disabled.
  match goal with
  | |- context [int33_handler C (set_reg_ax 0x20 (int33_handler C ?d))] =>
      rewrite (int33_1f C d) by exact Hax
  end.
  rewrite int33_26 by reflexivity.
  rewrite !int33_20 by reflexivity.
  repeat split.
Qed.

Definition disable_call : World :=
  set_reg_ax 0x1f (show Machine.text (Machine.booted Machine.text)).

Lemma disable_then_enable_witness :
  let disabled := int33_handler Machine.text disable_call in
  let enabled := int33_handler Machine.text (set_reg_ax 0x20 disabled) in
  let twice :=
    int33_handler Machine.text
      (set_reg_ax 0x20 (int33_handler Machine.text disabled)) in
  (Regs.bx (regs disabled) = 0 /\ Regs.es_val (regs disabled) = 0 /\
   State.enabled (state disabled) = false /\ State.hidden (state disabled) = 1) /\
  Regs.bx (regs (int33_handler Machine.text (set_reg_ax 0x26 disabled))) = 0xffff /\
  (State.enabled (state enabled) = true /\
   State.hidden (state enabled) = State.hidden (state disable_call)) /\
  State.hidden (state twice) = 1.
Proof.
  apply (disable_then_enable Machine.text disable_call).
  vm_compute. reflexivity.
Defined.

(** ** User callback registration *)

(** X9.  Function 0x14 (exchange event handler) stores the mask of CX and
    the address ES:DX, returns the previous mask, offset and segment in CX,
    DX and ES, and makes the driver active exactly when the new mask is not
    zero.  Calling it again with the registers it returned puts the first
    registration back and returns the second one: two exchanges cancel
    out. *)
Theorem exchange_event_handler_twice (C : Collaborators) (w : World) :
  Regs.ax (regs w) = 0x14 ->
  let w1 := int33_handler C w in
  let w2 := int33_handler C w1 in
  let registration (x : World) :=
    (State.user_callback_mask (state x), State.user_callback_segment (state x),
     State.user_callback_offset (state x)) in
  let returned (x : World) :=
    (Regs.cx (regs x), Regs.es_val (regs x), Regs.dx (regs x)) in
  registration w1 = returned w /\
  returned w1 = registration w /\
  World.active_dos w1 = negb (Regs.cx (regs w) =? 0) /\
  registration w2 = registration w /\
  returned w2 = returned w /\
  World.active_dos w2 = negb (State.user_callback_mask (state w) =? 0).
Proof.
  intros Hax w1 w2 registration returned.
  assert (H1 : w1
               = on_regs (Regs.SegSet16_es (State.user_callback_segment (state w)))
                   (set_reg_dx (State.user_callback_offset (state w))
                      (set_reg_cx (State.user_callback_mask (state w))
                         (define_user_callback w))))
    by (subst w1; apply int33_14; exact Hax).
  subst w2. clearbody w1. subst w1.
  rewrite int33_14 by exact Hax.
  subst registration returned. cbv beta.
  unfold define_user_callback, update_driver_active, MOUSE_NotifyStateChanged.
  repeat split.
Qed.

Definition exchange_call : World :=
  on_regs (fun r => Regs.set_dx 0x0100 (Regs.set_cx 0x007f (Regs.set_ax 0x14 r)))
    (Machine.booted Machine.text).

Lemma exchange_event_handler_twice_witness :
  let w1 := int33_handler Machine.text exchange_call in
  let w2 := int33_handler Machine.text w1 in
  let registration (x : World) :=
    (State.user_callback_mask (state x), State.user_callback_segment (state x),
     State.user_callback_offset (state x)) in
  let returned (x : World) :=
    (Regs.cx (regs x), Regs.es_val (regs x), Regs.dx (regs x)) in
  registration w1 = returned exchange_call /\
  returned w1 = registration exchange_call /\
  World.active_dos w1 = negb (Regs.cx (regs exchange_call) =? 0) /\
  registration w2 = registration exchange_call /\
  returned w2 = returned exchange_call /\
  World.active_dos w2 = negb (State.user_callback_mask (state exchange_call) =? 0).
Proof.
  apply (exchange_event_handler_twice Machine.text exchange_call).
  vm_compute. reflexivity.
Defined.

(** X10.  A callback is wanted ([MOUSEDOS_HasCallback]) exactly for the
    event bits the guest registered with function 0x0c, and after that
    call the driver counts as active exactly when the registered mask is
    not zero.  After a reset no event has a callback and the driver is
    inactive. *)
Theorem callback_mask_registration (C : Collaborators) (w : World) (mask : Z) :
  Regs.ax (regs w) = 0x0c ->
  let w1 := int33_handler C w in
  MOUSEDOS_HasCallback mask w1 = negb (Z.land (Regs.cx (regs w)) mask =? 0) /\
  World.active_dos w1 = negb (Regs.cx (regs w) =? 0) /\
  State.user_callback_segment (state w1) = Regs.es_val (regs w) /\
  State.user_callback_offset (state w1) = Regs.dx (regs w) /\
  MOUSEDOS_HasCallback mask (reset C w1) = false /\
  World.active_dos (reset C w1) = false.
Proof.
  intros Hax w1.
  assert (H1 : w1 = define_user_callback w) by (subst w1; apply int33_0c; exact Hax).
  clearbody w1. subst w1.
  split; [reflexivity|]. split; [reflexivity|].
  split; [reflexivity|]. split; [reflexivity|].
  generalize (define_user_callback w) as x. intros x.
  unfold reset.
  unfold MOUSE_NotifyResetDOS at 1, update_driver_active, MOUSE_NotifyStateChanged.
  split; reflexivity.
Qed.

Definition callback_call : World :=
  on_regs (fun r => Regs.set_dx 0x0100 (Regs.set_cx 0x0003 (Regs.set_ax 0x0c r)))
    (Machine.booted Machine.text).

Lemma callback_mask_registration_witness :
  let w1 := int33_handler Machine.text callback_call in
  MOUSEDOS_HasCallback 2 w1 = negb (Z.land (Regs.cx (regs callback_call)) 2 =? 0) /\
  World.active_dos w1 = negb (Regs.cx (regs callback_call) =? 0) /\
  State.user_callback_segment (state w1) = Regs.es_val (regs callback_call) /\
  State.user_callback_offset (state w1) = Regs.dx (regs callback_call) /\
  MOUSEDOS_HasCallback 2 (reset Machine.text w1) = false /\
  World.active_dos (reset Machine.text w1) = false.
Proof.
  apply (callback_mask_registration Machine.text callback_call 2).
  vm_compute. reflexivity.
Defined.

(** ** Motion counters, display page and language *)

(** X11.  Function 0x0b (read motion data) returns the two mickey
    counters in CX and DX as 16-bit two's complement - read back as signed
    they are the counters - and zeroes both, so that an immediate second
    read returns 0 and 0.  Function 0x27 returns the same CX and DX and
    leaves the same driver state, with the text AND and XOR masks in AX and
    BX in addition. *)
Theorem read_motion_data_clears (C : Collaborators) (w : World) :
  Regs.ax (regs w) = 0x0b ->
  Int.is_s16 (State.mickey_counter_x (state w)) ->
  Int.is_s16 (State.mickey_counter_y (state w)) ->
  let w1 := int33_handler C w in
  let w2 := int33_handler C w1 in
  let alias := int33_handler C (set_reg_ax 0x27 w) in
  reg_to_signed16 (Regs.cx (regs w1)) = State.mickey_counter_x (state w) /\
  reg_to_signed16 (Regs.dx (regs w1)) = State.mickey_counter_y (state w) /\
  State.mickey_counter_x (state w1) = 0 /\ State.mickey_counter_y (state w1) = 0 /\
  Regs.cx (regs w2) = 0 /\ Regs.dx (regs w2) = 0 /\
  Regs.cx (regs alias) = Regs.cx (regs w1) /\
  Regs.dx (regs alias) = Regs.dx (regs w1) /\
  state alias = state w1 /\
  Regs.ax (regs alias) = State.text_and_mask (state w) /\
  Regs.bx (regs alias) = State.text_xor_mask (state w).
Proof.
  intros Hax Hx Hy w1 w2 alias.
  assert (H1 : w1 = read_motion_data w) by (subst w1; apply int33_0b; exact Hax).
  subst w2 alias. clearbody w1. subst w1.
  rewrite (int33_0b C (read_motion_data w)) by exact Hax.
  rewrite int33_27 by reflexivity.
  pose proof (reg_of_signed16 (State.mickey_counter_x (state w)) Hx) as Ex.
  pose proof (reg_of_signed16 (State.mickey_counter_y (state w)) Hy) as Ey.
  unfold read_motion_data. cbn.
  repeat split; assumption.
Qed.

Definition motion_call : World :=
  set_reg_ax 0x0b
    (on_state (fun s => State.set_mickey_counter_y 7 (State.set_mickey_counter_x (-3) s))
       (Machine.booted Machine.text)).

Lemma read_motion_data_clears_witness :
  let w1 := int33_handler Machine.text motion_call in
  let w2 := int33_handler Machine.text w1 in
  let alias := int33_handler Machine.text (set_reg_ax 0x27 motion_call) in
  reg_to_signed16 (Regs.cx (regs w1)) = State.mickey_counter_x (state motion_call) /\
  reg_to_signed16 (Regs.dx (regs w1)) = State.mickey_counter_y (state motion_call) /\
  State.mickey_counter_x (state w1) = 0 /\ State.mickey_counter_y (state w1) = 0 /\
  Regs.cx (regs w2) = 0 /\ Regs.dx (regs w2) = 0 /\
  Regs.cx (regs alias) = Regs.cx (regs w1) /\
  Regs.dx (regs alias) = Regs.dx (regs w1) /\
  state alias = state w1 /\
  Regs.ax (regs alias) = State.text_and_mask (state motion_call) /\
  Regs.bx (regs alias) = State.text_xor_mask (state motion_call).
Proof.
  apply (read_motion_data_clears Machine.text motion_call).
  - vm_compute. reflexivity.
  - vm_compute. intuition discriminate.
  - vm_compute. intuition discriminate.
Defined.

(** X12.  The display page set with function 0x1d is the low byte of BX
    and is what function 0x1e returns in BX; the language number set with
    function 0x22 is what function 0x23 returns.  Neither pair touches
    anything else of the driver state. *)
Theorem page_and_language_round_trip (C : Collaborators) (w : World) :
  let paged := int33_handler C (set_reg_ax 0x1e (int33_handler C (set_reg_ax 0x1d w))) in
  let spoken := int33_handler C (set_reg_ax 0x23 (int33_handler C (set_reg_ax 0x22 w))) in
  Regs.bx (regs paged) = Regs.bx (regs w) mod 256 /\
  state paged = State.set_page (Regs.bx (regs w) mod 256) (state w) /\
  Regs.bx (regs spoken) = Regs.bx (regs w) /\
  state spoken = State.set_language (Regs.bx (regs w)) (state w).
Proof.
  intros paged spoken. subst paged spoken.
  rewrite (int33_1d C (set_reg_ax 0x1d w)) by reflexivity.
  rewrite int33_1e by reflexivity.
  rewrite (int33_22 C (set_reg_ax 0x22 w)) by reflexivity.
  rewrite int33_23 by reflexivity.
  repeat split.
Qed.

(** ** Arrays *)

Lemma nth_insert_same (l : list Z) (n : nat) (v d : Z) :
  (n < length l)%nat -> nth n (<[n := v]> l) d = v.
Proof.
  revert n. induction l as [|a l IH]; intros n Hn; simpl in Hn; [lia|].
  destruct n as [|n]; simpl; [reflexivity|]. apply IH. lia.
Qed.

Lemma nth_insert_other (l : list Z) (n m : nat) (v d : Z) :
  n <> m -> nth m (<[n := v]> l) d = nth m l d.
Proof.
  revert n m. induction l as [|a l IH]; intros n m Hnm; [reflexivity|].
  destruct n as [|n], m as [|m]; simpl; try reflexivity; [contradiction|].
  apply IH. congruence.
Qed.

Lemma aget_aset_same (l : list Z) (i v : Z) :
  0 <= i < Z.of_nat (length l) -> aget (aset l i v) i = v.
Proof. intros Hi. unfold aget, aset. apply nth_insert_same. lia. Qed.

Lemma aget_aset_other (l : list Z) (i j v : Z) :
  0 <= i -> 0 <= j -> i <> j -> aget (aset l i v) j = aget l j.
Proof. intros Hi Hj Hij. unfold aget, aset. apply nth_insert_other. lia. Qed.

Lemma length_aset (l : list Z) (i v : Z) : length (aset l i v) = length l.
Proof. unfold aset. apply length_insert. Qed.

(** ** Button events *)

(** The transitions of button [i] between the old and the new bitmask. *)
Definition pressed (new old i : Z) : bool := Z.testbit new i && negb (Z.testbit old i).
Definition released (new old i : Z) : bool := negb (Z.testbit new i) && Z.testbit old i.

(** The counters and positions of one button. *)
Definition button_record (s : State.t) (i : Z) : (Z * Z * Z) * (Z * Z * Z) :=
  ((aget (State.times_pressed s) i, aget (State.last_pressed_x s) i,
    aget (State.last_pressed_y s) i),
   (aget (State.times_released s) i, aget (State.last_released_x s) i,
    aget (State.last_released_y s) i)).

Definition well_formed_buttons (s : State.t) : Prop :=
  length (State.times_pressed s) = 3%nat /\ length (State.times_released s) = 3%nat /\
  length (State.last_pressed_x s) = 3%nat /\ length (State.last_pressed_y s) = 3%nat /\
  length (State.last_released_x s) = 3%nat /\ length (State.last_released_y s) = 3%nat.

Lemma button_record_mark_pressed (w : World) (idx i : Z) :
  well_formed_buttons (state w) -> 0 <= idx < 3 -> 0 <= i < 3 ->
  button_record (state (mark_pressed idx w)) i
  = if i =? idx
    then ((Int.u16 (aget (State.times_pressed (state w)) i + 1), get_pos_x w, get_pos_y w),
          snd (button_record (state w) i))
    else button_record (state w) i.
Proof.
  intros (H1 & H2 & H3 & H4 & H5 & H6) Hidx Hi.
  unfold button_record, mark_pressed. cbn -[aget aset get_pos_x get_pos_y Int.u16].
  destruct (Z.eqb_spec i idx) as [->|Hne].
  - rewrite !aget_aset_same by lia. reflexivity.
  - rewrite !aget_aset_other by lia. reflexivity.
Qed.

Lemma button_record_mark_released (w : World) (idx i : Z) :
  well_formed_buttons (state w) -> 0 <= idx < 3 -> 0 <= i < 3 ->
  button_record (state (mark_released idx w)) i
  = if i =? idx
    then (fst (button_record (state w) i),
          (Int.u16 (aget (State.times_released (state w)) i + 1), get_pos_x w, get_pos_y w))
    else button_record (state w) i.
Proof.
  intros (H1 & H2 & H3 & H4 & H5 & H6) Hidx Hi.
  unfold button_record, mark_released. cbn -[aget aset get_pos_x get_pos_y Int.u16].
  destruct (Z.eqb_spec i idx) as [->|Hne].
  - rewrite !aget_aset_same by lia. reflexivity.
  - rewrite !aget_aset_other by lia. reflexivity.
Qed.

Lemma well_formed_mark_pressed (w : World) (idx : Z) :
  well_formed_buttons (state w) -> well_formed_buttons (state (mark_pressed idx w)).
Proof.
  intros (H1 & H2 & H3 & H4 & H5 & H6). unfold well_formed_buttons, mark_pressed. cbn -[aget aset length].
  rewrite !length_aset. repeat split; assumption.
Qed.

Lemma well_formed_mark_released (w : World) (idx : Z) :
  well_formed_buttons (state w) -> well_formed_buttons (state (mark_released idx w)).
Proof.
  intros (H1 & H2 & H3 & H4 & H5 & H6). unfold well_formed_buttons, mark_released. cbn -[aget aset length].
  rewrite !length_aset. repeat split; assumption.
Qed.

(** What [update_button] does to the record of button [i]. *)
Definition record_after (nw od : bool) (w : World) (r : (Z * Z * Z) * (Z * Z * Z))
    : (Z * Z * Z) * (Z * Z * Z) :=
  if nw && negb od then
    ((Int.u16 (fst (fst (fst r)) + 1), get_pos_x w, get_pos_y w), snd r)
  else if negb nw && od then
    (fst r, (Int.u16 (fst (fst (snd r)) + 1), get_pos_x w, get_pos_y w))
  else r.

Lemma update_button_spec (idx pid rid : Z) (nw od : bool) (m : Z) (w : World) :
  well_formed_buttons (state w) -> 0 <= idx < 3 ->
  let r := update_button idx pid rid nw od (m, w) in
  fst r = (if nw && negb od then Z.lor m pid
           else if negb nw && od then Z.lor m rid else m) /\
  well_formed_buttons (state (snd r)) /\
  get_pos_x (snd r) = get_pos_x w /\ get_pos_y (snd r) = get_pos_y w /\
  World.buttons (snd r) = World.buttons w /\
  forall i, 0 <= i < 3 ->
    button_record (state (snd r)) i
    = if i =? idx then record_after nw od w (button_record (state w) i)
      else button_record (state w) i.
Proof.
  intros Hwf Hidx. unfold update_button, record_after.
  destruct (nw && negb od); [|destruct (negb nw && od)]; cbv zeta; cbn [fst snd].
  - split; [reflexivity|]. split; [apply well_formed_mark_pressed; exact Hwf|].
    repeat (split; [reflexivity|]).
    intros i Hi. rewrite button_record_mark_pressed by assumption.
    destruct (i =? idx); reflexivity.
  - split; [reflexivity|]. split; [apply well_formed_mark_released; exact Hwf|].
    repeat (split; [reflexivity|]).
    intros i Hi. rewrite button_record_mark_released by assumption.
    destruct (i =? idx); reflexivity.
  - split; [reflexivity|]. split; [exact Hwf|].
    repeat (split; [reflexivity|]).
    intros i Hi. destruct (i =? idx); reflexivity.
Qed.

(** The event bits of button [i]: "pressed" is bit [2i + 1] and
    "released" bit [2i + 2] of the event mask. *)
Definition event_bits (new old i : Z) : Z :=
  if pressed new old i then 2 * 4 ^ i
  else if released new old i then 4 * 4 ^ i else 0.

(** X13.  [MOUSEDOS_UpdateButtons].  With an unchanged bitmask it does
    nothing and reports no event.  Otherwise it stores the new bitmask and,
    for each of the three buttons, a transition from up to down adds one
    (with 16-bit wrap-around) to that button's press counter and records
    the current position as its last press position, a transition from
    down to up does the same for its release counter and position, and no
    transition leaves the button's record alone.  The returned mask holds
    exactly the event bits of these transitions - never the "moved" bit,
    and nothing at all when only higher bits of the bitmask changed. *)
Theorem update_buttons_edges (new : Z) (w : World) :
  well_formed_buttons (state w) ->
  let old := World.buttons w in
  let r := MOUSEDOS_UpdateButtons new w in
  (new = old -> r = (0, w)) /\
  (new <> old ->
   World.buttons (snd r) = new /\
   fst r = Z.lor (Z.lor (event_bits new old 0) (event_bits new old 1))
             (event_bits new old 2) /\
   forall i, 0 <= i < 3 ->
     button_record (state (snd r)) i
     = record_after (Z.testbit new i) (Z.testbit old i) w (button_record (state w) i)).
Proof.
  intros Hwf old r. subst r. unfold MOUSEDOS_UpdateButtons. fold old.
  split.
  - intros ->. rewrite Z.eqb_refl. reflexivity.
  - intros Hne. destruct (Z.eqb_spec old new) as [E|_]; [congruence|].
    cbv zeta. unfold button_left, button_right, button_middle.
    pose proof (update_button_spec 0 MouseEventId.PressedLeft MouseEventId.ReleasedLeft
                  (Z.testbit new 0) (Z.testbit old 0) 0 w Hwf ltac:(lia)) as H0.
    cbv zeta in H0.
    destruct (update_button 0 _ _ _ _ (0, w)) as [m0 w0].
    destruct H0 as (Hm0 & Hwf0 & Hx0 & Hy0 & Hb0 & Hr0). cbn [fst snd] in *.
    pose proof (update_button_spec 1 MouseEventId.PressedRight MouseEventId.ReleasedRight
                  (Z.testbit new 1) (Z.testbit old 1) m0 w0 Hwf0 ltac:(lia)) as H1.
    cbv zeta in H1.
    destruct (update_button 1 _ _ _ _ (m0, w0)) as [m1 w1].
    destruct H1 as (Hm1 & Hwf1 & Hx1 & Hy1 & Hb1 & Hr1). cbn [fst snd] in *.
    pose proof (update_button_spec 2 MouseEventId.PressedMiddle MouseEventId.ReleasedMiddle
                  (Z.testbit new 2) (Z.testbit old 2) m1 w1 Hwf1 ltac:(lia)) as H2.
    cbv zeta in H2.
    destruct (update_button 2 _ _ _ _ (m1, w1)) as [m2 w2].
    destruct H2 as (Hm2 & Hwf2 & Hx2 & Hy2 & Hb2 & Hr2). cbn [fst snd] in *.
    split; [reflexivity|]. split.
    + rewrite Hm2, Hm1, Hm0. unfold event_bits, pressed, released.
      unfold MouseEventId.PressedLeft, MouseEventId.ReleasedLeft,
        MouseEventId.PressedRight, MouseEventId.ReleasedRight,
        MouseEventId.PressedMiddle, MouseEventId.ReleasedMiddle.
      destruct (Z.testbit new 0), (Z.testbit old 0), (Z.testbit new 1),
        (Z.testbit old 1), (Z.testbit new 2), (Z.testbit old 2); reflexivity.
    + intros i Hi. rewrite Hr2, Hr1, Hr0 by assumption.
      unfold record_after. rewrite Hx1, Hy1, Hx0, Hy0.
      assert (i = 0 \/ i = 1 \/ i = 2) as [-> | [-> | ->]] by lia; reflexivity.
Qed.

(** The left button goes down and the right button comes up. *)
Definition buttons_call : World :=
  World.set_buttons 2 (Machine.booted Machine.text).

Lemma update_buttons_edges_witness :
  let old := World.buttons buttons_call in
  let r := MOUSEDOS_UpdateButtons 1 buttons_call in
  (1 = old -> r = (0, buttons_call)) /\
  (1 <> old ->
   World.buttons (snd r) = 1 /\
   fst r = Z.lor (Z.lor (event_bits 1 old 0) (event_bits 1 old 1))
             (event_bits 1 old 2) /\
   forall i, 0 <= i < 3 ->
     button_record (state (snd r)) i
     = record_after (Z.testbit 1 i) (Z.testbit old i) buttons_call
         (button_record (state buttons_call) i)).
Proof.
  apply (update_buttons_edges 1 buttons_call).
  vm_compute. repeat split.
Defined.

(** ** Button press and release data *)

Lemma int33_05 (C : Collaborators) (w : World) :
  Regs.ax (regs w) = 0x05 ->
  int33_handler C w
  = get_button_data State.times_pressed State.last_pressed_x State.last_pressed_y
      (fun idx s => State.set_times_pressed (aset (State.times_pressed s) idx 0) s) w.
Proof. intros H. unfold int33_handler. rewrite H. reflexivity. Qed.

Lemma int33_06 (C : Collaborators) (w : World) :
  Regs.ax (regs w) = 0x06 ->
  int33_handler C w
  = get_button_data State.times_released State.last_released_x State.last_released_y
      (fun idx s => State.set_times_released (aset (State.times_released s) idx 0) s) w.
Proof. intros H. unfold int33_handler. rewrite H. reflexivity. Qed.

Lemma get_button_data_valid (times last_x last_y : State.t -> list Z)
    (clear : Z -> State.t -> State.t) (w : World) :
  0 <= Regs.bx (regs w) < 3 ->
  get_button_data times last_x last_y clear w
  = on_state (clear (Regs.bx (regs w)))
      (set_reg_dx (aget (last_y (state w)) (Regs.bx (regs w)))
         (set_reg_cx (aget (last_x (state w)) (Regs.bx (regs w)))
            (set_reg_bx (aget (times (state w)) (Regs.bx (regs w)))
               (set_reg_ax (World.buttons w) w)))).
Proof.
  intros Hi. unfold get_button_data, num_buttons.
  destruct (Z.eqb_spec (Regs.bx (regs w)) 0xffff); [lia|]. cbn [andb].
  destruct (Z.ltb_spec (Regs.bx (regs w)) 3); [|lia]. reflexivity.
Qed.

(** X14.  Function 0x05 with a valid button index in BX returns the
    button bitmask in AX and that button's press count and last press
    position in BX, CX and DX; it zeroes the press counter of that button
    and of no other, and leaves every release counter and every recorded
    position as it was.  Function 0x06 does the same with the release
    counters, leaving the press counters alone. *)
Theorem button_data_query_clears_one_counter (C : Collaborators) (w : World) :
  well_formed_buttons (state w) ->
  0 <= Regs.bx (regs w) < 3 ->
  let idx := Regs.bx (regs w) in
  let press := int33_handler C (set_reg_ax 0x05 w) in
  let release := int33_handler C (set_reg_ax 0x06 w) in
  let rec := button_record (state w) in
  (Regs.ax (regs press) = World.buttons w /\
   (Regs.bx (regs press), Regs.cx (regs press), Regs.dx (regs press)) = fst (rec idx) /\
   forall i, 0 <= i < 3 ->
     button_record (state press) i
     = if i =? idx then ((0, snd (fst (fst (rec i))), snd (fst (rec i))), snd (rec i))
       else rec i) /\
  (Regs.ax (regs release) = World.buttons w /\
   (Regs.bx (regs release), Regs.cx (regs release), Regs.dx (regs release)) = snd (rec idx) /\
   forall i, 0 <= i < 3 ->
     button_record (state release) i
     = if i =? idx then (fst (rec i), (0, snd (fst (snd (rec i))), snd (snd (rec i))))
       else rec i).
Proof.
  intros (H1 & H2 & H3 & H4 & H5 & H6) Hidx idx press release rec.
  subst press release rec.
  rewrite int33_05, int33_06 by reflexivity.
  rewrite !get_button_data_valid by exact Hidx.
  change (Regs.bx (regs (set_reg_ax 0x05 w))) with idx.
  change (Regs.bx (regs (set_reg_ax 0x06 w))) with idx.
  unfold button_record. cbn -[aget aset].
  split; (split; [reflexivity|]); (split; [reflexivity|]); intros i Hi;
    (destruct (Z.eqb_spec i idx) as [->|Hne];
     [rewrite aget_aset_same by (subst idx; lia)
     |rewrite aget_aset_other by (subst idx; lia)]); reflexivity.
Qed.

Definition button_query_call : World :=
  set_reg_bx 1
    (snd (MOUSEDOS_UpdateButtons 0 (snd (MOUSEDOS_UpdateButtons 2
       (Machine.booted Machine.text))))).

Lemma button_data_query_clears_one_counter_witness :
  let idx := Regs.bx (regs button_query_call) in
  let press := int33_handler Machine.text (set_reg_ax 0x05 button_query_call) in
  let release := int33_handler Machine.text (set_reg_ax 0x06 button_query_call) in
  let rec := button_record (state button_query_call) in
  (Regs.ax (regs press) = World.buttons button_query_call /\
   (Regs.bx (regs press), Regs.cx (regs press), Regs.dx (regs press)) = fst (rec idx) /\
   forall i, 0 <= i < 3 ->
     button_record (state press) i
     = if i =? idx then ((0, snd (fst (fst (rec i))), snd (fst (rec i))), snd (rec i))
       else rec i) /\
  (Regs.ax (regs release) = World.buttons button_query_call /\
   (Regs.bx (regs release), Regs.cx (regs release), Regs.dx (regs release)) = snd (rec idx) /\
   forall i, 0 <= i < 3 ->
     button_record (state release) i
     = if i =? idx then (fst (rec i), (0, snd (fst (snd (rec i))), snd (snd (rec i))))
       else rec i).
Proof.
  apply (button_data_query_clears_one_counter Machine.text button_query_call).
  - vm_compute. repeat split.
  - vm_compute. intuition discriminate.
Defined.

(** ** A hidden cursor is not drawn *)

Definition drawing_off (s : State.t) : bool :=
  negb (State.hidden s =? 0) || State.inhibit_draw s.

Lemma DrawCursor_off (C : Collaborators) (w : World) :
  drawing_off (state w) = true -> MOUSEDOS_DrawCursor C w = w.
Proof. unfold drawing_off, MOUSEDOS_DrawCursor. intros ->. reflexivity. Qed.

Lemma int33_04 (C : Collaborators) (w : World) :
  Regs.ax (regs w) = 0x04 ->
  int33_handler C w
  = MOUSEDOS_DrawCursor C
      (limit_coordinates
         ((fun w1 => if negb (reg_to_signed16 (Regs.dx (regs w)) =? get_pos_y w1)
                     then World.set_pos_y (F32.of_Z (Regs.dx (regs w))) w1 else w1)
            (if negb (reg_to_signed16 (Regs.cx (regs w)) =? get_pos_x w)
             then World.set_pos_x (F32.of_Z (Regs.cx (regs w))) w else w))).
Proof. intros H. unfold int33_handler. rewrite H. reflexivity. Qed.

Lemma int33_10 (C : Collaborators) (w : World) :
  Regs.ax (regs w) = 0x10 ->
  int33_handler C w
  = MOUSEDOS_DrawCursor C
      (on_state
         (fun s =>
            State.set_update_region_y
              (reg_to_signed16 (Regs.dx (regs w)), reg_to_signed16 (Regs.di (regs w)))
              (State.set_update_region_x
                 (reg_to_signed16 (Regs.cx (regs w)), reg_to_signed16 (Regs.si (regs w))) s))
         w).
Proof. intros H. unfold int33_handler. rewrite H. reflexivity. Qed.

(** X15.  While the hidden count is not zero, or drawing is inhibited,
    positioning the cursor (function 0x04) and defining the update region
    (function 0x10) make no call into any other subsystem - nothing is read
    from or written to the screen - and leave the saved background alone;
    the region is stored all the same. *)
Theorem no_screen_access_while_hidden (C : Collaborators) (w : World) :
  drawing_off (state w) = true ->
  let moved := int33_handler C (set_reg_ax 0x04 w) in
  let region := int33_handler C (set_reg_ax 0x10 w) in
  World.trace moved = World.trace w /\
  State.background (state moved) = State.background (state w) /\
  World.trace region = World.trace w /\
  State.background (state region) = State.background (state w) /\
  State.update_region_x (state region)
  = (reg_to_signed16 (Regs.cx (regs w)), reg_to_signed16 (Regs.si (regs w))) /\
  State.update_region_y (state region)
  = (reg_to_signed16 (Regs.dx (regs w)), reg_to_signed16 (Regs.di (regs w))).
Proof.
  intros Hoff moved region. subst moved region.
  rewrite int33_04, int33_10 by reflexivity.
  rewrite !DrawCursor_off.
  - cbn [regs World.regs World.on_regs set_reg_ax].
    repeat match goal with |- context [if ?b then _ else _] => destruct b end;
      repeat split.
  - exact Hoff.
  - cbn [regs World.regs World.on_regs set_reg_ax].
    repeat match goal with |- context [if ?b then _ else _] => destruct b end;
      exact Hoff.
Qed.

Lemma no_screen_access_while_hidden_witness :
  let w := Machine.booted Machine.graphic in
  let moved := int33_handler Machine.graphic (set_reg_ax 0x04 w) in
  let region := int33_handler Machine.graphic (set_reg_ax 0x10 w) in
  World.trace moved = World.trace w /\
  State.background (state moved) = State.background (state w) /\
  World.trace region = World.trace w /\
  State.background (state region) = State.background (state w) /\
  State.update_region_x (state region)
  = (reg_to_signed16 (Regs.cx (regs w)), reg_to_signed16 (Regs.si (regs w))) /\
  State.update_region_y (state region)
  = (reg_to_signed16 (Regs.dx (regs w)), reg_to_signed16 (Regs.di (regs w))).
Proof.
  intros w.
  apply (no_screen_access_while_hidden Machine.graphic w).
  vm_compute. reflexivity.
Defined.

(** ** Video modes *)

(** The video modes [MOUSEDOS_AfterNewVideoMode] handles. *)
Definition handled_modes : list Z :=
  [0x00; 0x01; 0x02; 0x03; 0x07; 0x04; 0x05; 0x06; 0x08; 0x09; 0x0a; 0x0d; 0x0e;
   0x13; 0x0f; 0x10; 0x11; 0x12].

Lemma video_mode_geometry_unhandled (mode rows : Z) :
  ~ In mode handled_modes -> video_mode_geometry mode rows = None.
Proof.
  intros Hn. unfold video_mode_geometry.
  repeat match goal with
         | |- context [?m =? ?k] =>
             destruct (Z.eqb_spec m k) as [E|_];
             [exfalso; apply Hn; rewrite E; unfold handled_modes; simpl; tauto|]
         end.
  reflexivity.
Qed.

(** X16.  In a video mode the driver does not know,
    [MOUSEDOS_AfterNewVideoMode] only sets both granularity masks to
    0xffff and inhibits drawing: the position bounds, the stored mode, the
    hot spot and the cursor shape stay as they were, nothing but log
    entries is emitted (no reset is announced), and from then on
    [MOUSEDOS_DrawCursor] is without effect. *)
Theorem unhandled_video_mode_inhibits_drawing (C : Collaborators) (setmode : bool)
    (w : World) :
  ~ In (BIOS_VIDEO_MODE C (World.trace w)) handled_modes ->
  let w1 := MOUSEDOS_AfterNewVideoMode C setmode w in
  state w1
  = State.set_inhibit_draw true
      (State.set_granularity_y 0xffff (State.set_granularity_x 0xffff (state w))) /\
  World.trace w1
  = EvLog LOG_ERROR
      :: (if setmode && (BIOS_VIDEO_MODE C (World.trace w) =? State.mode (state w))
          then [EvLog LOG_NORMAL] else []) ++ World.trace w /\
  MOUSEDOS_DrawCursor C w1 = w1.
Proof.
  intros Hmode w1.
  assert (H1 : w1
               = on_state (State.set_inhibit_draw true)
                   (LOG LOG_ERROR
                      (on_state
                         (fun s => State.set_granularity_y 0xffff
                                     (State.set_granularity_x 0xffff s))
                         ((fun w0 =>
                             if setmode
                                && (BIOS_VIDEO_MODE C (World.trace w) =? State.mode (state w))
                             then LOG LOG_NORMAL w0 else w0)
                            (on_state (State.set_inhibit_draw false) w))))).
  { subst w1. unfold MOUSEDOS_AfterNewVideoMode. cbn [World.trace World.on_state].
    rewrite video_mode_geometry_unhandled by exact Hmode. reflexivity. }
  clearbody w1. subst w1. cbv beta.
  split; [|split].
  - destruct (setmode && _); reflexivity.
  - destruct (setmode && _); reflexivity.
  - apply DrawCursor_off. unfold drawing_off. cbn. apply orb_true_r.
Qed.

(** A machine whose BIOS reports the video mode 0x55. *)
Definition unknown_mode_machine : Collaborators :=
  Machine.with_mode M_GRAPHICS 0x55 640 480.

Lemma unhandled_video_mode_inhibits_drawing_witness :
  let w := Machine.booted Machine.text in
  let w1 := MOUSEDOS_AfterNewVideoMode unknown_mode_machine true w in
  state w1
  = State.set_inhibit_draw true
      (State.set_granularity_y 0xffff (State.set_granularity_x 0xffff (state w))) /\
  World.trace w1
  = EvLog LOG_ERROR
      :: (if true && (BIOS_VIDEO_MODE unknown_mode_machine (World.trace w)
                      =? State.mode (state w))
          then [EvLog LOG_NORMAL] else []) ++ World.trace w /\
  MOUSEDOS_DrawCursor unknown_mode_machine w1 = w1.
Proof.
  intros w.
  apply (unhandled_video_mode_inhibits_drawing unknown_mode_machine true w).
  vm_compute. intuition discriminate.
Defined.

(** ** Restoring the saved background *)

Section Restore.

Context (C : Collaborators).

Lemma state_IO_Read_into (port : Z) (k : Z -> World -> World) (w : World) :
  (forall v x, state (k v x) = state x) ->
  state (IO_Read_into C port k w) = state w.
Proof. intros Hk. unfold IO_Read_into. rewrite Hk. reflexivity. Qed.

Lemma state_IO_Write (port val : Z) (w : World) :
  state (IO_Write port val w) = state w.
Proof. reflexivity. Qed.

Lemma state_on_vga_regs (f : VgaRegs.t -> VgaRegs.t) (w : World) :
  state (on_vga_regs f w) = state w.
Proof. reflexivity. Qed.

Lemma state_loop (lo hi : Z) (body : Z -> World -> World) (w : World) :
  (forall i x, state (body i x) = state x) ->
  state (for_range lo hi body w) = state w.
Proof.
  intros Hbody.
  apply (for_range_ind (fun x => state x = state w)); [reflexivity|].
  intros i x Hx. rewrite Hbody. exact Hx.
Qed.

Lemma state_save_vga (w : World) : state (save_vga_registers C w) = state w.
Proof.
  unfold save_vga_registers.
  destruct (IS_VGA_ARCH C).
  - rewrite state_IO_Write.
    rewrite state_IO_Read_into by (intros; apply state_on_vga_regs).
    rewrite state_IO_Write.
    rewrite state_IO_Read_into by (intros; apply state_on_vga_regs).
    rewrite !state_IO_Write.
    apply state_loop. intros i x.
    rewrite state_IO_Read_into by (intros; apply state_on_vga_regs).
    apply state_IO_Write.
  - destruct (machine_is_MCH_EGA C); [|reflexivity].
    rewrite !state_IO_Write. reflexivity.
Qed.

Lemma state_restore_vga (w : World) : state (restore_vga_registers C w) = state w.
Proof.
  unfold restore_vga_registers.
  destruct (IS_VGA_ARCH C); [|reflexivity].
  rewrite !state_IO_Write.
  apply state_loop. intros i x. rewrite !state_IO_Write. reflexivity.
Qed.

Lemma state_loop_acc {A : Type} (lo hi : Z) (body : Z -> A * World -> A * World)
    (a : A) (w : World) :
  (forall i x, state (snd (body i x)) = state (snd x)) ->
  state (snd (for_range lo hi body (a, w))) = state w.
Proof.
  intros Hbody.
  apply (for_range_ind (fun x => state (snd x) = state w)); [reflexivity|].
  intros i x Hx. rewrite Hbody. exact Hx.
Qed.

Lemma state_on_background (f : Background.t -> Background.t) (w : World) :
  state (on_background f w) = State.set_background (f (State.background (state w))) (state w).
Proof. reflexivity. Qed.

(** The driver state after [restore_cursor_background]: when the cursor
    is drawn and a background is saved, the background is marked as not
    saved; otherwise nothing changes. *)
Lemma state_restore_background (w : World) :
  state (restore_cursor_background C w)
  = if drawing_off (state w) || negb (Background.enabled (State.background (state w)))
    then state w
    else state (on_background (Background.set_enabled false) w).
Proof.
  unfold restore_cursor_background, drawing_off.
  destruct (_ || _ || _); [reflexivity|].
  match goal with
  | |- context [for_range ?lo ?hi ?b (?a, ?w1)] =>
      pose proof (state_loop_acc lo hi b a w1) as Hloop;
      destruct (for_range lo hi b (a, w1)) as [p w2]
  end.
  rewrite state_restore_vga, !state_on_background.
  cbn [snd] in Hloop. rewrite Hloop; [rewrite state_save_vga; reflexivity|].
  intros i [p1 w3]. cbv beta iota.
  match goal with
  | |- context [for_range ?lo ?hi ?b (?a, ?w1)] =>
      pose proof (state_loop_acc lo hi b a w1) as Hin;
      destruct (for_range lo hi b (a, w1)) as [p2 w4]
  end.
  cbn [snd] in *. apply Hin. intros j [p3 w5]. reflexivity.
Qed.

End Restore.
Definition nothing_to_restore (s : State.t) : bool :=
  drawing_off s || negb (Background.enabled (State.background s)).

Lemma restore_background_nothing (C : Collaborators) (w : World) :
  nothing_to_restore (state w) = true -> restore_cursor_background C w = w.
Proof.
  unfold nothing_to_restore, drawing_off, restore_cursor_background.
  intros ->. reflexivity.
Qed.

Lemma restore_text_nothing (C : Collaborators) (w : World) :
  nothing_to_restore (state w) = true -> restore_cursor_background_text C w = w.
Proof.
  unfold nothing_to_restore, drawing_off, restore_cursor_background_text.
  destruct (negb (State.hidden (state w) =? 0) || State.inhibit_draw (state w));
    [reflexivity|].
  cbn [orb]. destruct (Background.enabled _); [discriminate|reflexivity].
Qed.

(** X17.  A saved background is restored once.  After
    [restore_cursor_background_text] or [restore_cursor_background] there
    is nothing left to restore - the cursor is hidden, drawing is inhibited
    or no background is marked as saved - so that a second call right after
    the first changes nothing.  In graphic mode the restore changes nothing
    in the driver state but that mark. *)
Theorem background_restored_once (C : Collaborators) (w : World) :
  let text := restore_cursor_background_text C w in
  let graphic := restore_cursor_background C w in
  nothing_to_restore (state text) = true /\
  nothing_to_restore (state graphic) = true /\
  restore_cursor_background_text C text = text /\
  restore_cursor_background C graphic = graphic /\
  state graphic
  = (if nothing_to_restore (state w) then state w
     else State.set_background
            (Background.set_enabled false (State.background (state w))) (state w)).
Proof.
  intros text graphic.
  pose proof (state_restore_background C w) as Hg. fold graphic in Hg.
  assert (Ht : nothing_to_restore (state text) = true).
  { subst text. unfold restore_cursor_background_text, nothing_to_restore, drawing_off.
    destruct (negb (State.hidden (state w) =? 0) || State.inhibit_draw (state w)) eqn:E1.
    - rewrite E1. reflexivity.
    - destruct (Background.enabled (State.background (state w))) eqn:E2.
      + cbn. rewrite E1. reflexivity.
      + rewrite E1, E2. reflexivity. }
  clearbody text graphic.
  assert (Hn : nothing_to_restore (state graphic) = true).
  { rewrite Hg. unfold nothing_to_restore, drawing_off.
    destruct (negb (State.hidden (state w) =? 0) || State.inhibit_draw (state w)) eqn:E1.
    - cbn [orb]. rewrite E1. reflexivity.
    - cbn [orb]. destruct (Background.enabled (State.background (state w))) eqn:E2;
        cbn [negb].
      + cbn. rewrite E1. reflexivity.
      + rewrite E1, E2. reflexivity. }
  split; [exact Ht|]. split; [exact Hn|].
  split; [apply restore_text_nothing; exact Ht|].
  split; [apply restore_background_nothing; exact Hn|].
  rewrite Hg. reflexivity.
Qed.

(** ** The text cursor saves what it overwrites *)

Section TextCursor.

Context (C : Collaborators) (w : World).

(** The character cell of the current position. *)
Definition text_cell : Z * Z :=
  let col := Int.u16 (get_pos_x w / 8) in
  (if State.mode (state w) <? 2 then col / 2 else col, Int.u16 (get_pos_y w / 8)).

Hypothesis drawing_on : drawing_off (state w) = false.
Hypothesis nothing_saved : Background.enabled (State.background (state w)) = false.
Hypothesis text_mode : mode_type (CurMode C (EvSetCurMode :: World.trace w)) = M_TEXT.
Hypothesis software_cursor : State.cursor_type (state w) = Software.
Hypothesis outside_region :
  in_update_region (state w) (get_pos_x w) (get_pos_y w) = false.
Hypothesis room_for_cell : (2 <= length (Background.data (State.background (state w))))%nat.

Lemma DrawCursor_text_software :
  let tr := EvSetCurMode :: World.trace w in
  let page := BIOSMEM_CURRENT_PAGE C tr in
  let saved := ReadCharAttr C tr (fst text_cell) (snd text_cell) page in
  let cursor := Z.lxor (Z.land saved (State.text_and_mask (state w)))
                  (State.text_xor_mask (state w)) in
  MOUSEDOS_DrawCursor C w
  = WriteChar (fst text_cell) (snd text_cell) page (Int.low_byte cursor)
      (Int.high_byte cursor) true
      (on_background
         (fun b => Background.set_enabled true
                     (Background.set_data
                        (aset (aset (Background.data b) 0 (Int.low_byte saved)) 1
                           (Int.high_byte saved)) b))
         (emit (EvReadCharAttr (fst text_cell) (snd text_cell) page)
            (on_background
               (fun b => Background.set_pos_y (snd text_cell)
                           (Background.set_pos_x (fst text_cell) b))
               (emit EvSetCurMode w)))).
Proof.
  intros tr page saved cursor.
  unfold MOUSEDOS_DrawCursor. unfold drawing_off in drawing_on. rewrite drawing_on.
  unfold INT10_SetCurMode. cbn [World.trace World.emit World.set_trace].
  rewrite text_mode.
  unfold draw_cursor_text.
  rewrite (restore_text_nothing C (emit EvSetCurMode w))
    by (unfold nothing_to_restore; cbn; rewrite nothing_saved; apply orb_true_r).
  change (get_pos_x (emit EvSetCurMode w)) with (get_pos_x w).
  change (get_pos_y (emit EvSetCurMode w)) with (get_pos_y w).
  change (state (emit EvSetCurMode w)) with (state w).
  rewrite outside_region.
  match goal with
  | |- context [State.cursor_type (state (on_background ?f ?x))] =>
      change (State.cursor_type (state (on_background f x)))
        with (State.cursor_type (state w))
  end.
  rewrite software_cursor. reflexivity.
Qed.

(** X18.  In text mode, with the software cursor shown outside the
    update region and no background saved yet, [MOUSEDOS_DrawCursor] reads
    the character and attribute of the cell under the cursor, writes them
    back ANDed with the AND mask and XORed with the XOR mask, and keeps what
    it read as the saved background.  Restoring the background afterwards
    writes exactly the character and attribute that were read to the same
    cell, and marks the background as no longer saved. *)
Theorem text_cursor_saves_what_it_overwrites :
  let tr := EvSetCurMode :: World.trace w in
  let page := BIOSMEM_CURRENT_PAGE C tr in
  let saved := ReadCharAttr C tr (fst text_cell) (snd text_cell) page in
  let cursor := Z.lxor (Z.land saved (State.text_and_mask (state w)))
                  (State.text_xor_mask (state w)) in
  let drawn := MOUSEDOS_DrawCursor C w in
  let restored := restore_cursor_background_text C drawn in
  World.trace drawn
  = EvWriteChar (fst text_cell) (snd text_cell) page (Int.low_byte cursor)
      (Int.high_byte cursor) true
      :: EvReadCharAttr (fst text_cell) (snd text_cell) page :: tr /\
  Background.enabled (State.background (state drawn)) = true /\
  World.trace restored
  = EvWriteChar (fst text_cell) (snd text_cell)
      (BIOSMEM_CURRENT_PAGE C (World.trace drawn))
      (Int.low_byte saved) (Int.high_byte saved) true
      :: World.trace drawn /\
  Background.enabled (State.background (state restored)) = false.
Proof.
  intros tr page saved cursor drawn restored.
  pose proof DrawCursor_text_software as Hd. cbv zeta in Hd.
  fold tr in Hd. fold page in Hd. fold saved in Hd. fold cursor in Hd. fold drawn in Hd.
  clearbody drawn. subst restored.
  assert (Htrace : World.trace drawn
                   = EvWriteChar (fst text_cell) (snd text_cell) page
                       (Int.low_byte cursor) (Int.high_byte cursor) true
                       :: EvReadCharAttr (fst text_cell) (snd text_cell) page :: tr)
    by (rewrite Hd; reflexivity).
  assert (Hbg : State.background (state drawn)
                = Background.set_enabled true
                    (Background.set_data
                       (aset (aset (Background.data (State.background (state w))) 0
                                (Int.low_byte saved)) 1 (Int.high_byte saved))
                       (Background.set_pos_y (snd text_cell)
                          (Background.set_pos_x (fst text_cell)
                             (State.background (state w))))))
    by (rewrite Hd; reflexivity).
  assert (Hoff : drawing_off (state drawn) = false)
    by (rewrite Hd; exact drawing_on).
  clear Hd.
  split; [exact Htrace|]. split; [rewrite Hbg; reflexivity|].
  unfold restore_cursor_background_text.
  unfold drawing_off in Hoff. rewrite Hoff. rewrite Hbg.
  cbn [Background.enabled Background.set_enabled Background.pos_x Background.pos_y
       Background.data Background.set_data Background.set_pos_x Background.set_pos_y].
  split; [|reflexivity].
  unfold WriteChar.
  rewrite aget_aset_other by lia.
  rewrite !aget_aset_same by (rewrite ?length_aset; lia).
  reflexivity.
Qed.

End TextCursor.

(** The cursor shown at position (320, 100) in text mode 3. *)
Definition text_cursor_world : World :=
  on_state (State.set_hidden 0) (Machine.booted Machine.text).

Lemma text_cursor_saves_what_it_overwrites_witness :
  let C := Machine.text in
  let w := text_cursor_world in
  let tr := EvSetCurMode :: World.trace w in
  let page := BIOSMEM_CURRENT_PAGE C tr in
  let saved := ReadCharAttr C tr (fst (text_cell w)) (snd (text_cell w)) page in
  let cursor := Z.lxor (Z.land saved (State.text_and_mask (state w)))
                  (State.text_xor_mask (state w)) in
  let drawn := MOUSEDOS_DrawCursor C w in
  let restored := restore_cursor_background_text C drawn in
  World.trace drawn
  = EvWriteChar (fst (text_cell w)) (snd (text_cell w)) page (Int.low_byte cursor)
      (Int.high_byte cursor) true
      :: EvReadCharAttr (fst (text_cell w)) (snd (text_cell w)) page :: tr /\
  Background.enabled (State.background (state drawn)) = true /\
  World.trace restored
  = EvWriteChar (fst (text_cell w)) (snd (text_cell w))
      (BIOSMEM_CURRENT_PAGE C (World.trace drawn))
      (Int.low_byte saved) (Int.high_byte saved) true
      :: World.trace drawn /\
  Background.enabled (State.background (state restored)) = false.
Proof.
  intros C w.
  apply (text_cursor_saves_what_it_overwrites C w).
  - vm_compute. reflexivity.
  - vm_compute. reflexivity.
  - vm_compute. reflexivity.
  - vm_compute. reflexivity.
  - vm_compute. reflexivity.
  - apply Nat.leb_le. vm_compute. reflexivity.
Defined.

(** ** Function codes without an implementation *)

(** The function codes [int33_handler] implements. *)
Definition implemented_functions : list Z :=
  [0x00; 0x21; 0x01; 0x02; 0x03; 0x04; 0x05; 0x06; 0x07; 0x08; 0x09; 0x0a; 0x27;
   0x0b; 0x0c; 0x0f; 0x10; 0x11; 0x13; 0x14; 0x15; 0x16; 0x17; 0x1a; 0x1b; 0x1c;
   0x1d; 0x1e; 0x1f; 0x20; 0x22; 0x23; 0x24; 0x26; 0x2a; 0x31].

Ltac in_implemented H :=
  solve [ exfalso; apply H; unfold implemented_functions; simpl;
          repeat ((left; reflexivity) || right) ].

Ltac decide_code H p :=
  first [ in_implemented H
        | reflexivity
        | destruct p as [p|p|];
          [ decide_code H p | decide_code H p
          | first [ in_implemented H | reflexivity ] ] ].

(** X19.  A call with any function code that is not implemented - the
    documented but unimplemented functions as well as every unknown code -
    returns with all registers, the driver state and everything else as
    they were: the only effect is one log entry, of normal severity for
    the Logitech CyberMan code 0x53C1 and of error severity otherwise. *)
Theorem unimplemented_function_only_logs (C : Collaborators) (w : World) :
  ~ In (Regs.ax (regs w)) implemented_functions ->
  int33_handler C w
  = LOG (if Regs.ax (regs w) =? 0x53C1 then LOG_NORMAL else LOG_ERROR) w.
Proof.
  intros H. unfold int33_handler.
  generalize dependent (Regs.ax (regs w)). intros a H.
  destruct a as [|p|p]; [in_implemented H| |reflexivity].
  decide_code H p.
Qed.

Definition unknown_function_call : World :=
  set_reg_ax 0x4d (Machine.booted Machine.text).

Lemma unimplemented_function_only_logs_witness :
  int33_handler Machine.text unknown_function_call
  = LOG (if Regs.ax (regs unknown_function_call) =? 0x53C1 then LOG_NORMAL else LOG_ERROR)
      unknown_function_call.
Proof.
  apply (unimplemented_function_only_logs Machine.text unknown_function_call).
  vm_compute. intuition discriminate.
Defined.

(** ** The graphics cursor *)

Lemma int33_09 (C : Collaborators) (w : World) :
  Regs.ax (regs w) = 0x09 ->
  let src := (Regs.es_phys (regs w) + Regs.dx (regs w)) mod 2 ^ 32 in
  let w1 := emit (EvMemBlockRead src (cursor_size_y * 2)) w in
  let src2 := (src + cursor_size_y * 2) mod 2 ^ 32 in
  int33_handler C w
  = MOUSEDOS_DrawCursor C
      (on_state
         (fun s =>
            State.set_cursor_type Text
              (State.set_hot_y (clamp_hot (Regs.cx (regs w)) cursor_size_y)
                 (State.set_hot_x (clamp_hot (Regs.bx (regs w)) cursor_size_x)
                    (State.set_user_cursor_mask true
                       (State.set_user_screen_mask true
                          (State.set_user_def_cursor_mask
                             (words_of_bytes
                                (MEM_BlockRead C (World.trace w1) src2 (cursor_size_y * 2)))
                             (State.set_user_def_screen_mask
                                (words_of_bytes
                                   (MEM_BlockRead C (World.trace w) src (cursor_size_y * 2)))
                                s)))))))
         (emit (EvMemBlockRead src2 (cursor_size_y * 2)) w1)).
Proof. intros H. unfold int33_handler. rewrite H. reflexivity. Qed.

(** The fields of the driver state that describe the cursor shape. *)
Definition cursor_shape (w : World)
    : Z * Z * MouseCursor * bool * bool * list Z * list Z :=
  (State.hot_x (state w), State.hot_y (state w), State.cursor_type (state w),
   State.user_screen_mask (state w), State.user_cursor_mask (state w),
   State.user_def_screen_mask (state w), State.user_def_cursor_mask (state w)).

Lemma clamp_hot_range (reg : Z) :
  -16 <= clamp_hot reg 16 <= 16 /\
  (-16 <= reg_to_signed16 reg <= 16 -> clamp_hot reg 16 = reg_to_signed16 reg) /\
  (reg_to_signed16 reg < -16 -> clamp_hot reg 16 = -16) /\
  (16 < reg_to_signed16 reg -> clamp_hot reg 16 = 16).
Proof.
  unfold clamp_hot, Int.clamp.
  change (Int.s16 (Z.opp 16)) with (-16). change (Int.s16 16) with 16.
  destruct (Z.ltb_spec (reg_to_signed16 reg) (-16)),
    (Z.ltb_spec 16 (reg_to_signed16 reg)); lia.
Qed.

(** X20.  Function 0x09 (define graphics cursor) reads the screen mask
    as the sixteen words at ES:DX and the cursor mask as the sixteen words
    right behind it, selects both user masks, and stores the hot spot
    clamped to [-16, 16] on each axis: a hot spot in that range is stored
    as it is, one below becomes -16 and one above becomes 16.  Drawing the
    cursor afterwards changes none of this. *)
Theorem graphics_cursor_hot_spot_clamped (C : Collaborators) (w : World) :
  Regs.ax (regs w) = 0x09 ->
  let src := (Regs.es_phys (regs w) + Regs.dx (regs w)) mod 2 ^ 32 in
  let w' := int33_handler C w in
  let hx := reg_to_signed16 (Regs.bx (regs w)) in
  let hy := reg_to_signed16 (Regs.cx (regs w)) in
  -16 <= State.hot_x (state w') <= 16 /\ -16 <= State.hot_y (state w') <= 16 /\
  State.hot_x (state w') = Z.max (-16) (Z.min 16 hx) /\
  State.hot_y (state w') = Z.max (-16) (Z.min 16 hy) /\
  State.user_screen_mask (state w') = true /\
  State.user_cursor_mask (state w') = true /\
  State.cursor_type (state w') = Text /\
  State.user_def_screen_mask (state w')
  = words_of_bytes (MEM_BlockRead C (World.trace w) src 32) /\
  State.user_def_cursor_mask (state w')
  = words_of_bytes
      (MEM_BlockRead C (EvMemBlockRead src 32 :: World.trace w) ((src + 32) mod 2 ^ 32) 32).
Proof.
  intros Hax src w' hx hy.
  pose proof (int33_09 C w Hax) as H. cbv zeta in H. fold src in H. fold w' in H.
  clearbody w'.
  assert (Hshape : cursor_shape w'
                   = (clamp_hot (Regs.bx (regs w)) 16, clamp_hot (Regs.cx (regs w)) 16,
                      Text, true, true,
                      words_of_bytes (MEM_BlockRead C (World.trace w) src 32),
                      words_of_bytes
                        (MEM_BlockRead C (EvMemBlockRead src 32 :: World.trace w)
                           ((src + 32) mod 2 ^ 32) 32))).
  { rewrite H.
    rewrite (render_only_keeps cursor_shape (MOUSEDOS_DrawCursor C))
      by (reflexivity || apply render_only_DrawCursor).
    reflexivity. }
  unfold cursor_shape in Hshape.
  injection Hshape as E1 E2 E3 E4 E5 E6 E7.
  destruct (clamp_hot_range (Regs.bx (regs w))) as (Rx & Ix & Lx & Ux).
  destruct (clamp_hot_range (Regs.cx (regs w))) as (Ry & Iy & Ly & Uy).
  fold hx in Ix, Lx, Ux. fold hy in Iy, Ly, Uy.
  rewrite E1, E2, E3, E4, E5, E6, E7.
  repeat split; try lia.
Qed.

Definition graphics_cursor_call : World :=
  on_regs (fun r => Regs.set_cx 0xfff0 (Regs.set_bx 40 (Regs.set_ax 0x09 r)))
    (Machine.booted Machine.graphic).

Lemma graphics_cursor_hot_spot_clamped_witness :
  let C := Machine.graphic in
  let w := graphics_cursor_call in
  let src := (Regs.es_phys (regs w) + Regs.dx (regs w)) mod 2 ^ 32 in
  let w' := int33_handler C w in
  let hx := reg_to_signed16 (Regs.bx (regs w)) in
  let hy := reg_to_signed16 (Regs.cx (regs w)) in
  -16 <= State.hot_x (state w') <= 16 /\ -16 <= State.hot_y (state w') <= 16 /\
  State.hot_x (state w') = Z.max (-16) (Z.min 16 hx) /\
  State.hot_y (state w') = Z.max (-16) (Z.min 16 hy) /\
  State.user_screen_mask (state w') = true /\
  State.user_cursor_mask (state w') = true /\
  State.cursor_type (state w') = Text /\
  State.user_def_screen_mask (state w')
  = words_of_bytes (MEM_BlockRead C (World.trace w) src 32) /\
  State.user_def_cursor_mask (state w')
  = words_of_bytes
      (MEM_BlockRead C (EvMemBlockRead src 32 :: World.trace w) ((src + 32) mod 2 ^ 32) 32).
Proof.
  intros C w.
  apply (graphics_cursor_hot_spot_clamped C w).
  vm_compute. reflexivity.
Defined.

(** ** Mickey counters *)

Lemma s16_shift (z k : Z) : Int.s16 (z + k * 65536) = Int.s16 z.
Proof.
  unfold Int.s16.
  replace (z + k * 65536 + 32768) with (z + 32768 + k * 65536) by lia.
  rewrite Z.mod_add by lia. reflexivity.
Qed.

(** One counter: the [update] lambda adds the rounded movement modulo
    2^16. *)
Lemma update_wraps (counter : Z) (delta rel : F32.t) :
  Int.is_s16 counter ->
  fst (update counter delta rel)
  = Int.s16 (counter + Int.s16 (F32.lround (F32.add delta rel))).
Proof.
  intros Hc. unfold update.
  pose proof (s16_range (F32.lround (F32.add delta rel))) as Hd.
  set (d := Int.s16 (F32.lround (F32.add delta rel))) in *.
  unfold Int.is_s16 in *.
  destruct (Z.eqb_spec d 0) as [E|E]; cbn [fst].
  - rewrite E, Z.add_0_r, s16_id by exact Hc. reflexivity.
  - unfold Int.INT16_MAX, Int.INT16_MIN, Int.UINT16_MAX.
    destruct (Z.ltb_spec 32767 (counter + d)).
    + replace (counter + d - (65535 + 1)) with (counter + d + (-1) * 65536) by lia.
      apply s16_shift.
    + destruct (Z.ltb_spec (counter + d) (-32768)).
      * replace (counter + d + (65535 + 1)) with (counter + d + 1 * 65536) by lia.
        apply s16_shift.
      * reflexivity.
Qed.

(** X21.  [update_mickeys_on_move] adds to each mickey counter the
    movement of its axis (the relative movement times the mickeys-per-pixel
    ratio, plus the remainder kept from earlier movements, rounded to the
    nearest integer and narrowed to 16 bits), modulo 2^16: a counter that
    passes INT16_MAX continues from INT16_MIN and the other way round, it
    does not saturate.  The length of the movement vector goes to the speed
    estimator, and the cursor position is not touched. *)
Theorem mickey_counters_wrap_around (x_rel y_rel : F32.t) (w : World) :
  Int.is_s16 (State.mickey_counter_x (state w)) ->
  Int.is_s16 (State.mickey_counter_y (state w)) ->
  let x_mov := F32.mul x_rel (State.mickeys_per_pixel_x (state w)) in
  let y_mov := F32.mul y_rel (State.mickeys_per_pixel_y (state w)) in
  let w' := update_mickeys_on_move x_rel y_rel w in
  State.mickey_counter_x (state w')
  = Int.s16 (State.mickey_counter_x (state w)
             + Int.s16 (F32.lround (F32.add (State.mickey_delta_x (state w)) x_mov))) /\
  State.mickey_counter_y (state w')
  = Int.s16 (State.mickey_counter_y (state w)
             + Int.s16 (F32.lround (F32.add (State.mickey_delta_y (state w)) y_mov))) /\
  Int.is_s16 (State.mickey_counter_x (state w')) /\
  Int.is_s16 (State.mickey_counter_y (state w')) /\
  World.trace w'
  = EvSpeedUpdate (F32.sqrt (F32.add (F32.mul x_mov x_mov) (F32.mul y_mov y_mov)))
      :: World.trace w /\
  World.pos_x w' = World.pos_x w /\ World.pos_y w' = World.pos_y w.
Proof.
  intros Hx Hy x_mov y_mov w'.
  pose proof (update_wraps _ (State.mickey_delta_x (state w)) x_mov Hx) as Ux.
  pose proof (update_wraps _ (State.mickey_delta_y (state w)) y_mov Hy) as Uy.
  assert (Ex : State.mickey_counter_x (state w')
               = fst (update (State.mickey_counter_x (state w))
                        (State.mickey_delta_x (state w)) x_mov)).
  { subst w'. unfold update_mickeys_on_move. fold x_mov. fold y_mov.
    set (s := state w). cbn -[update]. fold s.
    destruct (update (State.mickey_counter_x s) (State.mickey_delta_x s) x_mov).
    cbn -[update].
    destruct (update _ _ y_mov). reflexivity. }
  assert (Ey : State.mickey_counter_y (state w')
               = fst (update (State.mickey_counter_y (state w))
                        (State.mickey_delta_y (state w)) y_mov)).
  { subst w'. unfold update_mickeys_on_move. fold x_mov. fold y_mov.
    set (s := state w). cbn -[update]. fold s.
    destruct (update (State.mickey_counter_x s) (State.mickey_delta_x s) x_mov).
    cbn -[update].
    destruct (update _ _ y_mov). reflexivity. }
  rewrite Ex, Ey, Ux, Uy.
  repeat split; try apply s16_range.
Qed.

Definition counter_at_limit : World :=
  on_state (State.set_mickey_counter_x 32767) (Machine.booted Machine.text).

Lemma mickey_counters_wrap_around_witness :
  let x_rel := F32.of_Z 1 in
  let y_rel := F32.zero in
  let w := counter_at_limit in
  let x_mov := F32.mul x_rel (State.mickeys_per_pixel_x (state w)) in
  let y_mov := F32.mul y_rel (State.mickeys_per_pixel_y (state w)) in
  let w' := update_mickeys_on_move x_rel y_rel w in
  State.mickey_counter_x (state w')
  = Int.s16 (State.mickey_counter_x (state w)
             + Int.s16 (F32.lround (F32.add (State.mickey_delta_x (state w)) x_mov))) /\
  State.mickey_counter_y (state w')
  = Int.s16 (State.mickey_counter_y (state w)
             + Int.s16 (F32.lround (F32.add (State.mickey_delta_y (state w)) y_mov))) /\
  Int.is_s16 (State.mickey_counter_x (state w')) /\
  Int.is_s16 (State.mickey_counter_y (state w')) /\
  World.trace w'
  = EvSpeedUpdate (F32.sqrt (F32.add (F32.mul x_mov x_mov) (F32.mul y_mov y_mov)))
      :: World.trace w /\
  World.pos_x w' = World.pos_x w /\ World.pos_y w' = World.pos_y w.
Proof.
  intros x_rel y_rel w.
  apply (mickey_counters_wrap_around x_rel y_rel w); vm_compute; split; discriminate.
Defined.

(** The counter of the example passes INT16_MAX and continues from
    INT16_MIN. *)
Lemma counter_at_limit_wraps :
  State.mickey_counter_x
    (state (update_mickeys_on_move (F32.of_Z 1) F32.zero counter_at_limit))
  = -32768.
Proof. vm_compute. reflexivity. Qed.

(** ** Keeping the cursor inside the range of the application *)

(** An integer that orders the binary32 values of small magnitude the
    way [operator<] does. *)
Definition order_key (x : F32.t) : Z :=
  match x with
  | S754_finite s m e =>
      let k := (e + 200) * 2 ^ 24 + Zpos m in if s then - k else k
  | _ => 0
  end.

Definition small_float (x : F32.t) : bool :=
  match x with
  | S754_zero _ => true
  | S754_finite _ m e => (Zpos m <? 2 ^ 24) && (-200 <=? e)
  | _ => false
  end.

Lemma ltb_order_key (x y : F32.t) :
  small_float x = true -> small_float y = true ->
  F32.ltb x y = (order_key x <? order_key y).
Proof.
  unfold F32.ltb, SFltb.
  destruct x as [sx|sx| |sx mx ex], y as [sy|sy| |sy my ey];
    cbn [small_float]; try discriminate; intros Hx Hy;
    repeat match goal with
           | H : _ && _ = true |- _ => apply andb_prop in H; destruct H
           | H : (_ <? _) = true |- _ => apply Z.ltb_lt in H
           | H : (_ <=? _) = true |- _ => apply Z.leb_le in H
           end;
    change (2 ^ 24) with 16777216 in *.
  - reflexivity.
  - cbn [SFcompare order_key]. change (2 ^ 24) with 16777216.
    destruct sy; symmetry; [apply Z.ltb_ge | apply Z.ltb_lt]; lia.
  - cbn [SFcompare order_key]. change (2 ^ 24) with 16777216.
    destruct sx; symmetry; [apply Z.ltb_lt | apply Z.ltb_ge]; lia.
  - cbn [SFcompare order_key]. change (2 ^ 24) with 16777216.
    change (Pos.compare_cont Eq mx my) with (Pos.compare mx my).
    destruct sx, sy; symmetry.
    + destruct (Z.compare_spec ex ey); [ | apply Z.ltb_ge; lia | apply Z.ltb_lt; lia ].
      subst ey. destruct (Pos.compare_spec mx my); cbn [CompOpp];
        [apply Z.ltb_ge | apply Z.ltb_ge | apply Z.ltb_lt]; lia.
    + apply Z.ltb_lt; lia.
    + apply Z.ltb_ge; lia.
    + destruct (Z.compare_spec ex ey); [ | apply Z.ltb_lt; lia | apply Z.ltb_ge; lia ].
      subst ey. destruct (Pos.compare_spec mx my);
        [apply Z.ltb_ge | apply Z.ltb_lt | apply Z.ltb_ge]; lia.
Qed.

Lemma ltb_irrefl (x : F32.t) : F32.ltb x x = false.
Proof.
  unfold F32.ltb, SFltb.
  destruct x as [s|s| |s m e]; cbn [SFcompare]; try reflexivity.
  - destruct s; reflexivity.
  - rewrite Z.compare_refl.
    change (Pos.compare_cont Eq m m) with (Pos.compare m m). rewrite Pos.compare_refl.
    destruct s; reflexivity.
Qed.

(** The conversions of the integers [i], [i + 1], ... ([n] of them) are
    small and strictly increasing, starting above [prev]. *)
Fixpoint of_Z_ordered (n : nat) (i prev : Z) : bool :=
  match n with
  | O => true
  | S n =>
      let x := F32.of_Z i in
      small_float x && (prev <? order_key x) && of_Z_ordered n (i + 1) (order_key x)
  end.

Lemma of_Z_ordered_all :
  of_Z_ordered (Z.to_nat 65536) (-32768) (order_key (F32.of_Z (-32769))) = true.
Proof. vm_cast_no_check (eq_refl true). Qed.

Lemma of_Z_ordered_spec (n : nat) (i prev : Z) :
  of_Z_ordered n i prev = true ->
  forall a b, i <= a -> a <= b -> b < i + Z.of_nat n ->
    small_float (F32.of_Z a) = true /\ prev < order_key (F32.of_Z a) /\
    order_key (F32.of_Z a) <= order_key (F32.of_Z b).
Proof.
  revert i prev. induction n as [|n IH]; intros i prev H a b Ha Hab Hb; [lia|].
  cbn [of_Z_ordered] in H. cbv zeta in H.
  apply andb_prop in H. destruct H as [H H3].
  apply andb_prop in H. destruct H as [H1 H2]. apply Z.ltb_lt in H2.
  destruct (Z.eq_dec a i) as [->|Na].
  - split; [exact H1|]. split; [exact H2|].
    destruct (Z.eq_dec b i) as [->|Nb]; [lia|].
    destruct (IH _ _ H3 b b ltac:(lia) ltac:(lia) ltac:(lia)) as (_ & K & _). lia.
  - destruct (IH _ _ H3 a b ltac:(lia) ltac:(lia) ltac:(lia)) as (K1 & K2 & K3).
    split; [exact K1|]. split; [lia|exact K3].
Qed.

Lemma of_Z_small (i : Z) : Int.is_s16 i -> small_float (F32.of_Z i) = true.
Proof.
  unfold Int.is_s16. intros H.
  apply (of_Z_ordered_spec _ _ _ of_Z_ordered_all i i); lia.
Qed.

Lemma of_Z_monotone (a b : Z) :
  Int.is_s16 a -> Int.is_s16 b -> a <= b ->
  order_key (F32.of_Z a) <= order_key (F32.of_Z b).
Proof.
  unfold Int.is_s16. intros Ha Hb Hab.
  apply (of_Z_ordered_spec _ _ _ of_Z_ordered_all a b); lia.
Qed.

Lemma of_Z_not_less (a b : Z) :
  Int.is_s16 a -> Int.is_s16 b -> a <= b ->
  F32.ltb (F32.of_Z b) (F32.of_Z a) = false.
Proof.
  intros Ha Hb Hab.
  rewrite ltb_order_key by (apply of_Z_small; assumption).
  apply Z.ltb_ge. apply of_Z_monotone; assumption.
Qed.

Lemma of_Z_not_nan (a : Z) : Int.is_s16 a -> F32.is_nan (F32.of_Z a) = false.
Proof.
  intros Ha. pose proof (of_Z_small a Ha) as S.
  destruct (F32.of_Z a); try discriminate; reflexivity.
Qed.

(** [pos] is a number that is neither below [lo] nor above [hi]. *)
Definition within (pos : F32.t) (lo hi : Z) : Prop :=
  F32.is_nan pos = false /\
  F32.ltb pos (F32.of_Z lo) = false /\ F32.ltb (F32.of_Z hi) pos = false.

Lemma limit_within (pos : F32.t) (lo hi : Z) :
  Int.is_s16 lo -> Int.is_s16 hi -> lo <= hi -> F32.is_nan pos = false ->
  within (limit pos lo hi) lo hi.
Proof.
  intros Hlo Hhi Hle Hnan. unfold within, limit, F32.clamp.
  destruct (F32.ltb pos (F32.of_Z lo)) eqn:E1.
  - split; [apply of_Z_not_nan; assumption|].
    split; [apply ltb_irrefl | apply of_Z_not_less; assumption].
  - destruct (F32.ltb (F32.of_Z hi) pos) eqn:E2.
    + split; [apply of_Z_not_nan; assumption|].
      split; [apply of_Z_not_less; assumption | apply ltb_irrefl].
    + auto.
Qed.

Lemma limit_inside (pos : F32.t) (lo hi : Z) :
  within pos lo hi -> limit pos lo hi = pos.
Proof.
  intros (_ & E1 & E2). unfold limit, F32.clamp. rewrite E1, E2. reflexivity.
Qed.

(** X22.  When the range of the application is not empty (minimum not
    above maximum on each axis) and the position is a number,
    [limit_coordinates] leaves a position that is neither below the
    minimum nor above the maximum on each axis; a position that already is
    inside the range is not changed, so that limiting twice is the same as
    limiting once. *)
Theorem limit_coordinates_in_range (w : World) :
  Int.is_s16 (State.minpos_x (state w)) -> Int.is_s16 (State.maxpos_x (state w)) ->
  Int.is_s16 (State.minpos_y (state w)) -> Int.is_s16 (State.maxpos_y (state w)) ->
  State.minpos_x (state w) <= State.maxpos_x (state w) ->
  State.minpos_y (state w) <= State.maxpos_y (state w) ->
  F32.is_nan (World.pos_x w) = false -> F32.is_nan (World.pos_y w) = false ->
  let w' := limit_coordinates w in
  within (World.pos_x w') (State.minpos_x (state w)) (State.maxpos_x (state w)) /\
  within (World.pos_y w') (State.minpos_y (state w)) (State.maxpos_y (state w)) /\
  (within (World.pos_x w) (State.minpos_x (state w)) (State.maxpos_x (state w)) ->
   World.pos_x w' = World.pos_x w) /\
  (within (World.pos_y w) (State.minpos_y (state w)) (State.maxpos_y (state w)) ->
   World.pos_y w' = World.pos_y w) /\
  limit_coordinates w' = w'.
Proof.
  intros Hx1 Hx2 Hy1 Hy2 Hx Hy Nx Ny w'.
  assert (Ex : World.pos_x w'
               = limit (World.pos_x w) (State.minpos_x (state w)) (State.maxpos_x (state w)))
    by reflexivity.
  assert (Ey : World.pos_y w'
               = limit (World.pos_y w) (State.minpos_y (state w)) (State.maxpos_y (state w)))
    by reflexivity.
  assert (Es : state w' = state w) by reflexivity.
  pose proof (limit_within _ _ _ Hx1 Hx2 Hx Nx) as Wx.
  pose proof (limit_within _ _ _ Hy1 Hy2 Hy Ny) as Wy.
  rewrite <- Ex in Wx. rewrite <- Ey in Wy.
  split; [exact Wx|]. split; [exact Wy|].
  split; [intros I; rewrite Ex; apply limit_inside, I|].
  split; [intros I; rewrite Ey; apply limit_inside, I|].
  rewrite <- Es in Wx, Wy.
  clearbody w'. unfold limit_coordinates.
  cbn [World.state World.pos_x World.pos_y World.set_pos_x World.set_pos_y].
  change (World.state (World.set_pos_x ?v w')) with (state w').
  rewrite (limit_inside _ _ _ Wx).
  change (World.pos_y (World.set_pos_x ?v w')) with (World.pos_y w').
  rewrite (limit_inside _ _ _ Wy).
  destruct w'; reflexivity.
Qed.

Definition cursor_outside : World :=
  World.set_pos_x (F32.of_Z 1000) (Machine.booted Machine.text).

Lemma limit_coordinates_in_range_witness :
  let w := cursor_outside in
  let w' := limit_coordinates w in
  within (World.pos_x w') (State.minpos_x (state w)) (State.maxpos_x (state w)) /\
  within (World.pos_y w') (State.minpos_y (state w)) (State.maxpos_y (state w)) /\
  (within (World.pos_x w) (State.minpos_x (state w)) (State.maxpos_x (state w)) ->
   World.pos_x w' = World.pos_x w) /\
  (within (World.pos_y w) (State.minpos_y (state w)) (State.maxpos_y (state w)) ->
   World.pos_y w' = World.pos_y w) /\
  limit_coordinates w' = w'.
Proof.
  intros w.
  apply (limit_coordinates_in_range w); vm_compute;
    try reflexivity; try (split; discriminate); discriminate.
Defined.

(** ** The wheel extension *)

Lemma int33_03 (C : Collaborators) (w : World) :
  Regs.ax (regs w) = 0x03 ->
  int33_handler C w
  = (let w := on_regs (Regs.set_bl (World.buttons w)) w in
     let '(v, w) := get_reset_wheel_8bit w in
     let w := on_regs (Regs.set_bh v) w in
     let w := set_reg_cx (get_pos_x w) w in
     set_reg_dx (get_pos_y w) w).
Proof. intros H. unfold int33_handler. rewrite H. reflexivity. Qed.

Lemma int33_11 (C : Collaborators) (w : World) :
  Regs.ax (regs w) = 0x11 ->
  int33_handler C w
  = World.set_counter_w 0
      (on_state (State.set_wheel_api true)
         (set_reg_cx 1 (set_reg_bx 0 (set_reg_ax 0x574d w)))).
Proof. intros H. unfold int33_handler. rewrite H. reflexivity. Qed.

Lemma high_byte_with_high_byte (w b : Z) :
  Int.high_byte (Int.with_high_byte w b) = b mod 256.
Proof.
  unfold Int.high_byte, Int.with_high_byte, Int.low_byte.
  pose proof (Z.mod_pos_bound w 256 ltac:(lia)).
  pose proof (Z.mod_pos_bound b 256 ltac:(lia)).
  rewrite Z.add_comm, Z.div_add by lia.
  rewrite (Z.div_small (w mod 256)) by lia.
  rewrite Z.add_0_l. apply Z.mod_small. lia.
Qed.

Lemma low_byte_with_low_byte (w b : Z) :
  Int.low_byte (Int.with_low_byte w b) = b mod 256.
Proof.
  unfold Int.low_byte, Int.with_low_byte.
  rewrite Z.add_comm, Z.mod_add by lia. apply Z.mod_mod. lia.
Qed.

(** X23.  While the wheel extension is off, the wheel does not exist for
    the guest: [MOUSEDOS_NotifyWheel] reports that no event is needed and
    records nothing, whatever the movement, and function 0x03 returns
    BH = 0 without touching the wheel counter.  Function 0x11 switches the
    extension on: it answers AX = 0x574d, BX = 0, CX = 1 and zeroes the
    counter, and from then on a movement that is not zero, fits into 8 bits
    and meets no earlier pending movement is reported as an event. *)
Theorem wheel_needs_extension (C : Collaborators) (t : Z) (w : World) :
  State.wheel_api (state w) = false ->
  let w3 := int33_handler C (set_reg_ax 0x03 w) in
  let w11 := int33_handler C (set_reg_ax 0x11 w) in
  MOUSEDOS_NotifyWheel C t w = (false, w) /\
  Regs.bh (regs w3) = 0 /\ World.counter_w w3 = World.counter_w w /\
  State.wheel_api (state w11) = true /\ World.counter_w w11 = 0 /\
  Regs.ax (regs w11) = 0x574d /\ Regs.bx (regs w11) = 0 /\ Regs.cx (regs w11) = 1 /\
  (Pending.w_rel (World.pending w) = 0 -> -128 <= t <= 127 -> t <> 0 ->
   fst (MOUSEDOS_NotifyWheel C t w11) = true /\
   Pending.w_rel (World.pending (snd (MOUSEDOS_NotifyWheel C t w11)))
   = (if dos_immediate C then 0 else t)).
Proof.
  intros Hoff w3 w11.
  assert (E3 : w3 = set_reg_dx (get_pos_y w)
                      (set_reg_cx (get_pos_x w)
                         (on_regs (Regs.set_bh 0)
                            (on_regs (Regs.set_bl (World.buttons w)) (set_reg_ax 0x03 w))))).
  { subst w3. rewrite int33_03 by reflexivity. cbv zeta.
    unfold get_reset_wheel_8bit.
    change (State.wheel_api (state (on_regs ?f (set_reg_ax 3 w))))
      with (State.wheel_api (state w)).
    rewrite Hoff. reflexivity. }
  assert (E11 : w11 = World.set_counter_w 0
                        (on_state (State.set_wheel_api true)
                           (set_reg_cx 1 (set_reg_bx 0 (set_reg_ax 0x574d w))))).
  { subst w11. rewrite int33_11 by reflexivity. reflexivity. }
  clearbody w3 w11.
  split. { unfold MOUSEDOS_NotifyWheel. rewrite Hoff. reflexivity. }
  split. { rewrite E3. unfold Regs.bh. cbn [regs World.regs set_reg_dx set_reg_cx on_regs
             World.on_regs World.set_regs Regs.bx Regs.set_dx Regs.set_cx Regs.set_bh Regs.set_bx].
           apply high_byte_with_high_byte. }
  split. { rewrite E3. reflexivity. }
  assert (Ha : State.wheel_api (state w11) = true) by (rewrite E11; reflexivity).
  assert (Hc : World.counter_w w11 = 0) by (rewrite E11; reflexivity).
  split; [exact Ha|]. split; [exact Hc|].
  split. { rewrite E11. reflexivity. }
  split. { rewrite E11. reflexivity. }
  split. { rewrite E11. reflexivity. }
  intros Hp Ht Hnz.
  assert (Hw : Pending.w_rel (World.pending w11) = 0) by (rewrite E11; exact Hp).
  clear E3 E11.
  assert (Hcl : clamp_to_int8 t = t).
  { unfold clamp_to_int8, Int.clamp, Int.INT8_MIN, Int.INT8_MAX.
    destruct (Z.ltb_spec t (-128)); [lia|].
    destruct (Z.ltb_spec 127 t); [lia|reflexivity]. }
  unfold MOUSEDOS_NotifyWheel. rewrite Ha. cbn [negb].
  set (wp := World.on_pending _ w11).
  assert (Hwp : Pending.w_rel (World.pending wp) = t).
  { subst wp.
    cbn [World.pending World.on_pending World.set_pending Pending.w_rel Pending.set_w_rel].
    rewrite Hw, Z.add_0_l. exact Hcl. }
  assert (Hcp : World.counter_w wp = 0) by exact Hc.
  clearbody wp. rewrite Hwp.
  destruct (Z.eqb_spec t 0) as [|_]; [contradiction|].
  destruct (dos_immediate C); [|split; [reflexivity|exact Hwp]].
  unfold move_wheel.
  cbn [World.counter_w World.on_pending World.set_pending World.set_counter_w
       World.pending Pending.w_rel Pending.set_w_rel on_state World.on_state
       World.set_state].
  rewrite Hcp, Hwp, Z.add_0_l, Hcl.
  destruct (Z.eqb_spec t 0) as [|_]; [contradiction|].
  split; reflexivity.
Qed.

Definition wheel_off : World := Machine.booted Machine.text.

Lemma wheel_needs_extension_witness :
  let C := Machine.text in
  let t := 3 in
  let w := wheel_off in
  let w3 := int33_handler C (set_reg_ax 0x03 w) in
  let w11 := int33_handler C (set_reg_ax 0x11 w) in
  MOUSEDOS_NotifyWheel C 300 w = (false, w) /\
  MOUSEDOS_NotifyWheel C t w = (false, w) /\
  Regs.bh (regs w3) = 0 /\ World.counter_w w3 = World.counter_w w /\
  State.wheel_api (state w11) = true /\ World.counter_w w11 = 0 /\
  Regs.ax (regs w11) = 0x574d /\ Regs.bx (regs w11) = 0 /\ Regs.cx (regs w11) = 1 /\
  fst (MOUSEDOS_NotifyWheel C t w11) = true /\
  Pending.w_rel (World.pending (snd (MOUSEDOS_NotifyWheel C t w11)))
  = (if dos_immediate C then 0 else t).
Proof.
  intros C t w.
  assert (Hoff : State.wheel_api (state w) = false) by (vm_compute; reflexivity).
  split; [exact (proj1 (wheel_needs_extension C 300 w Hoff))|].
  destruct (wheel_needs_extension C t w Hoff)
    as (H1 & H2 & H3 & H4 & H5 & H6 & H7 & H8 & Hon).
  destruct Hon as [H9 H10];
    [vm_compute; reflexivity | subst t; lia | subst t; lia |].
  repeat (split; [assumption|]). assumption.
Defined.

(** ** Serial mouse model names *)

Ltac in_models :=
  unfold MouseConfig.list_models_com; simpl;
  solve [ repeat ((left; reflexivity) || right) ].

Ltac known_model :=
  vm_compute;
  split;
  [ split; [ discriminate | intros H; exfalso; apply H; in_models ]
  | split; [ intros m a E; injection E as <- <-; reflexivity | discriminate ] ].

(** X24.  [ParseSerialModel] accepts exactly the seven names of
    [list_models_com].  For an accepted name the [set_model_com] lambda of
    the configuration reader stores the same model and the same
    auto-detection flag as [ParseSerialModel] returns; for any other string
    it keeps the model it was given but still clears the flag. *)
Theorem serial_model_names (model_str : string)
    (model_var : MouseConfig.MouseModelCOM) (model_auto : bool) :
  (MouseConfig.ParseSerialModel model_str = None
   <-> ~ In model_str MouseConfig.list_models_com) /\
  (forall m a, MouseConfig.ParseSerialModel model_str = Some (m, a) ->
               MouseConfig.set_model_com model_str model_var model_auto = (m, a)) /\
  (MouseConfig.ParseSerialModel model_str = None ->
   MouseConfig.set_model_com model_str model_var model_auto = (model_var, false)).
Proof.
  destruct (String.eqb_spec model_str "2button") as [->|N0]; [known_model|].
  destruct (String.eqb_spec model_str "3button") as [->|N1]; [known_model|].
  destruct (String.eqb_spec model_str "wheel") as [->|N2]; [known_model|].
  destruct (String.eqb_spec model_str "msm") as [->|N3]; [known_model|].
  destruct (String.eqb_spec model_str "2button+msm") as [->|N4]; [known_model|].
  destruct (String.eqb_spec model_str "3button+msm") as [->|N5]; [known_model|].
  destruct (String.eqb_spec model_str "wheel+msm") as [->|N6]; [known_model|].
  apply String.eqb_neq in N0, N1, N2, N3, N4, N5, N6.
  unfold MouseConfig.ParseSerialModel, MouseConfig.set_model_com, MouseConfig.model_name,
    MouseConfig.list_models_com.
  cbn [nth]. rewrite N0, N1, N2, N3, N4, N5, N6. cbn [orb].
  apply String.eqb_neq in N0, N1, N2, N3, N4, N5, N6.
  split; [split; [intros _ H|reflexivity]|split; [discriminate|reflexivity]].
  simpl in H. intuition congruence.
Qed.

(** ** Nested hide and show calls *)

Lemma hidden_after_hides (C : Collaborators) (n : nat) (w : World) :
  Int.is_u16 (State.hidden (state w)) ->
  State.hidden (state (Nat.iter n (hide C) w))
  = Int.u16 (State.hidden (state w) + Z.of_nat n).
Proof.
  intros H. induction n as [|n IH].
  - change (Nat.iter 0 (hide C) w) with w. rewrite Z.add_0_r, u16_id by exact H.
    reflexivity.
  - change (Nat.iter (S n) (hide C) w) with (hide C (Nat.iter n (hide C) w)).
    rewrite hidden_after_hide, IH. unfold Int.u16.
    rewrite Zplus_mod_idemp_l. f_equal. lia.
Qed.

Lemma hidden_after_shows (C : Collaborators) (m : nat) (w : World) :
  Int.is_u16 (State.hidden (state w)) ->
  State.hidden (state (Nat.iter m (show C) w))
  = Z.max 0 (State.hidden (state w) - Z.of_nat m).
Proof.
  unfold Int.is_u16. intros H. induction m as [|m IH].
  - change (Nat.iter 0 (show C) w) with w. lia.
  - change (Nat.iter (S m) (show C) w) with (show C (Nat.iter m (show C) w)).
    rewrite hidden_after_show by (unfold Int.is_u16; rewrite IH; lia).
    rewrite IH. lia.
Qed.

(** X25.  Hide and show calls nest.  [n] calls of function 0x02 raise
    the hidden counter by [n] modulo 2^16 (the counter is 16 bits wide and
    wraps), [m] calls of function 0x01 lower it by [m] but never below
    zero, and as long as the counter does not wrap, [n] hide calls followed
    by [n] show calls leave it where it was. *)
Theorem hide_show_nesting (C : Collaborators) (n m : nat) (w : World) :
  Int.is_u16 (State.hidden (state w)) ->
  State.hidden (state (Nat.iter n (hide C) w))
  = Int.u16 (State.hidden (state w) + Z.of_nat n) /\
  State.hidden (state (Nat.iter m (show C) w))
  = Z.max 0 (State.hidden (state w) - Z.of_nat m) /\
  (State.hidden (state w) + Z.of_nat n <= 65535 ->
   State.hidden (state (Nat.iter n (show C) (Nat.iter n (hide C) w)))
   = State.hidden (state w)).
Proof.
  intros H.
  assert (Hh : State.hidden (state (Nat.iter n (hide C) w))
               = Int.u16 (State.hidden (state w) + Z.of_nat n))
    by (apply hidden_after_hides, H).
  split; [exact Hh|]. split; [apply hidden_after_shows, H|].
  intros Hn. unfold Int.is_u16 in H.
  rewrite hidden_after_shows; rewrite Hh; unfold Int.is_u16, Int.u16;
    rewrite Z.mod_small by lia; lia.
Qed.

Lemma hide_show_nesting_witness :
  let C := Machine.text in
  let n := 3%nat in
  let m := 5%nat in
  let w := Machine.booted Machine.text in
  State.hidden (state (Nat.iter n (hide C) w))
  = Int.u16 (State.hidden (state w) + Z.of_nat n) /\
  State.hidden (state (Nat.iter m (show C) w))
  = Z.max 0 (State.hidden (state w) - Z.of_nat m) /\
  (State.hidden (state w) + Z.of_nat n <= 65535 ->
   State.hidden (state (Nat.iter n (show C) (Nat.iter n (hide C) w)))
   = State.hidden (state w)).
Proof.
  intros C n m w.
  apply (hide_show_nesting C n m w). vm_compute. split; discriminate.
Defined.

(** ** The state after a reset *)

(** The world [reset] has reached once the video mode is set up. *)
Definition reset_mode_set (C : Collaborators) (w : World) : World :=
  MOUSEDOS_AfterNewVideoMode C false
    (MOUSEDOS_BeforeNewVideoMode C
       (World.on_pending Pending.Reset (World.set_counter_w 0 w))).

(** What [reset] does after the video mode is set up. *)
Definition reset_defaults (w : World) : World :=
  let w := set_mickey_pixel_rate 8 16 w in
  let w := set_double_speed_threshold 0 w in
  let w := on_state (State.set_enabled true) w in
  let w := World.set_pos_x (F32.of_Z (Z.quot (State.maxpos_x (state w) + 1) 2)) w in
  let w := World.set_pos_y (F32.of_Z (Z.quot (State.maxpos_y (state w) + 1) 2)) w in
  let w :=
    on_state
      (fun s =>
         let s := State.set_mickey_counter_x 0 s in
         let s := State.set_mickey_counter_y 0 s in
         let s := State.set_mickey_delta_x F32.zero s in
         let s := State.set_mickey_delta_y F32.zero s in
         let s := State.set_last_wheel_moved_x 0 s in
         State.set_last_wheel_moved_y 0 s) w in
  let w :=
    for_range 0 (num_buttons - 1)
      (fun idx w =>
         on_state
           (fun s =>
              let s := State.set_times_pressed (aset (State.times_pressed s) idx 0) s in
              let s := State.set_times_released (aset (State.times_released s) idx 0) s in
              let s := State.set_last_pressed_x (aset (State.last_pressed_x s) idx 0) s in
              let s := State.set_last_pressed_y (aset (State.last_pressed_y s) idx 0) s in
              let s := State.set_last_released_x (aset (State.last_released_x s) idx 0) s in
              State.set_last_released_y (aset (State.last_released_y s) idx 0) s) w)
      w in
  let w := on_state (State.set_user_callback_mask 0) w in
  let w := World.set_dos_cb_running false w in
  let w := update_driver_active w in
  MOUSE_NotifyResetDOS w.

Lemma reset_in_two_steps (C : Collaborators) (w : World) :
  reset C w = reset_defaults (reset_mode_set C w).
Proof. reflexivity. Qed.

(** The six arrays of the button records. *)
Definition button_arrays (s : State.t) : list (list Z) :=
  [State.times_pressed s; State.times_released s; State.last_pressed_x s;
   State.last_pressed_y s; State.last_released_x s; State.last_released_y s].

(** What the video mode setup does not touch. *)
Definition beside_mode_set (w : World) : list (list Z) * Pending.t * Z :=
  (button_arrays (state w), World.pending w, World.counter_w w).

Lemma beside_mode_set_BeforeNewVideoMode (C : Collaborators) (w : World) :
  beside_mode_set (MOUSEDOS_BeforeNewVideoMode C w) = beside_mode_set w.
Proof.
  unfold MOUSEDOS_BeforeNewVideoMode.
  destruct (mode_type _).
  - change (beside_mode_set (restore_cursor_background_text C w) = beside_mode_set w).
    apply (render_only_keeps beside_mode_set);
      [reflexivity | apply render_only_restore_text].
  - change (beside_mode_set (restore_cursor_background C w) = beside_mode_set w).
    apply (render_only_keeps beside_mode_set);
      [reflexivity | apply render_only_restore_background].
Qed.

Lemma beside_mode_set_AfterNewVideoMode (C : Collaborators) (b : bool) (w : World) :
  beside_mode_set (MOUSEDOS_AfterNewVideoMode C b w) = beside_mode_set w.
Proof.
  unfold MOUSEDOS_AfterNewVideoMode. cbv zeta.
  destruct (video_mode_geometry _ _) as [[[my gx] gy]|];
    destruct (b && _); reflexivity.
Qed.

Lemma beside_mode_set_reset_mode_set (C : Collaborators) (w : World) :
  beside_mode_set (reset_mode_set C w)
  = (button_arrays (state w), Pending.Reset (World.pending w), 0).
Proof.
  unfold reset_mode_set.
  rewrite beside_mode_set_AfterNewVideoMode, beside_mode_set_BeforeNewVideoMode.
  reflexivity.
Qed.

Lemma zeroed_array (l : list Z) (i : Z) :
  length l = 3%nat -> 0 <= i < 3 ->
  aget (aset (aset (aset l 0 0) 1 0) 2 0) i = 0.
Proof.
  intros Hl Hi.
  destruct l as [|a [|b [|c [|d l]]]]; try discriminate.
  assert (i = 0 \/ i = 1 \/ i = 2) as [->|[->| ->]] by lia; reflexivity.
Qed.

Lemma button_record_reset_defaults (w : World) (i : Z) :
  well_formed_buttons (state w) -> 0 <= i < 3 ->
  button_record (state (reset_defaults w)) i = ((0, 0, 0), (0, 0, 0)).
Proof.
  intros (H1 & H2 & H3 & H4 & H5 & H6) Hi.
  unfold button_record.
  change (State.times_pressed (state (reset_defaults w)))
    with (aset (aset (aset (State.times_pressed (state w)) 0 0) 1 0) 2 0).
  change (State.times_released (state (reset_defaults w)))
    with (aset (aset (aset (State.times_released (state w)) 0 0) 1 0) 2 0).
  change (State.last_pressed_x (state (reset_defaults w)))
    with (aset (aset (aset (State.last_pressed_x (state w)) 0 0) 1 0) 2 0).
  change (State.last_pressed_y (state (reset_defaults w)))
    with (aset (aset (aset (State.last_pressed_y (state w)) 0 0) 1 0) 2 0).
  change (State.last_released_x (state (reset_defaults w)))
    with (aset (aset (aset (State.last_released_x (state w)) 0 0) 1 0) 2 0).
  change (State.last_released_y (state (reset_defaults w)))
    with (aset (aset (aset (State.last_released_y (state w)) 0 0) 1 0) 2 0).
  rewrite !zeroed_array by assumption. reflexivity.
Qed.

(** The settings and counters [reset] gives a default. *)
Definition motion_settings (w : World)
    : (Z * Z * F32.t * F32.t) * (F32.t * F32.t * Z) * (bool * Z * bool * bool)
      * (Z * Z * Z) * (F32.t * F32.t * Z) :=
  ((State.mickey_counter_x (state w), State.mickey_counter_y (state w),
    State.mickey_delta_x (state w), State.mickey_delta_y (state w)),
   (State.mickeys_per_pixel_x (state w), State.mickeys_per_pixel_y (state w),
    State.double_speed_threshold (state w)),
   (State.enabled (state w), State.user_callback_mask (state w),
    World.active_dos w, World.dos_cb_running w),
   (World.counter_w w, State.last_wheel_moved_x (state w),
    State.last_wheel_moved_y (state w)),
   (Pending.x_rel (World.pending w), Pending.y_rel (World.pending w),
    Pending.w_rel (World.pending w))).

Lemma motion_settings_reset_defaults (w : World) :
  motion_settings (reset_defaults w)
  = ((0, 0, F32.zero, F32.zero),
     (F32.div (F32.of_Z 8) (F32.of_Z 8), F32.div (F32.of_Z 16) (F32.of_Z 8), 64),
     (true, 0, false, false),
     (World.counter_w w, 0, 0),
     (Pending.x_rel (World.pending w), Pending.y_rel (World.pending w),
      Pending.w_rel (World.pending w))).
Proof. reflexivity. Qed.

Lemma position_reset_defaults (w : World) :
  World.pos_x (reset_defaults w) = F32.of_Z (Z.quot (State.maxpos_x (state w) + 1) 2) /\
  World.pos_y (reset_defaults w) = F32.of_Z (Z.quot (State.maxpos_y (state w) + 1) 2) /\
  State.maxpos_x (state (reset_defaults w)) = State.maxpos_x (state w) /\
  State.maxpos_y (state (reset_defaults w)) = State.maxpos_y (state w).
Proof. repeat split. Qed.

(** X26.  After [reset] (functions 0x00 and 0x21) the mickey counters
    and their remainders are zero, the mickeys-per-pixel ratios are 8/8
    and 16/8, the double-speed threshold is 64, the driver is enabled, no
    event handler is registered (mask 0, driver not active, no callback in
    flight), the wheel counter and the pending movements are zero, the
    cursor is at the centre [(max + 1) / 2] of the range of each axis, and
    the press and release records of the three buttons are all zero. *)
Theorem reset_gives_defaults (C : Collaborators) (w : World) (i : Z) :
  well_formed_buttons (state w) -> 0 <= i < 3 ->
  let w' := reset C w in
  motion_settings w'
  = ((0, 0, F32.zero, F32.zero),
     (F32.div (F32.of_Z 8) (F32.of_Z 8), F32.div (F32.of_Z 16) (F32.of_Z 8), 64),
     (true, 0, false, false), (0, 0, 0), (F32.zero, F32.zero, 0)) /\
  World.pos_x w' = F32.of_Z (Z.quot (State.maxpos_x (state w') + 1) 2) /\
  World.pos_y w' = F32.of_Z (Z.quot (State.maxpos_y (state w') + 1) 2) /\
  button_record (state w') i = ((0, 0, 0), (0, 0, 0)) /\
  well_formed_buttons (state w').
Proof.
  intros Hwf Hi w'. subst w'. rewrite reset_in_two_steps.
  pose proof (beside_mode_set_reset_mode_set C w) as Hb.
  set (wm := reset_mode_set C w) in *. clearbody wm.
  unfold beside_mode_set, button_arrays in Hb.
  injection Hb as B1 B2 B3 B4 B5 B6 Hp Hc.
  assert (Hwm : well_formed_buttons (state wm)).
  { unfold well_formed_buttons. rewrite B1, B2, B3, B4, B5, B6. exact Hwf. }
  split.
  { rewrite motion_settings_reset_defaults, Hc, Hp. reflexivity. }
  destruct (position_reset_defaults wm) as (Px & Py & Mx & My).
  split; [rewrite Px, Mx; reflexivity|].
  split; [rewrite Py, My; reflexivity|].
  split; [apply button_record_reset_defaults; assumption|].
  destruct Hwm as (H1 & H2 & H3 & H4 & H5 & H6).
  unfold well_formed_buttons.
  change (State.times_pressed (state (reset_defaults wm)))
    with (aset (aset (aset (State.times_pressed (state wm)) 0 0) 1 0) 2 0).
  change (State.times_released (state (reset_defaults wm)))
    with (aset (aset (aset (State.times_released (state wm)) 0 0) 1 0) 2 0).
  change (State.last_pressed_x (state (reset_defaults wm)))
    with (aset (aset (aset (State.last_pressed_x (state wm)) 0 0) 1 0) 2 0).
  change (State.last_pressed_y (state (reset_defaults wm)))
    with (aset (aset (aset (State.last_pressed_y (state wm)) 0 0) 1 0) 2 0).
  change (State.last_released_x (state (reset_defaults wm)))
    with (aset (aset (aset (State.last_released_x (state wm)) 0 0) 1 0) 2 0).
  change (State.last_released_y (state (reset_defaults wm)))
    with (aset (aset (aset (State.last_released_y (state wm)) 0 0) 1 0) 2 0).
  rewrite !length_aset. repeat split; assumption.
Qed.

Definition after_some_use : World :=
  on_state (State.set_mickey_counter_x 17) (Machine.booted Machine.text).

Lemma reset_gives_defaults_witness :
  let C := Machine.text in
  let w := after_some_use in
  let i := 1 in
  let w' := reset C w in
  motion_settings w'
  = ((0, 0, F32.zero, F32.zero),
     (F32.div (F32.of_Z 8) (F32.of_Z 8), F32.div (F32.of_Z 16) (F32.of_Z 8), 64),
     (true, 0, false, false), (0, 0, 0), (F32.zero, F32.zero, 0)) /\
  World.pos_x w' = F32.of_Z (Z.quot (State.maxpos_x (state w') + 1) 2) /\
  World.pos_y w' = F32.of_Z (Z.quot (State.maxpos_y (state w') + 1) 2) /\
  button_record (state w') i = ((0, 0, 0), (0, 0, 0)) /\
  well_formed_buttons (state w').
Proof.
  intros C w i.
  apply (reset_gives_defaults C w i).
  - vm_compute. repeat split.
  - lia.
Defined.

(** ** Delivery of an event to the handler of the application *)

Lemma high_byte_with_low_byte (w b : Z) :
  Int.high_byte (Int.with_low_byte w b) = Int.high_byte w.
Proof.
  unfold Int.high_byte, Int.with_low_byte.
  pose proof (Z.mod_pos_bound b 256 ltac:(lia)).
  rewrite Z.add_comm, Z.div_add by lia.
  rewrite (Z.div_small (b mod 256)) by lia.
  rewrite Z.add_0_l. apply Z.mod_mod. lia.
Qed.

Lemma low_byte_with_high_byte (w b : Z) :
  Int.low_byte (Int.with_high_byte w b) = Int.low_byte w.
Proof.
  unfold Int.low_byte, Int.with_high_byte, Int.low_byte.
  rewrite Z.add_comm, Z.mod_add by lia. apply Z.mod_mod. lia.
Qed.

Lemma state_on_regs (f : Regs.t -> Regs.t) (w : World) :
  state (on_regs f w) = state w.
Proof. reflexivity. Qed.

Lemma regs_on_regs (f : Regs.t -> Regs.t) (w : World) :
  regs (on_regs f w) = f (regs w).
Proof. reflexivity. Qed.

Lemma get_pos_x_on_regs (f : Regs.t -> Regs.t) (w : World) :
  get_pos_x (on_regs f w) = get_pos_x w.
Proof. reflexivity. Qed.

Lemma get_pos_y_on_regs (f : Regs.t -> Regs.t) (w : World) :
  get_pos_y (on_regs f w) = get_pos_y w.
Proof. reflexivity. Qed.

Lemma counter_w_on_regs (f : Regs.t -> Regs.t) (w : World) :
  World.counter_w (on_regs f w) = World.counter_w w.
Proof. reflexivity. Qed.

Lemma dos_cb_running_on_regs (f : Regs.t -> Regs.t) (w : World) :
  World.dos_cb_running (on_regs f w) = World.dos_cb_running w.
Proof. reflexivity. Qed.

(** The wheel byte of a callback, and the wheel counter after it. *)
Definition callback_wheel (mask : Z) (w : World) : Z * Z :=
  if negb (Z.land mask 1 =? 0) && State.wheel_api (state w)
  then (signed_to_reg8 (World.counter_w w), 0)
  else (0, World.counter_w w).

(** X27.  [MOUSEDOS_DoCallback] marks a callback as running and gives
    the handler of the application: AL = the event mask, AH = 1 exactly
    for a movement while the mouse is not captured, BL = the buttons,
    CX, DX = the cursor position, SI, DI = the mickey counters in two's
    complement, and on the stack the return address followed by the
    address of the handler.  BH is the wheel counter, read and cleared, if
    bit 0 of the mask is set and the wheel extension is on, and 0
    otherwise: as the movement of the mouse and of the wheel share this
    bit, every movement event consumes the wheel counter.  The driver
    state is not changed, and [user_callback_handler] ends the callback. *)
Theorem callback_registers (C : Collaborators) (user_callback : Z * Z)
    (mask buttons_12S : Z) (w : World) :
  Int.is_u8 mask -> Int.is_u8 buttons_12S ->
  let r := MOUSEDOS_DoCallback C user_callback mask buttons_12S w in
  let w' := snd r in
  fst r = [fst user_callback; snd user_callback;
           State.user_callback_segment (state w); State.user_callback_offset (state w)] /\
  World.dos_cb_running w' = true /\
  World.dos_cb_running (user_callback_handler w') = false /\
  Regs.al (regs w') = mask /\
  Int.high_byte (Regs.ax (regs w'))
  = (if negb (is_captured C w) && negb (Z.land mask 1 =? 0) then 1 else 0) /\
  Regs.bl (regs w') = buttons_12S /\
  Regs.bh (regs w') = fst (callback_wheel mask w) mod 256 /\
  World.counter_w w' = snd (callback_wheel mask w) /\
  Regs.cx (regs w') = get_pos_x w /\ Regs.dx (regs w') = get_pos_y w /\
  Regs.si (regs w') = signed_to_reg16 (State.mickey_counter_x (state w)) /\
  Regs.di (regs w') = signed_to_reg16 (State.mickey_counter_y (state w)) /\
  state w' = state w.
Proof.
  intros Hm Hb r w'. subst w' r.
  unfold MOUSEDOS_DoCallback, callback_wheel, get_reset_wheel_8bit.
  change MouseEventId.MouseHasMoved with 1. change MouseEventId.WheelHasMoved with 1.
  cbv zeta.
  set (moved := negb (Z.land mask 1 =? 0)).
  set (ah := if negb (is_captured C (World.set_dos_cb_running true w)) && moved
             then 1 else 0).
  assert (Hah : ah = if negb (is_captured C w) && moved then 1 else 0) by reflexivity.
  assert (Hah' : ah mod 256 = ah)
    by (rewrite Hah; destruct (negb (is_captured C w) && moved); reflexivity).
  clearbody ah.
  set (w1 := on_regs (Regs.set_bl buttons_12S)
               (on_regs (Regs.set_al mask)
                  (on_regs (fun r => Regs.set_ax (Int.with_high_byte (Regs.ax r) ah) r)
                     (World.set_dos_cb_running true w)))).
  assert (Hs1 : state w1 = state w) by reflexivity.
  assert (Hc1 : World.counter_w w1 = World.counter_w w) by reflexivity.
  assert (Hax : Regs.ax (regs w1)
                = Int.with_low_byte (Int.with_high_byte (Regs.ax (regs w)) ah) mask)
    by reflexivity.
  assert (Hbx : Regs.bx (regs w1) = Int.with_low_byte (Regs.bx (regs w)) buttons_12S)
    by reflexivity.
  assert (Hpx : get_pos_x w1 = get_pos_x w) by reflexivity.
  assert (Hpy : get_pos_y w1 = get_pos_y w) by reflexivity.
  assert (Hr1 : World.dos_cb_running w1 = true) by reflexivity.
  clearbody w1.
  set (v := fst (if moved && State.wheel_api (state w)
                 then (signed_to_reg8 (World.counter_w w), 0)
                 else (0, World.counter_w w))).
  assert (E : (if moved
               then if negb (State.wheel_api (state w1)) then (0, w1)
                    else (signed_to_reg8 (World.counter_w w1), World.set_counter_w 0 w1)
               else (0, w1))
              = (v, if moved && State.wheel_api (state w)
                    then World.set_counter_w 0 w1 else w1)).
  { subst v. rewrite Hs1, Hc1. destruct moved, (State.wheel_api (state w)); reflexivity. }
  rewrite E. clear E.
  set (w2 := if moved && State.wheel_api (state w) then World.set_counter_w 0 w1 else w1).
  assert (Hs2 : state w2 = state w)
    by (subst w2; destruct (moved && _); exact Hs1).
  assert (Hr2 : regs w2 = regs w1) by (subst w2; destruct (moved && _); reflexivity).
  assert (Hc2 : World.counter_w w2
                = snd (if moved && State.wheel_api (state w)
                       then (signed_to_reg8 (World.counter_w w), 0)
                       else (0, World.counter_w w)))
    by (subst w2; destruct (moved && _); [reflexivity|exact Hc1]).
  assert (Hpx2 : get_pos_x w2 = get_pos_x w)
    by (subst w2; destruct (moved && _); exact Hpx).
  assert (Hpy2 : get_pos_y w2 = get_pos_y w)
    by (subst w2; destruct (moved && _); exact Hpy).
  assert (Hrun2 : World.dos_cb_running w2 = true)
    by (subst w2; destruct (moved && _); exact Hr1).
  clearbody w2 v.
  cbn [fst snd]. unfold set_reg_cx, set_reg_dx, user_callback_handler.
  rewrite !state_on_regs, !get_pos_x_on_regs, !get_pos_y_on_regs, !counter_w_on_regs,
    !dos_cb_running_on_regs, !regs_on_regs.
  rewrite Hs2, Hpx2, Hpy2, Hr2.
  split; [reflexivity|]. split; [exact Hrun2|]. split; [reflexivity|].
  unfold Regs.al, Regs.bl, Regs.bh.
  cbn [Regs.ax Regs.bx Regs.cx Regs.dx Regs.si Regs.di
       Regs.set_ax Regs.set_bx Regs.set_cx Regs.set_dx Regs.set_si Regs.set_di
       Regs.set_bh].
  rewrite Hax, Hbx.
  unfold Int.is_u8 in Hm, Hb.
  split; [rewrite low_byte_with_low_byte; apply Z.mod_small; lia|].
  split; [rewrite high_byte_with_low_byte, high_byte_with_high_byte, Hah', Hah;
          reflexivity|].
  split; [rewrite low_byte_with_high_byte, low_byte_with_low_byte; apply Z.mod_small; lia|].
  split; [apply high_byte_with_high_byte|].
  split; [exact Hc2|].
  repeat split.
Qed.

Definition moved_with_wheel : World :=
  World.set_counter_w (-2)
    (on_state (State.set_wheel_api true) (Machine.booted Machine.text)).

Lemma callback_registers_witness :
  let C := Machine.text in
  let user_callback := (0xf000, 0x1234) in
  let mask := 1 in
  let buttons_12S := 2 in
  let w := moved_with_wheel in
  let r := MOUSEDOS_DoCallback C user_callback mask buttons_12S w in
  let w' := snd r in
  fst r = [fst user_callback; snd user_callback;
           State.user_callback_segment (state w); State.user_callback_offset (state w)] /\
  World.dos_cb_running w' = true /\
  World.dos_cb_running (user_callback_handler w') = false /\
  Regs.al (regs w') = mask /\
  Int.high_byte (Regs.ax (regs w'))
  = (if negb (is_captured C w) && negb (Z.land mask 1 =? 0) then 1 else 0) /\
  Regs.bl (regs w') = buttons_12S /\
  Regs.bh (regs w') = fst (callback_wheel mask w) mod 256 /\
  World.counter_w w' = snd (callback_wheel mask w) /\
  Regs.cx (regs w') = get_pos_x w /\ Regs.dx (regs w') = get_pos_y w /\
  Regs.si (regs w') = signed_to_reg16 (State.mickey_counter_x (state w)) /\
  Regs.di (regs w') = signed_to_reg16 (State.mickey_counter_y (state w)) /\
  state w' = state w.
Proof.
  intros C user_callback mask buttons_12S w.
  apply (callback_registers C user_callback mask buttons_12S w);
    vm_compute; split; discriminate.
Defined.

(** ** The range after a reset in a known video mode *)

Lemma video_mode_geometry_handled (mode rows : Z) :
  In mode handled_modes -> 0 <= rows <= 255 ->
  exists my gx gy,
    video_mode_geometry mode rows = Some (my, gx, gy) /\ 15 <= my <= 2007.
Proof.
  intros Hm Hr.
  assert (Ht : 15 <= Int.s16 (8 * ((if (rows =? 0) || (250 <? rows) then 24 else rows) + 1) - 1)
               <= 2007).
  { destruct (Z.eqb_spec rows 0); cbn [orb].
    - rewrite s16_id; unfold Int.is_s16; lia.
    - destruct (Z.ltb_spec 250 rows); rewrite s16_id; unfold Int.is_s16; lia. }
  unfold handled_modes in Hm. simpl in Hm.
  repeat (destruct Hm as [<-|Hm];
          [ unfold video_mode_geometry; cbn [Z.eqb Pos.eqb orb Z.ltb Z.compare Pos.compare
                                             Pos.compare_cont];
            eexists _, _, _; split; [reflexivity|first [exact Ht|lia]] | ]).
  contradiction.
Qed.

(** The range of the cursor and the flag that inhibits drawing. *)
Definition cursor_range (w : World) : Z * Z * Z * Z * bool :=
  (State.minpos_x (state w), State.maxpos_x (state w),
   State.minpos_y (state w), State.maxpos_y (state w), State.inhibit_draw (state w)).

Lemma cursor_range_AfterNewVideoMode (C : Collaborators) (setmode : bool) (w : World) :
  (forall tr, In (BIOS_VIDEO_MODE C tr) handled_modes) ->
  (forall tr, 0 <= BIOSMEM_NB_ROWS C tr <= 255) ->
  exists my, 15 <= my <= 2007 /\
    cursor_range (MOUSEDOS_AfterNewVideoMode C setmode w) = (0, 639, 0, my, false).
Proof.
  intros Hm Hr. unfold MOUSEDOS_AfterNewVideoMode. cbv zeta.
  match goal with
  | |- context [video_mode_geometry ?m ?r] =>
      assert (G : exists my gx gy,
                 video_mode_geometry m r = Some (my, gx, gy) /\ 15 <= my <= 2007)
  end.
  { apply video_mode_geometry_handled; [apply Hm|].
    destruct (IS_EGAVGA_ARCH C); [apply Hr|lia]. }
  destruct G as (my & gx & gy & -> & Hb).
  exists my. split; [exact Hb|]. destruct (setmode && _); reflexivity.
Qed.

Lemma cursor_range_reset_defaults (w : World) :
  cursor_range (reset_defaults w) = cursor_range w.
Proof. reflexivity. Qed.

Lemma within_of_Z (c lo hi : Z) :
  Int.is_s16 lo -> Int.is_s16 hi -> lo <= c <= hi -> within (F32.of_Z c) lo hi.
Proof.
  unfold Int.is_s16. intros Hlo Hhi Hc.
  assert (Int.is_s16 c) by (unfold Int.is_s16; lia).
  split; [apply of_Z_not_nan; assumption|].
  split; apply of_Z_not_less; unfold Int.is_s16; lia.
Qed.

Lemma limit_coordinates_inside (w : World) :
  within (World.pos_x w) (State.minpos_x (state w)) (State.maxpos_x (state w)) ->
  within (World.pos_y w) (State.minpos_y (state w)) (State.maxpos_y (state w)) ->
  limit_coordinates w = w.
Proof.
  intros Wx Wy. unfold limit_coordinates.
  cbn [World.state World.pos_x World.pos_y World.set_pos_x World.set_pos_y].
  rewrite (limit_inside _ _ _ Wx).
  change (World.state (World.set_pos_x (World.pos_x w) w)) with (state w).
  change (World.pos_y (World.set_pos_x (World.pos_x w) w)) with (World.pos_y w).
  rewrite (limit_inside _ _ _ Wy).
  destruct w; reflexivity.
Qed.

(** X28.  In a video mode the driver knows, with the number of text rows
    a byte, [reset] leaves the range [0, 639] on the horizontal axis and
    [0, maxpos_y] with a [maxpos_y] between 15 and 2007 on the vertical
    one, drawing not inhibited, and the cursor at the centre of this
    range: at 320 horizontally, and inside the range, so that
    [limit_coordinates] has nothing to correct. *)
Theorem reset_centres_cursor (C : Collaborators) (w : World) :
  (forall tr, In (BIOS_VIDEO_MODE C tr) handled_modes) ->
  (forall tr, 0 <= BIOSMEM_NB_ROWS C tr <= 255) ->
  let w' := reset C w in
  State.minpos_x (state w') = 0 /\ State.maxpos_x (state w') = 639 /\
  State.minpos_y (state w') = 0 /\ 15 <= State.maxpos_y (state w') <= 2007 /\
  State.inhibit_draw (state w') = false /\
  World.pos_x w' = F32.of_Z 320 /\
  World.pos_y w' = F32.of_Z (Z.quot (State.maxpos_y (state w') + 1) 2) /\
  within (World.pos_x w') 0 639 /\
  within (World.pos_y w') 0 (State.maxpos_y (state w')) /\
  limit_coordinates w' = w'.
Proof.
  intros Hm Hr w'. subst w'. rewrite reset_in_two_steps.
  destruct (cursor_range_AfterNewVideoMode C false
              (MOUSEDOS_BeforeNewVideoMode C
                 (World.on_pending Pending.Reset (World.set_counter_w 0 w))) Hm Hr)
    as (my & Hb & Hg).
  fold (reset_mode_set C w) in Hg.
  set (wm := reset_mode_set C w) in *. clearbody wm.
  rewrite <- (cursor_range_reset_defaults wm) in Hg.
  destruct (position_reset_defaults wm) as (Px & Py & Mx & My).
  rewrite <- Mx in Px. rewrite <- My in Py.
  set (w' := reset_defaults wm) in *. clearbody w'.
  unfold cursor_range in Hg. injection Hg as G1 G2 G3 G4 G5.
  rewrite G2 in Px. rewrite G4 in Py.
  assert (Wx : within (World.pos_x w') 0 639).
  { rewrite Px. apply within_of_Z; unfold Int.is_s16; try lia.
    change (Z.quot (639 + 1) 2) with 320. lia. }
  assert (Wy : within (World.pos_y w') 0 my).
  { rewrite Py. apply within_of_Z; unfold Int.is_s16; try lia.
    rewrite Z.quot_div_nonneg by lia. Z.div_mod_to_equations. lia. }
  rewrite G1, G2, G3, G4, G5.
  repeat (split; [first [reflexivity | assumption]|]).
  apply limit_coordinates_inside; rewrite ?G1, ?G2, ?G3, ?G4; assumption.
Qed.

Lemma reset_centres_cursor_witness :
  let C := Machine.text in
  let w := after_some_use in
  let w' := reset C w in
  State.minpos_x (state w') = 0 /\ State.maxpos_x (state w') = 639 /\
  State.minpos_y (state w') = 0 /\ 15 <= State.maxpos_y (state w') <= 2007 /\
  State.inhibit_draw (state w') = false /\
  World.pos_x w' = F32.of_Z 320 /\
  World.pos_y w' = F32.of_Z (Z.quot (State.maxpos_y (state w') + 1) 2) /\
  within (World.pos_x w') 0 639 /\
  within (World.pos_y w') 0 (State.maxpos_y (state w')) /\
  limit_coordinates w' = w'.
Proof.
  intros C w.
  apply (reset_centres_cursor C w).
  - intros tr. vm_compute. tauto.
  - intros tr. vm_compute. split; discriminate.
Defined.

(** ** Queries that return what was defined *)

Lemma signed_to_reg16_of_reg (r : Z) :
  Int.is_u16 r -> signed_to_reg16 (reg_to_signed16 r) = r.
Proof.
  intros Hr. rewrite reg_to_signed16_u16 by exact Hr.
  unfold Int.is_u16 in Hr. unfold signed_to_reg16, Int.u16.
  destruct (Z.leb_spec 32768 r).
  - destruct (Z.leb_spec 0 (r - 65536)); [lia|].
    rewrite Z.mod_small; lia.
  - destruct (Z.leb_spec 0 r); [|lia]. apply Z.mod_small. lia.
Qed.

(** The range of the cursor on both axes. *)
Definition range_of (w : World) : (Z * Z) * (Z * Z) :=
  ((State.minpos_x (state w), State.maxpos_x (state w)),
   (State.minpos_y (state w), State.maxpos_y (state w))).

Lemma range_after_07 (C : Collaborators) (w : World) :
  Regs.ax (regs w) = 0x07 ->
  range_of (int33_handler C w)
  = ((Z.min (reg_to_signed16 (Regs.cx (regs w))) (reg_to_signed16 (Regs.dx (regs w))),
      Z.max (reg_to_signed16 (Regs.cx (regs w))) (reg_to_signed16 (Regs.dx (regs w)))),
     snd (range_of w)).
Proof. intros H. unfold int33_handler. rewrite H. reflexivity. Qed.

Lemma range_after_08 (C : Collaborators) (w : World) :
  Regs.ax (regs w) = 0x08 ->
  range_of (int33_handler C w)
  = (fst (range_of w),
     (Z.min (reg_to_signed16 (Regs.cx (regs w))) (reg_to_signed16 (Regs.dx (regs w))),
      Z.max (reg_to_signed16 (Regs.cx (regs w))) (reg_to_signed16 (Regs.dx (regs w))))).
Proof. intros H. unfold int33_handler. rewrite H. reflexivity. Qed.

Lemma int33_31 (C : Collaborators) (w : World) :
  Regs.ax (regs w) = 0x31 ->
  int33_handler C w
  = set_reg_dx (signed_to_reg16 (State.maxpos_y (state w)))
      (set_reg_cx (signed_to_reg16 (State.maxpos_x (state w)))
         (set_reg_bx (signed_to_reg16 (State.minpos_y (state w)))
            (set_reg_ax (signed_to_reg16 (State.minpos_x (state w))) w))).
Proof. intros H. unfold int33_handler. rewrite H. reflexivity. Qed.

(** The registers in which function 0x31 returns the range. *)
Definition range_registers (w : World) : (Z * Z) * (Z * Z) :=
  ((Regs.ax (regs w), Regs.cx (regs w)), (Regs.bx (regs w), Regs.dx (regs w))).

Lemma range_registers_31 (C : Collaborators) (w : World) :
  Regs.ax (regs w) = 0x31 ->
  range_registers (int33_handler C w)
  = ((signed_to_reg16 (fst (fst (range_of w))), signed_to_reg16 (snd (fst (range_of w)))),
     (signed_to_reg16 (fst (snd (range_of w))), signed_to_reg16 (snd (snd (range_of w))))).
Proof. intros H. rewrite int33_31 by exact H. reflexivity. Qed.

Lemma range_of_on_regs (f : Regs.t -> Regs.t) (w : World) :
  range_of (on_regs f w) = range_of w.
Proof. reflexivity. Qed.

(** Two register values in the order of the signed numbers they stand
    for. *)
Definition sorted_signed (a b : Z) : Z * Z :=
  if reg_to_signed16 a <=? reg_to_signed16 b then (a, b) else (b, a).

Lemma sorted_signed_registers (a b : Z) :
  Int.is_u16 a -> Int.is_u16 b ->
  (signed_to_reg16 (Z.min (reg_to_signed16 a) (reg_to_signed16 b)),
   signed_to_reg16 (Z.max (reg_to_signed16 a) (reg_to_signed16 b)))
  = sorted_signed a b.
Proof.
  intros Ha Hb. unfold sorted_signed.
  destruct (Z.leb_spec (reg_to_signed16 a) (reg_to_signed16 b)).
  - rewrite Z.min_l, Z.max_r by lia.
    rewrite !signed_to_reg16_of_reg by assumption. reflexivity.
  - rewrite Z.min_r, Z.max_l by lia.
    rewrite !signed_to_reg16_of_reg by assumption. reflexivity.
Qed.

(** X29.  Function 0x31 returns the range that functions 0x07 and 0x08
    defined: after function 0x07 with the register values [a] and [b] it
    returns in AX and CX these same two values, the one that is smaller as
    a signed number first, and in BX and DX the vertical range as it was;
    after function 0x08 it returns them in BX and DX, and the horizontal
    range in AX and CX as it was. *)
Theorem range_query_returns_definition (C : Collaborators) (a b : Z) (w : World) :
  Int.is_u16 a -> Int.is_u16 b ->
  let query := Machine.int33 C 0x31 0 0 0 in
  range_registers (query (Machine.int33 C 0x07 0 a b w))
  = (sorted_signed a b, snd (range_registers (query w))) /\
  range_registers (query (Machine.int33 C 0x08 0 a b w))
  = (fst (range_registers (query w)), sorted_signed a b).
Proof.
  intros Ha Hb query. subst query. unfold Machine.int33.
  rewrite !range_registers_31 by reflexivity.
  rewrite !range_of_on_regs.
  rewrite range_after_07, range_after_08 by reflexivity.
  rewrite !range_of_on_regs.
  cbn [fst snd].
  change (Regs.cx (regs (on_regs ?f w))) with a.
  change (Regs.dx (regs (on_regs ?f w))) with b.
  pose proof (sorted_signed_registers a b Ha Hb) as E.
  destruct (sorted_signed a b) as [lo hi].
  injection E as E1 E2. rewrite E1, E2.
  split; reflexivity.
Qed.

Lemma range_query_returns_definition_witness :
  let C := Machine.text in
  let a := 600 in
  let b := 0xfff6 in
  let w := Machine.booted Machine.text in
  let query := Machine.int33 C 0x31 0 0 0 in
  range_registers (query (Machine.int33 C 0x07 0 a b w))
  = (sorted_signed a b, snd (range_registers (query w))) /\
  range_registers (query (Machine.int33 C 0x08 0 a b w))
  = (fst (range_registers (query w)), sorted_signed a b).
Proof.
  intros C a b w.
  apply (range_query_returns_definition C a b w); vm_compute; split; discriminate.
Defined.

Lemma int33_2a (C : Collaborators) (w : World) :
  Regs.ax (regs w) = 0x2a ->
  int33_handler C w
  = set_reg_dx 0x04
      (set_reg_cx (signed_to_reg16 (State.hot_y (state w)))
         (set_reg_bx (signed_to_reg16 (State.hot_x (state w)))
            (on_regs (Regs.set_al (Int.u8 (- State.hidden (state w)))) w))).
Proof. intros H. unfold int33_handler. rewrite H. reflexivity. Qed.

(** The hot spot and the hidden counter. *)
Definition hot_spot (w : World) : Z * Z * Z :=
  (State.hot_x (state w), State.hot_y (state w), State.hidden (state w)).

Lemma hot_spot_after_09 (C : Collaborators) (w : World) :
  Regs.ax (regs w) = 0x09 ->
  hot_spot (int33_handler C w)
  = (clamp_hot (Regs.bx (regs w)) 16, clamp_hot (Regs.cx (regs w)) 16,
     State.hidden (state w)).
Proof.
  intros H. pose proof (int33_09 C w H) as E. cbv zeta in E. rewrite E.
  rewrite (render_only_keeps hot_spot (MOUSEDOS_DrawCursor C))
    by (reflexivity || apply render_only_DrawCursor).
  reflexivity.
Qed.

(** The registers in which function 0x2a answers. *)
Definition hot_spot_registers (w : World) : Z * Z * Z * Z :=
  (Regs.bx (regs w), Regs.cx (regs w), Regs.dx (regs w), Regs.al (regs w)).

Lemma hot_spot_registers_2a (C : Collaborators) (w : World) :
  Regs.ax (regs w) = 0x2a ->
  hot_spot_registers (int33_handler C w)
  = (signed_to_reg16 (fst (fst (hot_spot w))), signed_to_reg16 (snd (fst (hot_spot w))),
     4, (- snd (hot_spot w)) mod 256).
Proof.
  intros H. rewrite int33_2a by exact H.
  unfold hot_spot_registers, hot_spot, Regs.al, set_reg_dx, set_reg_cx, set_reg_bx.
  rewrite !regs_on_regs. unfold Regs.set_al.
  cbn [Regs.ax Regs.bx Regs.cx Regs.dx Regs.set_ax Regs.set_bx Regs.set_cx Regs.set_dx
       fst snd].
  rewrite low_byte_with_low_byte. unfold Int.u8. rewrite Z.mod_mod by lia.
  reflexivity.
Qed.

Lemma hot_spot_on_regs (f : Regs.t -> Regs.t) (w : World) :
  hot_spot (on_regs f w) = hot_spot w.
Proof. reflexivity. Qed.

(** X30.  Function 0x2a returns the hot spot that function 0x09 stored:
    in BX and CX the hot spot clamped to [-16, 16] in two's complement,
    which for a hot spot inside this range are the very register values
    that were given to function 0x09; DX is 4, and AL is the hidden
    counter negated, as a byte (0 for a visible cursor, 0xff for a cursor
    hidden once). *)
Theorem hot_spot_query_returns_definition (C : Collaborators) (bx cx dx : Z)
    (w : World) :
  Int.is_u16 bx -> Int.is_u16 cx ->
  let w' := Machine.int33 C 0x2a 0 0 0 (Machine.int33 C 0x09 bx cx dx w) in
  hot_spot_registers w'
  = (signed_to_reg16 (Z.max (-16) (Z.min 16 (reg_to_signed16 bx))),
     signed_to_reg16 (Z.max (-16) (Z.min 16 (reg_to_signed16 cx))),
     4, (- State.hidden (state w)) mod 256) /\
  (-16 <= reg_to_signed16 bx <= 16 -> Regs.bx (regs w') = bx) /\
  (-16 <= reg_to_signed16 cx <= 16 -> Regs.cx (regs w') = cx).
Proof.
  intros Hb Hc w'.
  assert (E : hot_spot_registers w'
              = (signed_to_reg16 (clamp_hot bx 16), signed_to_reg16 (clamp_hot cx 16),
                 4, (- State.hidden (state w)) mod 256)).
  { subst w'. unfold Machine.int33.
    rewrite hot_spot_registers_2a by reflexivity.
    rewrite hot_spot_on_regs, hot_spot_after_09 by reflexivity.
    reflexivity. }
  clearbody w'.
  destruct (clamp_hot_range bx) as (Rx & Ix & Lx & Ux).
  destruct (clamp_hot_range cx) as (Ry & Iy & Ly & Uy).
  assert (Cx : clamp_hot bx 16 = Z.max (-16) (Z.min 16 (reg_to_signed16 bx))) by lia.
  assert (Cy : clamp_hot cx 16 = Z.max (-16) (Z.min 16 (reg_to_signed16 cx))) by lia.
  split; [rewrite E, Cx, Cy; reflexivity|].
  unfold hot_spot_registers in E. injection E as E1 E2 _ _.
  split; intros I.
  - rewrite E1, (Ix I). apply signed_to_reg16_of_reg, Hb.
  - rewrite E2, (Iy I). apply signed_to_reg16_of_reg, Hc.
Qed.

Lemma hot_spot_query_returns_definition_witness :
  let C := Machine.graphic in
  let bx := 0xfffc in
  let cx := 7 in
  let dx := 0 in
  let w := Machine.booted Machine.graphic in
  let w' := Machine.int33 C 0x2a 0 0 0 (Machine.int33 C 0x09 bx cx dx w) in
  hot_spot_registers w'
  = (signed_to_reg16 (Z.max (-16) (Z.min 16 (reg_to_signed16 bx))),
     signed_to_reg16 (Z.max (-16) (Z.min 16 (reg_to_signed16 cx))),
     4, (- State.hidden (state w)) mod 256) /\
  (-16 <= reg_to_signed16 bx <= 16 -> Regs.bx (regs w') = bx) /\
  (-16 <= reg_to_signed16 cx <= 16 -> Regs.cx (regs w') = cx).
Proof.
  intros C bx cx dx w.
  apply (hot_spot_query_returns_definition C bx cx dx w); vm_compute; split; discriminate.
Defined.

(** * Hard and soft reset *)

(** The saved background is dropped by the video mode setup and not
    touched afterwards. *)
Lemma background_off_after_reset (C : Collaborators) (w : World) :
  Background.enabled (State.background (state (reset C w))) = false.
Proof.
  rewrite reset_in_two_steps.
  change (Background.enabled (State.background (state (reset_mode_set C w))) = false).
  unfold reset_mode_set, MOUSEDOS_AfterNewVideoMode. cbv zeta.
  set (wb := MOUSEDOS_BeforeNewVideoMode C _).
  assert (Hb : Background.enabled (State.background (state wb)) = false) by reflexivity.
  clearbody wb.
  destruct (video_mode_geometry _ _) as [[[my gx] gy]|];
    destruct (false && _); exact Hb.
Qed.

(** What every reset gives, whatever the state before: the defaults of
    the motion settings and counters, a cursor hidden once with no saved
    background, at the centre of the range. *)
Definition freshly_reset (w : World) : Prop :=
  motion_settings w
  = ((0, 0, F32.zero, F32.zero),
     (F32.div (F32.of_Z 8) (F32.of_Z 8), F32.div (F32.of_Z 16) (F32.of_Z 8), 64),
     (true, 0, false, false), (0, 0, 0), (F32.zero, F32.zero, 0)) /\
  State.hidden (state w) = 1 /\
  Background.enabled (State.background (state w)) = false /\
  World.pos_x w = F32.of_Z (Z.quot (State.maxpos_x (state w) + 1) 2) /\
  World.pos_y w = F32.of_Z (Z.quot (State.maxpos_y (state w) + 1) 2).

Lemma reset_freshly (C : Collaborators) (w : World) : freshly_reset (reset C w).
Proof.
  unfold freshly_reset.
  split; [|split; [apply hidden_after_reset|split; [apply background_off_after_reset|]]].
  - rewrite reset_in_two_steps.
    pose proof (beside_mode_set_reset_mode_set C w) as Hb.
    set (wm := reset_mode_set C w) in *. clearbody wm.
    unfold beside_mode_set in Hb.
    pose proof (f_equal (fun x => snd (fst x)) Hb) as Hp.
    pose proof (f_equal snd Hb) as Hc. cbn [fst snd] in Hp, Hc.
    rewrite motion_settings_reset_defaults, Hc, Hp. reflexivity.
  - rewrite reset_in_two_steps.
    destruct (position_reset_defaults (reset_mode_set C w)) as (Px & Py & Mx & My).
    rewrite Px, Py, Mx, My. split; reflexivity.
Qed.

Lemma reset_button_records (C : Collaborators) (w : World) (i : Z) :
  well_formed_buttons (state w) -> 0 <= i < 3 ->
  button_record (state (reset C w)) i = ((0, 0, 0), (0, 0, 0)).
Proof.
  intros Hwf Hi. rewrite reset_in_two_steps.
  apply button_record_reset_defaults; [|exact Hi].
  pose proof (beside_mode_set_reset_mode_set C w) as Hb.
  unfold beside_mode_set, button_arrays in Hb.
  injection Hb as B1 B2 B3 B4 B5 B6 _ _.
  unfold well_formed_buttons. rewrite B1, B2, B3, B4, B5, B6. exact Hwf.
Qed.

(** The hardware teardown changes nothing of the driver state but the
    wheel-extension flag, and no register. *)
Lemma reset_hardware_state (w : World) :
  state (reset_hardware w) = State.set_wheel_api false (state w) /\
  regs (reset_hardware w) = regs w.
Proof.
  unfold reset_hardware, notify_interface_rate.
  cbn [World.rate_is_set World.set_rate_is_set].
  destruct (negb _); split; reflexivity.
Qed.

Lemma video_mode_geometry_some (mode rows : Z) :
  In mode handled_modes ->
  exists my gx gy, video_mode_geometry mode rows = Some (my, gx, gy).
Proof.
  intros Hm. unfold handled_modes in Hm. simpl in Hm.
  repeat (destruct Hm as [<-|Hm];
          [ unfold video_mode_geometry; cbn [Z.eqb Pos.eqb orb Z.ltb Z.compare Pos.compare
                                             Pos.compare_cont];
            eexists _, _, _; reflexivity | ]).
  contradiction.
Qed.

(** What the video mode setup gives the cursor in a mode it knows. *)
Definition cursor_defaults (w : World)
    : (Z * Z * Z) * (Z * Z) * (bool * bool) * (Z * Z) * (Z * MouseCursor * bool) :=
  ((State.minpos_x (state w), State.maxpos_x (state w), State.minpos_y (state w)),
   (State.hot_x (state w), State.hot_y (state w)),
   (State.user_screen_mask (state w), State.user_cursor_mask (state w)),
   (State.text_and_mask (state w), State.text_xor_mask (state w)),
   (State.page (state w), State.cursor_type (state w), State.inhibit_draw (state w))).

Definition known_mode_defaults
    : (Z * Z * Z) * (Z * Z) * (bool * bool) * (Z * Z) * (Z * MouseCursor * bool) :=
  ((0, 639, 0), (0, 0), (false, false), (default_text_and_mask, default_text_xor_mask),
   (0, Software, false)).

Lemma cursor_defaults_reset (C : Collaborators) (w : World) :
  (forall tr, In (BIOS_VIDEO_MODE C tr) handled_modes) ->
  cursor_defaults (reset C w) = known_mode_defaults.
Proof.
  intros Hm. rewrite reset_in_two_steps.
  change (cursor_defaults (reset_mode_set C w) = known_mode_defaults).
  unfold reset_mode_set, MOUSEDOS_AfterNewVideoMode. cbv zeta.
  match goal with
  | |- context [video_mode_geometry ?m ?r] =>
      destruct (video_mode_geometry_some m r (Hm _)) as (my & gx & gy & ->)
  end.
  destruct (false && _); reflexivity.
Qed.

(** C8.  Function 0x00 is the hardware teardown followed by exactly what
    function 0x21 does: the world after 0x00 is the world after function
    0x21 run on the outcome of [reset_hardware].  The teardown clears the
    wheel-extension flag, zeroes the wheel counter and clears the
    interrupt-rate override, and changes nothing else of the driver state
    and no register.  The soft reset returns AX = 0xffff and BX = 3 and
    reinitialises the state: counters, remainders and pending movements
    zero (the wheel counter too), default ratios and threshold, no event
    handler, the cursor hidden once at the centre of the range with no
    saved background, all button records zero, and, in a video mode the
    driver knows, the range, the hot spot, the masks, the page and the
    cursor type at their defaults with drawing not inhibited.  After
    function 0x00 the three extras still hold; function 0x21 alone leaves
    the wheel-extension flag and the override as they were. *)
Theorem hard_reset_is_hardware_then_soft_reset (C : Collaborators) (w : World) :
  let teardown := reset_hardware (set_reg_ax 0x00 w) in
  let hard := int33_handler C (set_reg_ax 0x00 w) in
  let soft := int33_handler C (set_reg_ax 0x21 w) in
  hard = int33_handler C (set_reg_ax 0x21 teardown) /\
  (Regs.ax (regs hard) = 0xffff /\ Regs.bx (regs hard) = 3) /\
  (Regs.ax (regs soft) = 0xffff /\ Regs.bx (regs soft) = 3) /\
  (State.wheel_api (state hard) = false /\ World.counter_w hard = 0 /\
   World.rate_is_set hard = false) /\
  (State.wheel_api (state soft) = State.wheel_api (state w) /\
   World.rate_is_set soft = World.rate_is_set w) /\
  (state teardown = State.set_wheel_api false (state w) /\
   World.counter_w teardown = 0 /\ World.rate_is_set teardown = false /\
   regs teardown = regs (set_reg_ax 0x00 w)) /\
  (freshly_reset hard /\ freshly_reset soft) /\
  ((forall tr, In (BIOS_VIDEO_MODE C tr) handled_modes) ->
   cursor_defaults hard = known_mode_defaults /\
   cursor_defaults soft = known_mode_defaults) /\
  (well_formed_buttons (state w) -> forall i, 0 <= i < 3 ->
   button_record (state hard) i = ((0, 0, 0), (0, 0, 0)) /\
   button_record (state soft) i = ((0, 0, 0), (0, 0, 0))).
Proof.
  intros teardown hard soft.
  assert (Hhard : hard = reset C (set_reg_bx 3 (set_reg_ax 0xffff teardown))).
  { subst hard teardown. rewrite int33_hard_reset. reflexivity. }
  assert (Hsoft : soft = reset C (set_reg_bx 3 (set_reg_ax 0xffff w))).
  { subst soft. rewrite int33_soft_reset, software_reset_ax. reflexivity. }
  clearbody hard soft.
  split.
  { rewrite int33_soft_reset, software_reset_ax. exact Hhard. }
  pose proof (kept_by_reset_reset C (set_reg_bx 3 (set_reg_ax 0xffff teardown))) as Kh.
  pose proof (kept_by_reset_reset C (set_reg_bx 3 (set_reg_ax 0xffff w))) as Ks.
  pose proof (reset_hardware_extras C (set_reg_ax 0x00 w)) as (Hw & Hcw & Hr & _).
  destruct (reset_hardware_state (set_reg_ax 0x00 w)) as [Hst Hrg].
  fold teardown in Hw, Hcw, Hr, Hst, Hrg.
  clearbody teardown.
  rewrite <- Hhard in Kh. rewrite <- Hsoft in Ks.
  unfold kept_by_reset in Kh, Ks.
  injection Kh as Kh1 Kh2 Kh3 _ _ _. injection Ks as Ks1 Ks2 Ks3 _ _ _.
  split; [rewrite Kh1; split; reflexivity|].
  split; [rewrite Ks1; split; reflexivity|].
  split.
  { split; [rewrite Kh2; exact Hw|].
    split; [rewrite Hhard; apply counter_w_reset|rewrite Kh3; exact Hr]. }
  split; [split; [rewrite Ks2|rewrite Ks3]; reflexivity|].
  split; [repeat split; assumption|].
  split; [split; [rewrite Hhard|rewrite Hsoft]; apply reset_freshly|].
  split.
  { intros Hm. split; [rewrite Hhard|rewrite Hsoft]; apply cursor_defaults_reset, Hm. }
  intros Hwf i Hi.
  split; [rewrite Hhard|rewrite Hsoft]; apply reset_button_records; try exact Hi.
  - change (well_formed_buttons (state teardown)). rewrite Hst. exact Hwf.
  - exact Hwf.
Qed.

(** A world in use: the wheel extension on, an interrupt rate chosen by
    the application, and counters that are not zero. *)
Definition world_in_use : World :=
  World.set_counter_w 5
    (World.set_rate_is_set true
       (on_state (fun s => State.set_mickey_counter_x 17 (State.set_wheel_api true s))
          (Machine.booted Machine.text))).

Lemma hard_reset_is_hardware_then_soft_reset_witness :
  let C := Machine.text in
  let w := world_in_use in
  let hard := int33_handler C (set_reg_ax 0x00 w) in
  let soft := int33_handler C (set_reg_ax 0x21 w) in
  well_formed_buttons (state w) /\
  State.wheel_api (state w) = true /\
  State.wheel_api (state hard) = false /\
  State.wheel_api (state soft) = State.wheel_api (state w) /\
  freshly_reset hard /\ freshly_reset soft /\
  cursor_defaults hard = known_mode_defaults /\
  cursor_defaults soft = known_mode_defaults /\
  button_record (state hard) 1 = ((0, 0, 0), (0, 0, 0)) /\
  button_record (state soft) 1 = ((0, 0, 0), (0, 0, 0)).
Proof.
  intros C w hard soft.
  assert (Hwf : well_formed_buttons (state w)) by (vm_compute; repeat split).
  assert (Hon : State.wheel_api (state w) = true) by (vm_compute; reflexivity).
  assert (Hm : forall tr, In (BIOS_VIDEO_MODE C tr) handled_modes)
    by (intros tr; vm_compute; tauto).
  destruct (hard_reset_is_hardware_then_soft_reset C w)
    as (_ & _ & _ & (Hh & _) & (Hs & _) & _ & (Fh & Fs) & Hd & Hb).
  destruct (Hd Hm) as [Dh Ds].
  destruct (Hb Hwf 1 ltac:(lia)) as [Bh Bs].
  split; [exact Hwf|]. split; [exact Hon|]. split; [exact Hh|]. split; [exact Hs|].
  split; [exact Fh|]. split; [exact Fs|]. split; [exact Dh|]. split; [exact Ds|].
  split; [exact Bh|exact Bs].
Defined.

(** * Show, hide and the redraw *)

(** ** What the renderer adds to the trace

    Every step of the renderer leaves the calls made so far in place:
    a list [l] that is a suffix of the trace stays one. *)

Section TraceGrows.

Context (C : Collaborators) (l : list Event).

Lemma grows_emit (ev : Event) (w : World) :
  l `suffix_of` World.trace w -> l `suffix_of` World.trace (emit ev w).
Proof. intros H. apply suffix_cons_r. exact H. Qed.

Lemma grows_on_background (f : Background.t -> Background.t) (w : World) :
  l `suffix_of` World.trace w -> l `suffix_of` World.trace (on_background f w).
Proof. intros H. exact H. Qed.

Lemma grows_on_vga_regs (f : VgaRegs.t -> VgaRegs.t) (w : World) :
  l `suffix_of` World.trace w -> l `suffix_of` World.trace (on_vga_regs f w).
Proof. intros H. exact H. Qed.

Lemma grows_IO_Read_into (port : Z) (k : Z -> World -> World) (w : World) :
  (forall v x, l `suffix_of` World.trace x -> l `suffix_of` World.trace (k v x)) ->
  l `suffix_of` World.trace w -> l `suffix_of` World.trace (IO_Read_into C port k w).
Proof. intros Hk H. unfold IO_Read_into. apply Hk, grows_emit, H. Qed.

Lemma grows_loop (lo hi : Z) (body : Z -> World -> World) (w : World) :
  (forall i x, l `suffix_of` World.trace x -> l `suffix_of` World.trace (body i x)) ->
  l `suffix_of` World.trace w -> l `suffix_of` World.trace (for_range lo hi body w).
Proof.
  intros Hbody H.
  apply (for_range_ind (fun x => l `suffix_of` World.trace x)); [exact H|].
  intros i x Hx. apply Hbody, Hx.
Qed.

Lemma grows_loop_acc {A : Type} (lo hi : Z) (body : Z -> A * World -> A * World)
    (a : A) (w : World) :
  (forall i x, l `suffix_of` World.trace (snd x) ->
               l `suffix_of` World.trace (snd (body i x))) ->
  l `suffix_of` World.trace w ->
  l `suffix_of` World.trace (snd (for_range lo hi body (a, w))).
Proof.
  intros Hbody H.
  apply (for_range_ind (fun x => l `suffix_of` World.trace (snd x))); [exact H|].
  intros i x Hx. apply Hbody, Hx.
Qed.

Lemma grows_save_vga (w : World) :
  l `suffix_of` World.trace w -> l `suffix_of` World.trace (save_vga_registers C w).
Proof.
  intros H. unfold save_vga_registers.
  destruct (IS_VGA_ARCH C).
  - apply grows_emit.
    apply grows_IO_Read_into; [intros v x Hx; exact Hx|].
    apply grows_emit.
    apply grows_IO_Read_into; [intros v x Hx; exact Hx|].
    do 4 apply grows_emit.
    apply grows_loop; [|exact H].
    intros i x Hx.
    apply grows_IO_Read_into; [intros v y Hy; exact Hy|].
    apply grows_emit, Hx.
  - destruct (machine_is_MCH_EGA C); [|exact H].
    do 2 apply grows_emit. exact H.
Qed.

Lemma grows_restore_vga (w : World) :
  l `suffix_of` World.trace w -> l `suffix_of` World.trace (restore_vga_registers C w).
Proof.
  intros H. unfold restore_vga_registers.
  destruct (IS_VGA_ARCH C); [|exact H].
  do 3 apply grows_emit.
  apply grows_loop; [|exact H].
  intros i x Hx. do 2 apply grows_emit. exact Hx.
Qed.

Lemma grows_restore_background (w : World) :
  l `suffix_of` World.trace w ->
  l `suffix_of` World.trace (restore_cursor_background C w).
Proof.
  intros H. unfold restore_cursor_background.
  destruct (_ || _ || _); [exact H|].
  match goal with
  | |- context [for_range ?lo ?hi ?b (?a, ?w1)] =>
      pose proof (grows_loop_acc lo hi b a w1) as Hloop;
      destruct (for_range lo hi b (a, w1)) as [p w2]
  end.
  apply grows_restore_vga, grows_on_background.
  cbn [snd] in Hloop. apply Hloop; [|apply grows_save_vga, H].
  intros i [p1 w3] H3. cbv beta iota.
  match goal with
  | |- context [for_range ?lo ?hi ?b (?a, ?w1)] =>
      pose proof (grows_loop_acc lo hi b a w1) as Hin;
      destruct (for_range lo hi b (a, w1)) as [p2 w4]
  end.
  cbn [snd] in *. apply Hin; [|exact H3].
  intros j [p3 w5] H5. cbn [snd] in *. apply grows_emit, H5.
Qed.

Lemma grows_restore_text (w : World) :
  l `suffix_of` World.trace w ->
  l `suffix_of` World.trace (restore_cursor_background_text C w).
Proof.
  intros H. unfold restore_cursor_background_text.
  destruct (_ || _); [exact H|].
  destruct (Background.enabled _); [|exact H].
  apply grows_on_background, grows_emit, H.
Qed.

Lemma grows_draw_cursor_text (w : World) :
  l `suffix_of` World.trace w -> l `suffix_of` World.trace (draw_cursor_text C w).
Proof.
  intros H. unfold draw_cursor_text. cbv zeta.
  pose proof (grows_restore_text w H) as Hr.
  set (wr := restore_cursor_background_text C w) in *. clearbody wr.
  destruct (in_update_region _ _ _); [exact Hr|].
  destruct (State.cursor_type _).
  - apply grows_emit, grows_on_background, grows_emit, grows_on_background, Hr.
  - do 4 apply grows_emit. apply grows_on_background, Hr.
  - do 4 apply grows_emit. apply grows_on_background, Hr.
Qed.

Lemma grows_save_background_pixels (a : ClippedArea) (w : World) :
  l `suffix_of` World.trace w ->
  l `suffix_of` World.trace (save_background_pixels C a w).
Proof.
  intros H. unfold save_background_pixels.
  match goal with
  | |- context [for_range ?lo ?hi ?b (?a, ?w1)] =>
      pose proof (grows_loop_acc lo hi b a w1) as Hloop;
      destruct (for_range lo hi b (a, w1)) as [p w2]
  end.
  cbn [snd] in Hloop. apply Hloop; [|exact H].
  intros i [p1 w3] H3. cbv beta iota.
  match goal with
  | |- context [for_range ?lo ?hi ?b (?a, ?w1)] =>
      pose proof (grows_loop_acc lo hi b a w1) as Hin;
      destruct (for_range lo hi b (a, w1)) as [p2 w4]
  end.
  cbn [snd] in *. apply Hin; [|exact H3].
  intros j [p3 w5] H5. cbn [snd] in *.
  apply grows_on_background, grows_emit, H5.
Qed.

Lemma grows_draw_mouse_cursor (a : ClippedArea) (w : World) :
  l `suffix_of` World.trace w ->
  l `suffix_of` World.trace (draw_mouse_cursor a w).
Proof.
  intros H. unfold draw_mouse_cursor.
  match goal with
  | |- context [for_range ?lo ?hi ?b (?a, ?w1)] =>
      pose proof (grows_loop_acc lo hi b a w1) as Hloop;
      destruct (for_range lo hi b (a, w1)) as [p w2]
  end.
  cbn [snd] in Hloop. apply Hloop; [|exact H].
  intros i [p1 w3] H3. cbv beta iota.
  destruct (0 <? addx1 a).
  all: match goal with
  | |- context [for_range ?lo ?hi ?b (?a, ?w1)] =>
      pose proof (grows_loop_acc lo hi b a w1) as Hin;
      destruct (for_range lo hi b (a, w1)) as [[[p2 p2'] p2''] w4]
  end.
  all: cbn [snd] in *; apply Hin; [|exact H3];
    intros j [[[q q'] q''] w5] H5; cbn [snd] in *; apply grows_emit, H5.
Qed.

End TraceGrows.

(** When drawing is on, [MOUSEDOS_DrawCursor] refreshes the video mode
    and goes on to the screen: whatever it does there comes after this
    call in the trace. *)
Lemma DrawCursor_draws (C : Collaborators) (w : World) :
  drawing_off (state w) = false ->
  (EvSetCurMode :: World.trace w) `suffix_of` World.trace (MOUSEDOS_DrawCursor C w).
Proof.
  intros Hon. unfold MOUSEDOS_DrawCursor. unfold drawing_off in Hon. rewrite Hon.
  unfold INT10_SetCurMode. cbv zeta.
  assert (H0 : (EvSetCurMode :: World.trace w) `suffix_of`
               World.trace (emit EvSetCurMode w)) by reflexivity.
  set (w0 := emit EvSetCurMode w) in *. clearbody w0.
  destruct (mode_type _).
  - apply grows_draw_cursor_text, H0.
  - apply grows_restore_vga, grows_draw_mouse_cursor, grows_on_background,
      grows_save_background_pixels, grows_save_vga, grows_restore_background.
    exact H0.
Qed.

(** ** The cursor on the screen *)

(** The driver's own record that a cursor is on the screen: the
    background under it is saved. *)
Definition on_screen (w : World) : bool :=
  Background.enabled (State.background (state w)).

Lemma state_draw_mouse_cursor (a : ClippedArea) (w : World) :
  state (draw_mouse_cursor a w) = state w.
Proof.
  unfold draw_mouse_cursor.
  match goal with
  | |- context [for_range ?lo ?hi ?b (?a, ?w1)] =>
      pose proof (state_loop_acc lo hi b a w1) as Hloop;
      destruct (for_range lo hi b (a, w1)) as [p w2]
  end.
  cbn [snd] in Hloop. apply Hloop.
  intros i [p1 w3]. cbv beta iota.
  destruct (0 <? addx1 a).
  all: match goal with
  | |- context [for_range ?lo ?hi ?b (?a, ?w1)] =>
      pose proof (state_loop_acc lo hi b a w1) as Hin;
      destruct (for_range lo hi b (a, w1)) as [[[p2 p2'] p2''] w4]
  end.
  all: cbn [snd] in *; apply Hin; intros j [[[q q'] q''] w5]; reflexivity.
Qed.

(** In a graphic mode, with drawing on, the cursor is on the screen after
    [MOUSEDOS_DrawCursor]. *)
Lemma DrawCursor_graphic_on_screen (C : Collaborators) (w : World) :
  drawing_off (state w) = false ->
  mode_type (CurMode C (EvSetCurMode :: World.trace w)) = M_GRAPHICS ->
  on_screen (MOUSEDOS_DrawCursor C w) = true.
Proof.
  intros Hon Hmode. unfold on_screen, MOUSEDOS_DrawCursor.
  unfold drawing_off in Hon. rewrite Hon.
  unfold INT10_SetCurMode. cbn [World.trace World.emit World.set_trace].
  rewrite Hmode. cbv zeta.
  rewrite state_restore_vga, state_draw_mouse_cursor, state_on_background.
  reflexivity.
Qed.

Section TextCursorAgain.

Context (C : Collaborators) (w : World).

Hypothesis drawing_on : drawing_off (state w) = false.
Hypothesis cursor_saved : Background.enabled (State.background (state w)) = true.
Hypothesis text_mode : mode_type (CurMode C (EvSetCurMode :: World.trace w)) = M_TEXT.
Hypothesis software_cursor : State.cursor_type (state w) = Software.
Hypothesis outside_region :
  in_update_region (state w) (get_pos_x w) (get_pos_y w) = false.

(** With a cursor on the screen, the text cursor is first taken away (the
    saved character and attribute are written back) and then drawn again. *)
Lemma DrawCursor_text_software_again :
  let bg := State.background (state w) in
  let tr0 := EvSetCurMode :: World.trace w in
  let restore := EvWriteChar (Background.pos_x bg) (Background.pos_y bg)
                   (BIOSMEM_CURRENT_PAGE C tr0)
                   (aget (Background.data bg) 0) (aget (Background.data bg) 1) true in
  let tr := restore :: tr0 in
  let page := BIOSMEM_CURRENT_PAGE C tr in
  let saved := ReadCharAttr C tr (fst (text_cell w)) (snd (text_cell w)) page in
  let cursor := Z.lxor (Z.land saved (State.text_and_mask (state w)))
                  (State.text_xor_mask (state w)) in
  World.trace (MOUSEDOS_DrawCursor C w)
  = EvWriteChar (fst (text_cell w)) (snd (text_cell w)) page (Int.low_byte cursor)
      (Int.high_byte cursor) true
      :: EvReadCharAttr (fst (text_cell w)) (snd (text_cell w)) page :: tr /\
  on_screen (MOUSEDOS_DrawCursor C w) = true.
Proof.
  intros bg tr0 restore tr page saved cursor.
  unfold on_screen, MOUSEDOS_DrawCursor.
  unfold drawing_off in drawing_on. rewrite drawing_on.
  unfold INT10_SetCurMode. cbn [World.trace World.emit World.set_trace].
  rewrite text_mode.
  unfold draw_cursor_text, restore_cursor_background_text.
  change (state (emit EvSetCurMode w)) with (state w).
  rewrite drawing_on, cursor_saved.
  cbv zeta.
  change (get_pos_x (on_background ?f (WriteChar ?a ?b ?c ?d ?e ?g (emit EvSetCurMode w))))
    with (get_pos_x w).
  change (get_pos_y (on_background ?f (WriteChar ?a ?b ?c ?d ?e ?g (emit EvSetCurMode w))))
    with (get_pos_y w).
  match goal with
  | |- context [in_update_region (state (on_background ?f ?x))] =>
      change (in_update_region (state (on_background f x)))
        with (in_update_region (state w))
  end.
  rewrite outside_region.
  match goal with
  | |- context [State.cursor_type (state (on_background ?f ?x))] =>
      change (State.cursor_type (state (on_background f x)))
        with (State.cursor_type (state w))
  end.
  rewrite software_cursor.
  split; reflexivity.
Qed.

End TextCursorAgain.

(** The two calls that draw the software text cursor on a cell, newest
    first: the character and attribute of the cell are read, and written
    back ANDed with the AND mask and XORed with the XOR mask. *)
Definition text_cursor_events (C : Collaborators) (tr : list Event) (cell : Z * Z)
    (and_mask xor_mask : Z) : list Event :=
  let page := BIOSMEM_CURRENT_PAGE C tr in
  let saved := ReadCharAttr C tr (fst cell) (snd cell) page in
  let cursor := Z.lxor (Z.land saved and_mask) xor_mask in
  [EvWriteChar (fst cell) (snd cell) page (Int.low_byte cursor) (Int.high_byte cursor)
     true;
   EvReadCharAttr (fst cell) (snd cell) page].

(** What a cursor is drawn from, and whether drawing is inhibited. *)
Definition cursor_setting (w : World) : (Z * Z) * Z * Z * MouseCursor * bool :=
  (text_cell w, State.text_and_mask (state w),
   State.text_xor_mask (state w), State.cursor_type (state w),
   State.inhibit_draw (state w)).

Lemma cursor_setting_shown (w : World) : cursor_setting (shown w) = cursor_setting w.
Proof. reflexivity. Qed.

Lemma cursor_setting_show (C : Collaborators) (w : World) :
  Int.is_u16 (State.hidden (state w)) ->
  cursor_setting (show C w) = cursor_setting w.
Proof.
  intros Hh. rewrite show_redraws by exact Hh.
  rewrite (render_only_keeps cursor_setting (MOUSEDOS_DrawCursor C))
    by (reflexivity || apply render_only_DrawCursor).
  apply cursor_setting_shown.
Qed.

Lemma shown_frame (w : World) :
  text_cell (shown w) = text_cell w /\
  State.text_and_mask (state (shown w)) = State.text_and_mask (state w) /\
  State.text_xor_mask (state (shown w)) = State.text_xor_mask (state w) /\
  State.cursor_type (state (shown w)) = State.cursor_type (state w) /\
  State.background (state (shown w)) = State.background (state w) /\
  World.trace (shown w) = World.trace w.
Proof. repeat split. Qed.

Lemma get_pos_y_nonneg (w : World) : 0 <= get_pos_y w.
Proof.
  unfold get_pos_y. apply Z.land_nonneg. left.
  unfold Int.u16. apply Z.mod_pos_bound. lia.
Qed.

(** After "show" nothing lies in the update region. *)
Lemma shown_outside_region (w : World) :
  in_update_region (state (shown w)) (get_pos_x (shown w)) (get_pos_y (shown w)) = false.
Proof.
  unfold in_update_region.
  change (snd (State.update_region_y (state (shown w)))) with (-1).
  pose proof (get_pos_y_nonneg (shown w)) as Hy.
  assert ((get_pos_y (shown w) <=? -1) = false) as -> by (apply Z.leb_gt; lia).
  reflexivity.
Qed.

Lemma shown_drawing_on (w : World) :
  State.hidden (state w) <= 1 -> State.inhibit_draw (state w) = false ->
  drawing_off (state (shown w)) = false.
Proof.
  intros Hh Hi. unfold drawing_off.
  change (State.inhibit_draw (state (shown w))) with (State.inhibit_draw (state w)).
  change (State.hidden (state (shown w))) with (Z.max 0 (State.hidden (state w) - 1)).
  rewrite Hi, Z.max_l by lia. reflexivity.
Qed.

(** The first draw of the software text cursor, with nothing saved before. *)
Lemma DrawCursor_text_first (C : Collaborators) (w : World) :
  drawing_off (state w) = false ->
  on_screen w = false ->
  mode_type (CurMode C (EvSetCurMode :: World.trace w)) = M_TEXT ->
  State.cursor_type (state w) = Software ->
  in_update_region (state w) (get_pos_x w) (get_pos_y w) = false ->
  let tr0 := EvSetCurMode :: World.trace w in
  let saved := ReadCharAttr C tr0 (fst (text_cell w)) (snd (text_cell w))
                 (BIOSMEM_CURRENT_PAGE C tr0) in
  World.trace (MOUSEDOS_DrawCursor C w)
  = text_cursor_events C tr0 (text_cell w) (State.text_and_mask (state w))
      (State.text_xor_mask (state w)) ++ tr0 /\
  State.background (state (MOUSEDOS_DrawCursor C w))
  = Background.set_enabled true
      (Background.set_data
         (aset (aset (Background.data (State.background (state w))) 0
                  (Int.low_byte saved)) 1 (Int.high_byte saved))
         (Background.set_pos_y (snd (text_cell w))
            (Background.set_pos_x (fst (text_cell w)) (State.background (state w))))).
Proof.
  intros Hon Hns Htm Hsw Hout tr0 saved.
  pose proof (DrawCursor_text_software C w Hon Hns Htm Hsw Hout) as E.
  cbv zeta in E. rewrite E. split; reflexivity.
Qed.

(** C4.  After a reset (function 0x21) the hidden count is 1.  From a
    hidden count of 1, "show" (function 0x01) brings the count to 0 and a
    second "show" leaves it at 0: the count is decremented only when it is
    not zero.  "Hide" (function 0x02) increments the 16-bit count.  "Show"
    also moves the update-exclusion rectangle offscreen, so that no
    position lies in it, and then redraws.  Unless drawing is inhibited,
    this redraw puts the cursor on the screen, after the first "show" and
    after the second: the draw routine passes its guard (it refreshes the
    video mode and goes on); in a graphic mode the background under the
    cursor is saved; in a text mode the software cursor is written over the
    cell of the position, the second time after the cell was given back
    what was saved.  With drawing inhibited (an unknown video mode) the
    count goes to 0 all the same, but nothing is drawn. *)
Theorem show_hide_balance (C : Collaborators) (w : World) :
  Int.is_u16 (State.hidden (state w)) ->
  let first := show C w in
  let second := show C first in
  State.hidden (state (int33_handler C (set_reg_ax 0x21 w))) = 1 /\
  (State.hidden (state w) = 1 ->
   State.hidden (state first) = 0 /\ State.hidden (state second) = 0) /\
  State.hidden (state first) = Z.max 0 (State.hidden (state w) - 1) /\
  State.hidden (state (hide C w)) = Int.u16 (State.hidden (state w) + 1) /\
  (State.hidden (state w) < 65535 ->
   State.hidden (state (hide C w)) = State.hidden (state w) + 1) /\
  (forall x y, 0 <= y -> in_update_region (state first) x y = false) /\
  first = MOUSEDOS_DrawCursor C (shown w) /\
  (State.hidden (state w) = 1 -> State.inhibit_draw (state w) = false ->
   (EvSetCurMode :: World.trace w) `suffix_of` World.trace first /\
   (EvSetCurMode :: World.trace first) `suffix_of` World.trace second /\
   ((forall tr, mode_type (CurMode C tr) = M_GRAPHICS) ->
    on_screen first = true /\ on_screen second = true) /\
   ((forall tr, mode_type (CurMode C tr) = M_TEXT) ->
    State.cursor_type (state w) = Software ->
    on_screen w = false ->
    (2 <= length (Background.data (State.background (state w))))%nat ->
    let cell := text_cell w in
    let and_mask := State.text_and_mask (state w) in
    let xor_mask := State.text_xor_mask (state w) in
    let tr0 := EvSetCurMode :: World.trace w in
    let saved := ReadCharAttr C tr0 (fst cell) (snd cell) (BIOSMEM_CURRENT_PAGE C tr0) in
    let tr1 := EvWriteChar (fst cell) (snd cell)
                 (BIOSMEM_CURRENT_PAGE C (EvSetCurMode :: World.trace first))
                 (Int.low_byte saved) (Int.high_byte saved) true
                 :: EvSetCurMode :: World.trace first in
    World.trace first = text_cursor_events C tr0 cell and_mask xor_mask ++ tr0 /\
    on_screen first = true /\
    World.trace second = text_cursor_events C tr1 cell and_mask xor_mask ++ tr1 /\
    on_screen second = true)) /\
  (State.inhibit_draw (state w) = true ->
   first = shown w /\ World.trace first = World.trace w /\
   on_screen first = on_screen w).
Proof.
  intros Hh first second.
  assert (Hfirst : first = MOUSEDOS_DrawCursor C (shown w))
    by (apply show_redraws; exact Hh).
  split; [rewrite int33_soft_reset; apply hidden_after_reset|].
  split.
  { intros H1.
    assert (H0 : State.hidden (state first) = 0)
      by (subst first; rewrite hidden_after_show by exact Hh; rewrite H1; reflexivity).
    split; [exact H0|].
    subst second. rewrite hidden_after_show by (rewrite H0; unfold Int.is_u16; lia).
    rewrite H0. reflexivity. }
  split; [apply hidden_after_show; exact Hh|].
  split; [apply hidden_after_hide|].
  split.
  { intros Hlt. rewrite hidden_after_hide. apply u16_id.
    unfold Int.is_u16 in *. lia. }
  split.
  { intros x y Hy. unfold in_update_region. subst first.
    rewrite region_after_show by exact Hh. simpl.
    assert ((y <=? -1) = false) as -> by (apply Z.leb_gt; lia).
    reflexivity. }
  split; [exact Hfirst|].
  split.
  - intros H1 Hi.
    assert (H0 : State.hidden (state first) = 0)
      by (subst first; rewrite hidden_after_show by exact Hh; rewrite H1; reflexivity).
    assert (Hh1 : Int.is_u16 (State.hidden (state first)))
      by (rewrite H0; unfold Int.is_u16; lia).
    assert (Hsecond : second = MOUSEDOS_DrawCursor C (shown first))
      by (apply show_redraws; exact Hh1).
    pose proof (cursor_setting_show C w Hh) as Hset. fold first in Hset.
    unfold cursor_setting in Hset.
    pose proof (f_equal (fun x => fst (fst (fst (fst x)))) Hset) as S1.
    pose proof (f_equal (fun x => snd (fst (fst (fst x)))) Hset) as S3.
    pose proof (f_equal (fun x => snd (fst (fst x))) Hset) as S4.
    pose proof (f_equal (fun x => snd (fst x)) Hset) as S5.
    pose proof (f_equal snd Hset) as S6.
    cbn [fst snd] in S1, S3, S4, S5, S6. clear Hset.
    assert (Hon0 : drawing_off (state (shown w)) = false)
      by (apply shown_drawing_on; [lia|exact Hi]).
    assert (Hon1 : drawing_off (state (shown first)) = false)
      by (apply shown_drawing_on; [lia|rewrite S6; exact Hi]).
    clearbody first second.
    split.
    { rewrite Hfirst. apply (DrawCursor_draws C (shown w) Hon0). }
    split.
    { rewrite Hsecond. apply (DrawCursor_draws C (shown first) Hon1). }
    split.
    { intros Hg. split.
      - rewrite Hfirst. apply DrawCursor_graphic_on_screen; [exact Hon0|apply Hg].
      - rewrite Hsecond. apply DrawCursor_graphic_on_screen; [exact Hon1|apply Hg]. }
    intros Ht Hsw Hns Hroom cell and_mask xor_mask tr0 saved tr1.
    subst cell and_mask xor_mask tr0 saved tr1.
    destruct (shown_frame w) as (Fc & Fa & Fx & Ft & Fb & Ftr).
    destruct (shown_frame first) as (Gc & Ga & Gx & Gt & Gb & Gtr).
    assert (Hns0 : on_screen (shown w) = false)
      by (unfold on_screen; rewrite Fb; exact Hns).
    assert (Hsw0 : State.cursor_type (state (shown w)) = Software)
      by (rewrite Ft; exact Hsw).
    destruct (DrawCursor_text_first C (shown w) Hon0 Hns0 (Ht _) Hsw0
                (shown_outside_region w)) as [T1 B1].
    cbv zeta in T1, B1.
    rewrite <- Hfirst, Fc, Fa, Fx, Ftr in T1.
    rewrite <- Hfirst, Fc, Fb, Ftr in B1.
    assert (O1 : on_screen first = true) by (unfold on_screen; rewrite B1; reflexivity).
    split; [exact T1|]. split; [exact O1|].
    assert (O1' : Background.enabled (State.background (state (shown first))) = true)
      by (rewrite Gb; exact O1).
    assert (Hsw1 : State.cursor_type (state (shown first)) = Software)
      by (rewrite Gt, S5; exact Hsw).
    destruct (DrawCursor_text_software_again C (shown first) Hon1 O1' (Ht _) Hsw1
                (shown_outside_region first)) as [T2 O2].
    cbv zeta in T2.
    rewrite <- Hsecond in T2, O2.
    split; [|exact O2].
    rewrite T2, Gc, Ga, Gx, Gb, Gtr, S1, S3, S4, B1.
    unfold text_cursor_events.
    cbn [Background.pos_x Background.pos_y Background.data Background.set_enabled
         Background.set_data Background.set_pos_x Background.set_pos_y].
    rewrite aget_aset_other by lia.
    rewrite !aget_aset_same by (rewrite ?length_aset; lia).
    reflexivity.
  - intros Hi.
    assert (Hoff : drawing_off (state (shown w)) = true).
    { unfold drawing_off.
      change (State.inhibit_draw (state (shown w))) with (State.inhibit_draw (state w)).
      rewrite Hi. apply orb_true_r. }
    rewrite Hfirst, (DrawCursor_off C (shown w) Hoff).
    repeat split.
Qed.

Lemma show_hide_balance_witness :
  let C := Machine.text in
  let w := Machine.booted Machine.text in
  let first := show C w in
  let second := show C first in
  State.hidden (state w) = 1 /\
  State.hidden (state first) = 0 /\
  State.hidden (state second) = 0 /\
  State.hidden (state (hide C w)) = 2 /\
  (EvSetCurMode :: World.trace w) `suffix_of` World.trace first /\
  World.trace first
  = text_cursor_events C (EvSetCurMode :: World.trace w) (text_cell w)
      (State.text_and_mask (state w)) (State.text_xor_mask (state w))
      ++ EvSetCurMode :: World.trace w /\
  on_screen first = true /\ on_screen second = true.
Proof.
  intros C w first second.
  assert (Hu : Int.is_u16 (State.hidden (state w))) by (vm_compute; split; discriminate).
  assert (H1 : State.hidden (state w) = 1) by (vm_compute; reflexivity).
  assert (Hinh : State.inhibit_draw (state w) = false) by (vm_compute; reflexivity).
  assert (Hsoft : State.cursor_type (state w) = Software) by (vm_compute; reflexivity).
  assert (Hoff : on_screen w = false) by (vm_compute; reflexivity).
  assert (Hroom : (2 <= length (Background.data (State.background (state w))))%nat)
    by (apply Nat.leb_le; vm_compute; reflexivity).
  destruct (show_hide_balance C w Hu) as (_ & Hc & _ & _ & Hhide & _ & _ & Hdraw & _).
  destruct (Hc H1) as [Ha Hb].
  destruct (Hdraw H1 Hinh) as (Hs1 & _ & _ & Htext).
  destruct (Htext ltac:(intros tr; reflexivity) Hsoft Hoff Hroom) as (T1 & O1 & _ & O2).
  split; [exact H1|]. split; [exact Ha|]. split; [exact Hb|].
  split; [rewrite Hhide; [rewrite H1; reflexivity|rewrite H1; lia]|].
  split; [exact Hs1|]. split; [exact T1|]. split; [exact O1|exact O2].
Defined.

(** * Function 0x03: position and button status *)

Lemma signed_to_reg8_mod (x : Z) : Int.is_s8 x -> signed_to_reg8 x = x mod 256.
Proof.
  unfold Int.is_s8, signed_to_reg8, Int.u8. intros Hx.
  destruct (Z.leb_spec 0 x); [reflexivity|].
  rewrite Z.add_comm. replace (x + 256) with (x + 1 * 256) by lia.
  apply Z.mod_add. lia.
Qed.

(** The wheel byte of a position query, and the wheel counter after it:
    the guard of [get_reset_wheel_8bit]. *)
Definition query_wheel (w : World) : Z * Z :=
  if State.wheel_api (state w) then (signed_to_reg8 (World.counter_w w), 0)
  else (0, World.counter_w w).

Lemma int33_03_world (C : Collaborators) (w : World) :
  Regs.ax (regs w) = 0x03 ->
  int33_handler C w
  = set_reg_dx (get_pos_y w)
      (set_reg_cx (get_pos_x w)
         (on_regs (Regs.set_bh (fst (query_wheel w)))
            (World.set_counter_w (snd (query_wheel w))
               (on_regs (Regs.set_bl (World.buttons w)) w)))).
Proof.
  intros H. rewrite int33_03 by exact H. cbv zeta.
  unfold get_reset_wheel_8bit, query_wheel.
  rewrite state_on_regs.
  destruct (State.wheel_api (state w)); cbn [negb fst snd].
  - reflexivity.
  - destruct w; reflexivity.
Qed.

(** C7.  Function 0x03 returns in BL the button bitmask and in CX and DX
    the position, rounded and masked with the granularity.  BH is the
    wheel counter as a byte in two's complement, and the counter is cleared
    by the call, when the wheel extension is on; with the extension off BH
    is 0 and the wheel counter is left as it is.  Nothing but BX, CX, DX
    and the wheel counter changes. *)
Theorem position_and_button_status (C : Collaborators) (w : World) :
  Regs.ax (regs w) = 0x03 ->
  Int.is_u8 (World.buttons w) -> Int.is_s8 (World.counter_w w) ->
  let w' := int33_handler C w in
  Regs.bl (regs w') = World.buttons w /\
  Regs.cx (regs w')
  = Z.land (Int.u16 (F32.lround (World.pos_x w))) (State.granularity_x (state w)) /\
  Regs.dx (regs w')
  = Z.land (Int.u16 (F32.lround (World.pos_y w))) (State.granularity_y (state w)) /\
  (State.wheel_api (state w) = true ->
   Regs.bh (regs w') = World.counter_w w mod 256 /\ World.counter_w w' = 0 /\
   Regs.bh (regs (int33_handler C w')) = 0) /\
  (State.wheel_api (state w) = false ->
   Regs.bh (regs w') = 0 /\ World.counter_w w' = World.counter_w w) /\
  Regs.ax (regs w') = 0x03 /\
  w' = World.set_counter_w (World.counter_w w') (World.set_regs (regs w') w).
Proof.
  intros Hax Hb Hc w'.
  pose proof (int33_03_world C w Hax) as E. fold w' in E.
  assert (E2 : Regs.bh (regs (int33_handler C w')) = fst (query_wheel w') mod 256).
  { rewrite (int33_03_world C w') by (rewrite E; exact Hax).
    unfold set_reg_dx, set_reg_cx. rewrite !regs_on_regs. unfold Regs.bh, Regs.set_bh.
    cbn [Regs.bx Regs.set_bx Regs.set_cx Regs.set_dx].
    apply high_byte_with_high_byte. }
  assert (Es : state w' = state w) by (rewrite E; reflexivity).
  assert (Ec : World.counter_w w' = snd (query_wheel w)) by (rewrite E; reflexivity).
  assert (Er : regs w'
               = Regs.set_dx (get_pos_y w)
                   (Regs.set_cx (get_pos_x w)
                      (Regs.set_bh (fst (query_wheel w))
                         (Regs.set_bl (World.buttons w) (regs w)))))
    by (rewrite E; reflexivity).
  assert (Ew : w' = World.set_counter_w (World.counter_w w') (World.set_regs (regs w') w)).
  { rewrite Ec, Er, E. destruct w; reflexivity. }
  clearbody w'. clear E.
  unfold Int.is_u8 in Hb.
  assert (Hbl : Regs.bl (regs w') = World.buttons w).
  { rewrite Er. unfold Regs.bl, Regs.set_bh, Regs.set_bl.
    cbn [Regs.bx Regs.set_bx Regs.set_cx Regs.set_dx].
    rewrite low_byte_with_high_byte, low_byte_with_low_byte. apply Z.mod_small. lia. }
  assert (Hbh : Regs.bh (regs w') = fst (query_wheel w) mod 256).
  { rewrite Er. unfold Regs.bh, Regs.set_bh.
    cbn [Regs.bx Regs.set_bx Regs.set_cx Regs.set_dx].
    apply high_byte_with_high_byte. }
  split; [exact Hbl|].
  split; [rewrite Er; reflexivity|]. split; [rewrite Er; reflexivity|].
  split.
  { intros Hon. unfold query_wheel in Hbh, Ec, E2. rewrite Es in E2.
    rewrite Hon in Hbh, Ec, E2. cbn [fst snd] in Hbh, Ec, E2.
    rewrite signed_to_reg8_mod in Hbh by exact Hc. rewrite Z.mod_mod in Hbh by lia.
    split; [exact Hbh|]. split; [exact Ec|].
    rewrite E2, Ec. reflexivity. }
  split.
  { intros Hoff. unfold query_wheel in Hbh, Ec. rewrite Hoff in Hbh, Ec.
    cbn [fst snd] in Hbh, Ec. split; [exact Hbh|exact Ec]. }
  split; [rewrite Er; exact Hax|exact Ew].
Qed.

(** The wheel extension on and the wheel counter at -2. *)
Definition position_query : World := set_reg_ax 0x03 moved_with_wheel.

Lemma position_and_button_status_witness :
  let C := Machine.text in
  let w := position_query in
  let w' := int33_handler C w in
  State.wheel_api (state w) = true /\
  Regs.bl (regs w') = World.buttons w /\
  Regs.bh (regs w') = 254 /\ World.counter_w w' = 0 /\
  Regs.bh (regs (int33_handler C w')) = 0.
Proof.
  intros C w w'.
  assert (Hon : State.wheel_api (state w) = true) by (vm_compute; reflexivity).
  destruct (position_and_button_status C w) as (Hbl & _ & _ & Hwheel & _);
    [vm_compute; reflexivity | vm_compute; split; discriminate
    | vm_compute; split; discriminate |].
  destruct (Hwheel Hon) as (Hbh & Hc & H2).
  split; [exact Hon|]. split; [exact Hbl|].
  split; [etransitivity; [exact Hbh|vm_compute; reflexivity]|].
  split; [exact Hc|exact H2].
Defined.

(** A guest that enables the wheel extension, sees the wheel scrolled by
    five, and then loads a driver state in which the extension is off
    (function 0x17; the memory of this machine holds the state of a driver
    before its initialisation): the extension is off again, and the wheel
    counter, which is not part of the driver state, is still 5. *)
Definition wheel_after_load : World :=
  let C := Machine.text in
  let enabled := Machine.int33 C 0x11 0 0 0 (Machine.booted C) in
  let notified := snd (MOUSEDOS_NotifyWheel C 5 enabled) in
  let scrolled := snd (MOUSEDOS_UpdateWheel C notified) in
  Machine.int33 C 0x17 0 0 0 scrolled.

(** At this state function 0x03 neither returns the wheel counter in BH
    nor clears it. *)
Lemma position_query_wheel_off :
  let w := wheel_after_load in
  let w' := Machine.int33 Machine.text 0x03 0 0 0 w in
  World.counter_w w = 5 /\
  ~ (Regs.bh (regs w') = signed_to_reg8 (World.counter_w w) /\ World.counter_w w' = 0).
Proof.
  vm_compute. split; [reflexivity|]. intros [H _]. discriminate H.
Qed.

(** * Functions 0x07 and 0x08: the range of the cursor *)

Lemma int33_07 (C : Collaborators) (w : World) :
  Regs.ax (regs w) = 0x07 ->
  let lo := Z.min (reg_to_signed16 (Regs.cx (regs w))) (reg_to_signed16 (Regs.dx (regs w))) in
  let hi := Z.max (reg_to_signed16 (Regs.cx (regs w))) (reg_to_signed16 (Regs.dx (regs w))) in
  int33_handler C w
  = LOG LOG_NORMAL
      (World.set_pos_x (limit (World.pos_x w) lo hi)
         (on_state (fun s => State.set_maxpos_x hi (State.set_minpos_x lo s)) w)).
Proof. intros H. unfold int33_handler. rewrite H. reflexivity. Qed.

Lemma int33_08 (C : Collaborators) (w : World) :
  Regs.ax (regs w) = 0x08 ->
  let lo := Z.min (reg_to_signed16 (Regs.cx (regs w))) (reg_to_signed16 (Regs.dx (regs w))) in
  let hi := Z.max (reg_to_signed16 (Regs.cx (regs w))) (reg_to_signed16 (Regs.dx (regs w))) in
  int33_handler C w
  = LOG LOG_NORMAL
      (World.set_pos_y (limit (World.pos_y w) lo hi)
         (on_state (fun s => State.set_maxpos_y hi (State.set_minpos_y lo s)) w)).
Proof. intros H. unfold int33_handler. rewrite H. reflexivity. Qed.

(** The position clamped into a range: inside the range when it is a
    number, and left alone when it was inside already. *)
Definition clamped_into (before after : F32.t) (lo hi : Z) : Prop :=
  after = F32.clamp before (F32.of_Z lo) (F32.of_Z hi) /\
  (F32.is_nan before = false -> within after lo hi) /\
  (within before lo hi -> after = before).

Lemma limit_clamped_into (pos : F32.t) (a b : Z) :
  clamped_into pos (limit pos (Z.min (reg_to_signed16 a) (reg_to_signed16 b))
                      (Z.max (reg_to_signed16 a) (reg_to_signed16 b)))
    (Z.min (reg_to_signed16 a) (reg_to_signed16 b))
    (Z.max (reg_to_signed16 a) (reg_to_signed16 b)).
Proof.
  pose proof (reg_to_signed16_range a) as Ha.
  pose proof (reg_to_signed16_range b) as Hb.
  unfold Int.is_s16 in Ha, Hb.
  split; [reflexivity|]. split.
  - intros Hn. apply limit_within; unfold Int.is_s16; try lia. exact Hn.
  - apply limit_inside.
Qed.

(** C3.  Function 0x07 stores as the horizontal bounds the lesser and the
    greater of its two arguments, read as signed 16-bit numbers, and clamps
    the horizontal position into the new range; function 0x08 does the same
    on the vertical axis.  Each leaves the other axis alone and everything
    else but a log entry. *)
Theorem define_cursor_range (C : Collaborators) (a b : Z) (w : World) :
  let lo := Z.min (reg_to_signed16 a) (reg_to_signed16 b) in
  let hi := Z.max (reg_to_signed16 a) (reg_to_signed16 b) in
  let call := fun ax => Machine.int33 C ax (Regs.bx (regs w)) a b w in
  let h := call 0x07 in
  let v := call 0x08 in
  (State.minpos_x (state h) = lo /\ State.maxpos_x (state h) = hi /\
   clamped_into (World.pos_x w) (World.pos_x h) lo hi /\
   World.pos_y h = World.pos_y w /\
   State.minpos_y (state h) = State.minpos_y (state w) /\
   State.maxpos_y (state h) = State.maxpos_y (state w) /\
   h = LOG LOG_NORMAL
         (World.set_pos_x (World.pos_x h)
            (on_state (fun s => State.set_maxpos_x hi (State.set_minpos_x lo s))
               (on_regs (fun r => Regs.set_dx b (Regs.set_cx a (Regs.set_ax 0x07 r))) w)))) /\
  (State.minpos_y (state v) = lo /\ State.maxpos_y (state v) = hi /\
   clamped_into (World.pos_y w) (World.pos_y v) lo hi /\
   World.pos_x v = World.pos_x w /\
   State.minpos_x (state v) = State.minpos_x (state w) /\
   State.maxpos_x (state v) = State.maxpos_x (state w) /\
   v = LOG LOG_NORMAL
         (World.set_pos_y (World.pos_y v)
            (on_state (fun s => State.set_maxpos_y hi (State.set_minpos_y lo s))
               (on_regs (fun r => Regs.set_dx b (Regs.set_cx a (Regs.set_ax 0x08 r))) w)))) /\
  (lo <= hi /\ (lo = reg_to_signed16 a /\ hi = reg_to_signed16 b \/
                lo = reg_to_signed16 b /\ hi = reg_to_signed16 a)).
Proof.
  intros lo hi call h v.
  set (w7 := on_regs (fun r => Regs.set_dx b (Regs.set_cx a
                        (Regs.set_bx (Regs.bx (regs w)) (Regs.set_ax 0x07 r)))) w).
  set (w8 := on_regs (fun r => Regs.set_dx b (Regs.set_cx a
                        (Regs.set_bx (Regs.bx (regs w)) (Regs.set_ax 0x08 r)))) w).
  assert (E7 : h = LOG LOG_NORMAL
                     (World.set_pos_x (limit (World.pos_x w) lo hi)
                        (on_state (fun s => State.set_maxpos_x hi (State.set_minpos_x lo s))
                           w7))).
  { subst h call. unfold Machine.int33. fold w7.
    rewrite (int33_07 C w7) by reflexivity. reflexivity. }
  assert (E8 : v = LOG LOG_NORMAL
                     (World.set_pos_y (limit (World.pos_y w) lo hi)
                        (on_state (fun s => State.set_maxpos_y hi (State.set_minpos_y lo s))
                           w8))).
  { subst v call. unfold Machine.int33. fold w8.
    rewrite (int33_08 C w8) by reflexivity. reflexivity. }
  clearbody h v. clear call.
  assert (R7 : w7 = on_regs (fun r => Regs.set_dx b (Regs.set_cx a (Regs.set_ax 0x07 r))) w)
    by (subst w7; destruct w as [r]; destruct r; reflexivity).
  assert (R8 : w8 = on_regs (fun r => Regs.set_dx b (Regs.set_cx a (Regs.set_ax 0x08 r))) w)
    by (subst w8; destruct w as [r]; destruct r; reflexivity).
  rewrite R7 in E7. rewrite R8 in E8. clear R7 R8 w7 w8.
  pose proof (limit_clamped_into (World.pos_x w) a b) as Cx.
  pose proof (limit_clamped_into (World.pos_y w) a b) as Cy.
  fold lo in Cx, Cy. fold hi in Cx, Cy.
  assert (Px : World.pos_x h = limit (World.pos_x w) lo hi) by (rewrite E7; reflexivity).
  assert (Py : World.pos_y v = limit (World.pos_y w) lo hi) by (rewrite E8; reflexivity).
  split; [|split].
  - split; [rewrite E7; reflexivity|]. split; [rewrite E7; reflexivity|].
    split; [rewrite Px; exact Cx|].
    split; [rewrite E7; reflexivity|]. split; [rewrite E7; reflexivity|].
    split; [rewrite E7; reflexivity|].
    rewrite Px. exact E7.
  - split; [rewrite E8; reflexivity|]. split; [rewrite E8; reflexivity|].
    split; [rewrite Py; exact Cy|].
    split; [rewrite E8; reflexivity|]. split; [rewrite E8; reflexivity|].
    split; [rewrite E8; reflexivity|].
    rewrite Py. exact E8.
  - subst lo hi. lia.
Qed.

(** The cursor at 700 on both axes. *)
Definition cursor_at_700 : World :=
  World.set_pos_y (F32.of_Z 700) (World.set_pos_x (F32.of_Z 700) (Machine.booted Machine.graphic)).

(** With the arguments (600, 100) the bounds become 100 and 600, and the
    position 700 becomes 600. *)
Lemma define_cursor_range_witness :
  let h := Machine.int33 Machine.graphic 0x07 0 600 100 cursor_at_700 in
  let v := Machine.int33 Machine.graphic 0x08 0 600 100 cursor_at_700 in
  (State.minpos_x (state h) = 100 /\ State.maxpos_x (state h) = 600 /\
   World.pos_x h = F32.of_Z 600) /\
  (State.minpos_y (state v) = 100 /\ State.maxpos_y (state v) = 600 /\
   World.pos_y v = F32.of_Z 600).
Proof.
  intros h v.
  destruct (define_cursor_range Machine.graphic 600 100 cursor_at_700)
    as ((H1 & H2 & (H3 & _) & _) & (V1 & V2 & (V3 & _) & _) & _).
  change (Regs.bx (regs cursor_at_700)) with 0 in H1, H2, H3, V1, V2, V3.
  split.
  - split; [exact H1|]. split; [exact H2|].
    etransitivity; [exact H3|]. vm_compute. reflexivity.
  - split; [exact V1|]. split; [exact V2|].
    etransitivity; [exact V3|]. vm_compute. reflexivity.
Defined.

(** * The wheel counter *)

(** A wheel movement that is notified by the host and then consumed: in
    immediate mode [MOUSEDOS_NotifyWheel] moves the wheel itself, otherwise
    the event it asks for is delivered to [MOUSEDOS_UpdateWheel]. *)
Definition wheel_tick (C : Collaborators) (t : Z) (w : World) : World :=
  let '(event, w) := MOUSEDOS_NotifyWheel C t w in
  if event && negb (dos_immediate C) then snd (MOUSEDOS_UpdateWheel C w) else w.

Definition wheel_ticks (C : Collaborators) (ts : list Z) (w : World) : World :=
  fold_left (fun w t => wheel_tick C t w) ts w.

Definition total (ts : list Z) : Z := fold_right Z.add 0 ts.

(** The wheel extension is on, nothing is pending and the counter is an
    [int8_t]. *)
Definition wheel_ready (w : World) : Prop :=
  State.wheel_api (state w) = true /\ Pending.w_rel (World.pending w) = 0 /\
  Int.is_s8 (World.counter_w w).

Lemma clamp_to_int8_range (x : Z) : Int.is_s8 (clamp_to_int8 x).
Proof.
  unfold clamp_to_int8, Int.clamp, Int.INT8_MIN, Int.INT8_MAX, Int.is_s8.
  destruct (Z.ltb_spec x (-128)); [lia|]. destruct (Z.ltb_spec 127 x); lia.
Qed.

Lemma clamp_to_int8_spec (x : Z) : clamp_to_int8 x = Z.max (-128) (Z.min 127 x).
Proof.
  unfold clamp_to_int8, Int.clamp, Int.INT8_MIN, Int.INT8_MAX.
  destruct (Z.ltb_spec x (-128)); [lia|]. destruct (Z.ltb_spec 127 x); lia.
Qed.

Lemma move_wheel_counter (w : World) :
  let w' := snd (move_wheel w) in
  World.counter_w w'
  = clamp_to_int8 (World.counter_w w + Pending.w_rel (World.pending w)) /\
  Pending.w_rel (World.pending w') = 0 /\
  State.wheel_api (state w') = State.wheel_api (state w).
Proof.
  unfold move_wheel. cbv zeta.
  destruct (negb _); cbn [snd]; repeat split.
Qed.

Lemma wheel_tick_counter (C : Collaborators) (t : Z) (w : World) :
  wheel_ready w ->
  World.counter_w (wheel_tick C t w)
  = clamp_to_int8 (World.counter_w w + clamp_to_int8 t) /\
  wheel_ready (wheel_tick C t w).
Proof.
  intros (Hon & Hp & Hc).
  assert (Goal0 : World.counter_w (wheel_tick C t w)
                  = clamp_to_int8 (World.counter_w w + clamp_to_int8 t) /\
                  State.wheel_api (state (wheel_tick C t w)) = true /\
                  Pending.w_rel (World.pending (wheel_tick C t w)) = 0).
  { unfold wheel_tick, MOUSEDOS_NotifyWheel. rewrite Hon. cbn [negb].
    set (wp := World.on_pending _ w).
    assert (Hwp : Pending.w_rel (World.pending wp) = clamp_to_int8 t).
    { subst wp.
      cbn [World.pending World.on_pending World.set_pending Pending.w_rel
           Pending.set_w_rel].
      rewrite Hp, Z.add_0_l. reflexivity. }
    assert (Hcp : World.counter_w wp = World.counter_w w) by reflexivity.
    assert (Hap : State.wheel_api (state wp) = true) by exact Hon.
    clearbody wp. rewrite Hwp.
    destruct (Z.eqb_spec (clamp_to_int8 t) 0) as [E0|N0].
    - cbn [andb]. rewrite Hcp, E0, Z.add_0_r.
      split; [|split; [exact Hap|rewrite Hwp; exact E0]].
      rewrite clamp_to_int8_spec. unfold Int.is_s8 in Hc. lia.
    - destruct (move_wheel_counter wp) as (Mc & Mp & Ma).
      rewrite Hcp, Hwp in Mc. rewrite Hap in Ma.
      unfold MOUSEDOS_UpdateWheel.
      destruct (dos_immediate C).
      + destruct (move_wheel wp) as [m w2]. cbn [snd] in *.
        rewrite andb_false_r. repeat split; assumption.
      + cbn [andb negb]. repeat split; assumption. }
  destruct Goal0 as (G1 & G2 & G3).
  split; [exact G1|]. split; [exact G2|]. split; [exact G3|].
  rewrite G1. apply clamp_to_int8_range.
Qed.

Lemma wheel_ticks_ready (C : Collaborators) (ts : list Z) (w : World) :
  wheel_ready w -> wheel_ready (wheel_ticks C ts w).
Proof.
  revert w. induction ts as [|t ts IH]; intros w Hw; [exact Hw|].
  apply IH, wheel_tick_counter, Hw.
Qed.

Lemma wheel_ticks_up (C : Collaborators) (ts : list Z) (w : World) :
  wheel_ready w -> (forall t, In t ts -> 0 <= t) ->
  World.counter_w (wheel_ticks C ts w)
  = Z.min 127 (World.counter_w w + total (map clamp_to_int8 ts)).
Proof.
  revert w. induction ts as [|t ts IH]; intros w Hw Hts.
  - destruct Hw as (_ & _ & Hc). unfold Int.is_s8 in Hc. cbn. lia.
  - destruct (wheel_tick_counter C t w Hw) as [E Hw'].
    change (wheel_ticks C (t :: ts) w) with (wheel_ticks C ts (wheel_tick C t w)).
    rewrite IH by (try exact Hw'; intros x Hx; apply Hts; right; exact Hx).
    rewrite E. cbn [map total fold_right]. fold (total (map clamp_to_int8 ts)).
    assert (Hpos : 0 <= total (map clamp_to_int8 ts)).
    { clear - Hts. induction ts as [|x ts IH]; [cbn; lia|].
      cbn [map total fold_right]. fold (total (map clamp_to_int8 ts)).
      pose proof (Hts x ltac:(right; left; reflexivity)).
      rewrite clamp_to_int8_spec.
      assert (0 <= total (map clamp_to_int8 ts))
        by (apply IH; intros y [Hy|Hy]; apply Hts; [left|right; right]; assumption).
      lia. }
    pose proof (Hts t ltac:(left; reflexivity)).
    destruct Hw as (_ & _ & Hc). unfold Int.is_s8 in Hc.
    rewrite !clamp_to_int8_spec. lia.
Qed.

Lemma wheel_ticks_down (C : Collaborators) (ts : list Z) (w : World) :
  wheel_ready w -> (forall t, In t ts -> t <= 0) ->
  World.counter_w (wheel_ticks C ts w)
  = Z.max (-128) (World.counter_w w + total (map clamp_to_int8 ts)).
Proof.
  revert w. induction ts as [|t ts IH]; intros w Hw Hts.
  - destruct Hw as (_ & _ & Hc). unfold Int.is_s8 in Hc. cbn. lia.
  - destruct (wheel_tick_counter C t w Hw) as [E Hw'].
    change (wheel_ticks C (t :: ts) w) with (wheel_ticks C ts (wheel_tick C t w)).
    rewrite IH by (try exact Hw'; intros x Hx; apply Hts; right; exact Hx).
    rewrite E. cbn [map total fold_right]. fold (total (map clamp_to_int8 ts)).
    assert (Hneg : total (map clamp_to_int8 ts) <= 0).
    { clear - Hts. induction ts as [|x ts IH]; [cbn; lia|].
      cbn [map total fold_right]. fold (total (map clamp_to_int8 ts)).
      pose proof (Hts x ltac:(right; left; reflexivity)).
      rewrite clamp_to_int8_spec.
      assert (total (map clamp_to_int8 ts) <= 0)
        by (apply IH; intros y [Hy|Hy]; apply Hts; [left|right; right]; assumption).
      lia. }
    pose proof (Hts t ltac:(left; reflexivity)).
    destruct Hw as (_ & _ & Hc). unfold Int.is_s8 in Hc.
    rewrite !clamp_to_int8_spec. lia.
Qed.

Lemma signed_to_reg16_mod (x : Z) : Int.is_s16 x -> signed_to_reg16 x = x mod 65536.
Proof.
  unfold Int.is_s16, signed_to_reg16, Int.u16. intros Hx.
  destruct (Z.leb_spec 0 x); [reflexivity|].
  rewrite Z.add_comm. replace (x + 65536) with (x + 1 * 65536) by lia.
  apply Z.mod_add. lia.
Qed.

(** The wheel query of functions 0x05 and 0x06: button index 0xffff with
    the wheel extension on. *)
Lemma get_button_data_wheel (times last_x last_y : State.t -> list Z)
    (clear : Z -> State.t -> State.t) (w : World) :
  Regs.bx (regs w) = 0xffff -> State.wheel_api (state w) = true ->
  get_button_data times last_x last_y clear w
  = set_reg_dx (State.last_wheel_moved_y (state w))
      (set_reg_cx (State.last_wheel_moved_x (state w))
         (set_reg_bx (signed_to_reg16 (World.counter_w w)) (World.set_counter_w 0 w))).
Proof.
  intros Hb Hon. unfold get_button_data, get_reset_wheel_16bit.
  rewrite Hb, Hon. reflexivity.
Qed.

(** What a wheel query answers and leaves: the value returned and the
    wheel counter afterwards. *)
Definition wheel_query (C : Collaborators) (ax : Z) (w : World) : Z * Z :=
  let w' := Machine.int33 C ax 0xffff 0 0 w in
  (if ax =? 0x03 then Regs.bh (regs w') else Regs.bx (regs w'), World.counter_w w').

Lemma wheel_query_03 (C : Collaborators) (w : World) :
  State.wheel_api (state w) = true -> Int.is_s8 (World.counter_w w) ->
  wheel_query C 0x03 w = (World.counter_w w mod 256, 0) /\
  State.wheel_api (state (Machine.int33 C 0x03 0xffff 0 0 w)) = true.
Proof.
  intros Hon Hc. unfold wheel_query, Machine.int33. cbn [Z.eqb Pos.eqb].
  rewrite int33_03_world by reflexivity.
  unfold query_wheel. rewrite state_on_regs, Hon. cbn [fst snd].
  unfold set_reg_dx, set_reg_cx. rewrite !state_on_regs, !counter_w_on_regs, !regs_on_regs.
  unfold Regs.bh, Regs.set_bh. cbn [Regs.bx Regs.set_bx Regs.set_cx Regs.set_dx].
  rewrite high_byte_with_high_byte.
  change (World.counter_w (on_regs ?f w)) with (World.counter_w w).
  rewrite signed_to_reg8_mod by exact Hc. rewrite Z.mod_mod by lia.
  split; [reflexivity|exact Hon].
Qed.

Lemma wheel_query_05_06 (C : Collaborators) (ax : Z) (w : World) :
  ax = 0x05 \/ ax = 0x06 ->
  State.wheel_api (state w) = true -> Int.is_s8 (World.counter_w w) ->
  wheel_query C ax w = (World.counter_w w mod 65536, 0) /\
  State.wheel_api (state (Machine.int33 C ax 0xffff 0 0 w)) = true.
Proof.
  intros Hax Hon Hc. unfold wheel_query, Machine.int33.
  assert (Hs : signed_to_reg16 (World.counter_w w) = World.counter_w w mod 65536)
    by (apply signed_to_reg16_mod; unfold Int.is_s8, Int.is_s16 in *; lia).
  destruct Hax as [-> | ->]; cbn [Z.eqb Pos.eqb].
  - rewrite int33_05 by reflexivity.
    rewrite get_button_data_wheel by (reflexivity || exact Hon).
    change (World.counter_w (on_regs ?f w)) with (World.counter_w w). rewrite Hs.
    split; [reflexivity|exact Hon].
  - rewrite int33_06 by reflexivity.
    rewrite get_button_data_wheel by (reflexivity || exact Hon).
    change (World.counter_w (on_regs ?f w)) with (World.counter_w w). rewrite Hs.
    split; [reflexivity|exact Hon].
Qed.

(** C2.  With the wheel extension on, the wheel counter saturates: after
    any wheel movements it is an [int8_t] obtained by clamping at every
    step, so that movements in one direction whose sum goes beyond 127 (or
    below -128) leave it at 127 (at -128), never wrapped.  A wheel query
    (BH of function 0x03, or BX of functions 0x05 and 0x06 with button
    index 0xffff) returns the counter in two's complement and sets it to 0,
    and the same query made again returns 0. *)
Theorem wheel_counter_saturates (C : Collaborators) (ts : list Z) (w : World) :
  State.wheel_api (state w) = true ->
  Pending.w_rel (World.pending w) = 0 ->
  Int.is_s8 (World.counter_w w) ->
  let after := wheel_ticks C ts w in
  let c := World.counter_w after in
  -128 <= c <= 127 /\
  (forall t, World.counter_w (wheel_tick C t w)
             = Z.max (-128) (Z.min 127 (World.counter_w w + Z.max (-128) (Z.min 127 t)))) /\
  ((forall t, In t ts -> 0 <= t <= 127) ->
   c = Z.min 127 (World.counter_w w + total ts)) /\
  ((forall t, In t ts -> -128 <= t <= 0) ->
   c = Z.max (-128) (World.counter_w w + total ts)) /\
  (forall ax, ax = 0x03 \/ ax = 0x05 \/ ax = 0x06 ->
   let width := if ax =? 0x03 then 256 else 65536 in
   wheel_query C ax after = (c mod width, 0) /\
   wheel_query C ax (Machine.int33 C ax 0xffff 0 0 after) = (0, 0)).
Proof.
  intros Hon Hp Hc after c.
  assert (Hw : wheel_ready w) by (repeat split; assumption || apply Hc).
  pose proof (wheel_ticks_ready C ts w Hw) as (Aon & Ap & Ac).
  fold after in Aon, Ap, Ac. fold c in Ac.
  split; [exact Ac|].
  split.
  { intros t. destruct (wheel_tick_counter C t w Hw) as [E _].
    rewrite E, !clamp_to_int8_spec. reflexivity. }
  assert (Hmap : forall l, (forall t, In t l -> -128 <= t <= 127) ->
                           map clamp_to_int8 l = l).
  { induction l as [|x l IH]; intros Hl; [reflexivity|].
    cbn [map]. rewrite IH by (intros y Hy; apply Hl; right; exact Hy).
    pose proof (Hl x ltac:(left; reflexivity)).
    rewrite clamp_to_int8_spec. f_equal. lia. }
  split.
  { intros Hts. subst c after.
    rewrite wheel_ticks_up by (try exact Hw; intros t Ht; specialize (Hts t Ht); lia).
    rewrite Hmap by (intros t Ht; specialize (Hts t Ht); lia). reflexivity. }
  split.
  { intros Hts. subst c after.
    rewrite wheel_ticks_down by (try exact Hw; intros t Ht; specialize (Hts t Ht); lia).
    rewrite Hmap by (intros t Ht; specialize (Hts t Ht); lia). reflexivity. }
  intros ax Hax width. subst width. clearbody after. subst c.
  assert (Hz : Int.is_s8 0) by (unfold Int.is_s8; lia).
  destruct Hax as [-> | Hax].
  - cbn [Z.eqb Pos.eqb].
    destruct (wheel_query_03 C after Aon Ac) as [Q1 Q2].
    split; [exact Q1|].
    pose proof (f_equal snd Q1) as Q0. unfold wheel_query in Q0. cbn [snd] in Q0.
    destruct (wheel_query_03 C _ Q2 ltac:(rewrite Q0; exact Hz)) as [Q3 _].
    rewrite Q3, Q0. reflexivity.
  - assert (Hw' : (if ax =? 3 then 256 else 65536) = 65536)
      by (destruct Hax as [-> | ->]; reflexivity).
    rewrite Hw'.
    destruct (wheel_query_05_06 C ax after Hax Aon Ac) as [Q1 Q2].
    split; [exact Q1|].
    pose proof (f_equal snd Q1) as Q0. unfold wheel_query in Q0. cbn [snd] in Q0.
    destruct (wheel_query_05_06 C ax _ Hax Q2 ltac:(rewrite Q0; exact Hz)) as [Q3 _].
    rewrite Q3, Q0. reflexivity.
Qed.

(** The wheel extension enabled after the start. *)
Definition wheel_enabled : World :=
  Machine.int33 Machine.text 0x11 0 0 0 (Machine.booted Machine.text).

Lemma wheel_counter_saturates_witness :
  let C := Machine.text in
  let up := wheel_ticks C [100; 20; 30] wheel_enabled in
  let down := wheel_ticks C [-100; -100] wheel_enabled in
  World.counter_w up = 127 /\ World.counter_w down = -128 /\
  wheel_query C 0x03 up = (127, 0) /\
  wheel_query C 0x05 down = (65408, 0) /\
  wheel_query C 0x03 (Machine.int33 C 0x03 0xffff 0 0 up) = (0, 0).
Proof.
  intros C up down.
  assert (Hon : State.wheel_api (state wheel_enabled) = true) by (vm_compute; reflexivity).
  assert (Hp : Pending.w_rel (World.pending wheel_enabled) = 0)
    by (vm_compute; reflexivity).
  assert (Hc : Int.is_s8 (World.counter_w wheel_enabled))
    by (vm_compute; split; discriminate).
  destruct (wheel_counter_saturates C [100; 20; 30] wheel_enabled Hon Hp Hc)
    as (_ & _ & Hup & _ & Hq).
  destruct (wheel_counter_saturates C [-100; -100] wheel_enabled Hon Hp Hc)
    as (_ & _ & _ & Hdown & Hq').
  assert (Eu : World.counter_w up = 127).
  { etransitivity; [apply Hup|vm_compute; reflexivity].
    intros t [<-|[<-|[<-|[]]]]; lia. }
  assert (Ed : World.counter_w down = -128).
  { etransitivity; [apply Hdown|vm_compute; reflexivity].
    intros t [<-|[<-|[]]]; lia. }
  destruct (Hq 0x03 ltac:(left; reflexivity)) as [Q1 Q2].
  destruct (Hq' 0x05 ltac:(right; left; reflexivity)) as [Q3 _].
  split; [exact Eu|]. split; [exact Ed|].
  split; [etransitivity; [exact Q1|]; fold up; rewrite Eu; reflexivity|].
  split; [etransitivity; [exact Q3|]; fold down; rewrite Ed; reflexivity|].
  exact Q2.
Defined.

(** * The update-exclusion rectangle *)

(** In a text mode, with the position in the update region and no cursor
    on the screen, a draw call only refreshes the video mode. *)
Lemma DrawCursor_text_in_region (C : Collaborators) (w : World) :
  (forall tr, mode_type (CurMode C tr) = M_TEXT) ->
  in_update_region (state w) (get_pos_x w) (get_pos_y w) = true ->
  on_screen w = false ->
  MOUSEDOS_DrawCursor C w = if drawing_off (state w) then w else emit EvSetCurMode w.
Proof.
  intros Ht Hin Hoff. unfold MOUSEDOS_DrawCursor, drawing_off.
  destruct (negb (State.hidden (state w) =? 0) || State.inhibit_draw (state w)) eqn:Hd;
    [reflexivity|].
  rewrite Ht. unfold INT10_SetCurMode, draw_cursor_text.
  rewrite (restore_text_nothing C (emit EvSetCurMode w))
    by (unfold nothing_to_restore; unfold on_screen in Hoff;
        change (state (emit EvSetCurMode w)) with (state w);
        rewrite Hoff; apply orb_true_r).
  change (get_pos_x (emit EvSetCurMode w)) with (get_pos_x w).
  change (get_pos_y (emit EvSetCurMode w)) with (get_pos_y w).
  change (state (emit EvSetCurMode w)) with (state w).
  rewrite Hin. reflexivity.
Qed.

(** A world after [n] refreshes of the video mode. *)
Definition refreshed (n : nat) (w : World) : World :=
  Nat.iter n (emit EvSetCurMode) w.

Lemma refreshed_frame (n : nat) (w : World) :
  state (refreshed n w) = state w /\
  World.pos_x (refreshed n w) = World.pos_x w /\
  World.pos_y (refreshed n w) = World.pos_y w /\
  World.trace (refreshed n w) = repeat EvSetCurMode n ++ World.trace w.
Proof.
  induction n as [|n (Hs & Hx & Hy & Ht)]; [repeat split|].
  change (refreshed (S n) w) with (emit EvSetCurMode (refreshed n w)).
  repeat split; [exact Hs|exact Hx|exact Hy|].
  change (World.trace (emit EvSetCurMode (refreshed n w)))
    with (EvSetCurMode :: World.trace (refreshed n w)).
  rewrite Ht. reflexivity.
Qed.

Lemma DrawCursor_text_in_region_many (C : Collaborators) (n : nat) (w : World) :
  (forall tr, mode_type (CurMode C tr) = M_TEXT) ->
  in_update_region (state w) (get_pos_x w) (get_pos_y w) = true ->
  on_screen w = false ->
  Nat.iter n (MOUSEDOS_DrawCursor C) w
  = if drawing_off (state w) then w else refreshed n w.
Proof.
  intros Ht Hin Hoff. induction n as [|n IH].
  - destruct (drawing_off (state w)); reflexivity.
  - change (Nat.iter (S n) (MOUSEDOS_DrawCursor C) w)
      with (MOUSEDOS_DrawCursor C (Nat.iter n (MOUSEDOS_DrawCursor C) w)).
    rewrite IH. destruct (drawing_off (state w)) eqn:Hd.
    + rewrite (DrawCursor_text_in_region C w Ht Hin Hoff), Hd. reflexivity.
    + destruct (refreshed_frame n w) as (Hs & Hx & Hy & _).
      rewrite DrawCursor_text_in_region.
      * rewrite Hs, Hd. reflexivity.
      * exact Ht.
      * unfold get_pos_x, get_pos_y in *. rewrite Hs, Hx, Hy. exact Hin.
      * unfold on_screen in *. rewrite Hs. exact Hoff.
Qed.

(** C9.  In a text mode, while the position of the cursor lies in the
    update-exclusion rectangle and no cursor is on the screen, any number
    of draw calls saves and restores nothing: the world stays as it is but for the refreshes of the video mode, one
    per draw call (none at all while the cursor is hidden or drawing
    inhibited), so the flag of the saved background stays false.  In a graphic mode the rectangle is
    not looked at: with drawing on, a draw call saves the background and
    sets the flag, wherever the position lies. *)
Theorem update_exclusion_text_only (C : Collaborators) (n : nat) (w : World) :
  in_update_region (state w) (get_pos_x w) (get_pos_y w) = true ->
  on_screen w = false ->
  let w' := Nat.iter n (MOUSEDOS_DrawCursor C) w in
  ((forall tr, mode_type (CurMode C tr) = M_TEXT) ->
   w' = (if drawing_off (state w) then w else refreshed n w) /\
   on_screen w' = false /\ state w' = state w /\
   World.trace w'
   = (if drawing_off (state w) then [] else repeat EvSetCurMode n) ++ World.trace w) /\
  ((forall tr, mode_type (CurMode C tr) = M_GRAPHICS) ->
   drawing_off (state w) = false -> (0 < n)%nat -> on_screen w' = true).
Proof.
  intros Hin Hoff w'. split.
  - intros Ht. subst w'.
    rewrite (DrawCursor_text_in_region_many C n w Ht Hin Hoff).
    destruct (refreshed_frame n w) as (Hs & _ & _ & Htr).
    destruct (drawing_off (state w)).
    + repeat split. exact Hoff.
    + split; [reflexivity|].
      split; [unfold on_screen in *; rewrite Hs; exact Hoff|].
      split; [exact Hs|exact Htr].
  - intros Hg Hon Hn. subst w'.
    destruct n as [|n]; [lia|].
    change (Nat.iter (S n) (MOUSEDOS_DrawCursor C) w)
      with (MOUSEDOS_DrawCursor C (Nat.iter n (MOUSEDOS_DrawCursor C) w)).
    apply DrawCursor_graphic_on_screen; [|apply Hg].
    assert (Hk : drawing_off (state (Nat.iter n (MOUSEDOS_DrawCursor C) w))
                 = drawing_off (state w)).
    { clear. induction n as [|n IH]; [reflexivity|].
      change (Nat.iter (S n) (MOUSEDOS_DrawCursor C) w)
        with (MOUSEDOS_DrawCursor C (Nat.iter n (MOUSEDOS_DrawCursor C) w)).
      rewrite (render_only_keeps (fun x => drawing_off (state x)) (MOUSEDOS_DrawCursor C))
        by (reflexivity || apply render_only_DrawCursor).
      exact IH. }
    rewrite Hk. exact Hon.
Qed.

(** A call of function 0x10 that declares the whole screen, [0..right] by
    [0..bottom], as the update region. *)
Definition exclude_screen (C : Collaborators) (right bottom : Z) (w : World) : World :=
  int33_handler C
    (on_regs (fun r => Regs.set_di bottom (Regs.set_si right r))
       (on_regs (fun r => Regs.set_dx 0 (Regs.set_cx 0 (Regs.set_ax 0x10 r))) w)).

(** Text mode: the cursor is shown, then the whole screen is excluded; the
    draw call of function 0x10 takes the cursor off the screen. *)
Definition text_screen_excluded : World :=
  exclude_screen Machine.text 639 199 (show Machine.text (Machine.booted Machine.text)).

Lemma update_exclusion_text_only_witness :
  let C := Machine.text in
  let w := text_screen_excluded in
  let w' := Nat.iter 3 (MOUSEDOS_DrawCursor C) w in
  State.hidden (state w) = 0 /\
  State.update_region_x (state w) = (0, 639) /\
  State.update_region_y (state w) = (0, 199) /\
  (get_pos_x w, get_pos_y w) = (320, 96) /\
  on_screen w' = false /\ state w' = state w /\
  World.trace w' = [EvSetCurMode; EvSetCurMode; EvSetCurMode] ++ World.trace w.
Proof.
  intros C w w'.
  assert (Hin : in_update_region (state w) (get_pos_x w) (get_pos_y w) = true)
    by (vm_compute; reflexivity).
  assert (Hoff : on_screen w = false) by (vm_compute; reflexivity).
  destruct (update_exclusion_text_only C 3 w Hin Hoff) as [Ht _].
  destruct (Ht (fun _ => eq_refl)) as (_ & Hs & Hst & Htr).
  split; [vm_compute; reflexivity|].
  split; [vm_compute; reflexivity|].
  split; [vm_compute; reflexivity|].
  split; [vm_compute; reflexivity|].
  split; [exact Hs|]. split; [exact Hst|].
  etransitivity; [exact Htr|]. vm_compute; reflexivity.
Defined.

(** Graphic mode 0x12: the cursor is shown, the driver disabled and enabled
    again (functions 0x1f and 0x20, after which function 0x20 brings back a
    hidden count of zero), the cursor hidden, the whole screen excluded, and
    the driver enabled once more: the cursor is to be drawn, none is on the
    screen, and the position lies in the update region. *)
Definition graphic_screen_excluded : World :=
  let C := Machine.graphic in
  let w := show C (Machine.booted C) in
  let w := Machine.int33 C 0x20 0 0 0 (Machine.int33 C 0x1f 0 0 0 w) in
  let w := exclude_screen C 639 479 (hide C w) in
  Machine.int33 C 0x20 0 0 0 w.

(** In a graphic mode a draw call saves the background although the update
    region covers the screen and the position lies in it. *)
Lemma update_exclusion_ignored_in_graphic_modes :
  let C := Machine.graphic in
  let w := graphic_screen_excluded in
  State.update_region_x (state w) = (0, 639) /\
  State.update_region_y (state w) = (0, 479) /\
  (get_pos_x w, get_pos_y w) = (320, 240) /\
  in_update_region (state w) (get_pos_x w) (get_pos_y w) = true /\
  drawing_off (state w) = false /\
  Background.enabled (State.background (state w)) = false /\
  ~ (forall n, Background.enabled
                 (State.background (state (Nat.iter n (MOUSEDOS_DrawCursor C) w))) = false).
Proof.
  intros C w.
  split; [vm_compute; reflexivity|].
  split; [vm_compute; reflexivity|].
  split; [vm_compute; reflexivity|].
  split; [vm_compute; reflexivity|].
  split; [vm_compute; reflexivity|].
  split; [vm_compute; reflexivity|].
  intros H. specialize (H 1%nat). vm_compute in H. discriminate H.
Qed.
